(** * opencode-tps-meter: a shallow embedding and its verified properties

    The development follows the TypeScript sources:
    - [Constants]    src/constants.ts
    - [Tracker]      src/tracker.ts (rolling-window tracker, no smoothing)
    - [TrackerEwma]  the tracker revision with EWMA smoothing
    - [TokenCounter] src/tokenCounter.ts
    - [UI]           the UI manager (throttled display, sink fallback chain)
    - [Plugin]       src/index.ts (event handlers, stream registry)
    - [ConfigFile]   the configuration loader (files, environment, defaults)

    Conventions.  Timestamps, durations and token counts are JavaScript
    numbers holding integers; they are modelled by [Z].  Rates (tokens per
    second) are modelled by the real numbers [R]: IEEE rounding is not
    modelled, so statements about rates are statements in exact arithmetic.
    [Date.now()] is an explicit argument ([clock], [now]); one reading is
    shared by all the reads a single synchronous call makes.  Strings are
    [string]; a character stands for one UTF-16 code unit in the range 0
    to 255.  The numbers of the configuration are modelled by [Q], which
    holds every finite double. *)

From Stdlib Require Import ZArith List String Ascii Bool Lia.
From Stdlib Require Import Reals Lra Sorted Permutation.
From Stdlib Require Import QArith Qminmax.
Import ListNotations.

Local Open Scope string_scope.
Local Open Scope list_scope.
Local Open Scope Z_scope.

(* ================================================================== *)
(** * Constants (src/constants.ts) *)
(* ================================================================== *)

Module Constants.

Definition MIN_TPS_ELAPSED_MS : Z := 250.
Definition DEFAULT_ROLLING_WINDOW_MS : Z := 1000.
Definition MAX_BUFFER_SIZE : Z := 100.
(** 0.1 seconds. *)
Definition MIN_WINDOW_DURATION_SECONDS : R := (1 / 10)%R.
Definition BURST_TOKEN_THRESHOLD : Z := 50.
Definition DEFAULT_EWMA_HALF_LIFE_MS : Z := 500.
Definition BURST_EWMA_HALF_LIFE_MS : Z := 3000.
Definition LARGE_BURST_THRESHOLD : Z := 200.
Definition LARGE_BURST_EWMA_HALF_LIFE_MS : Z := 5000.
Definition MAX_INITIAL_TPS : Z := 100.

Definition DEFAULT_UPDATE_INTERVAL_MS : Z := 50.
Definition MIN_TOAST_INTERVAL_MS : Z := 150.
Definition DEFAULT_TOAST_DURATION_MS : Z := 20000.
Definition FINAL_STATS_DURATION_MS : Z := 2000.

Definition MAX_MESSAGE_AGE_MS : Z := 5 * 60 * 1000.
Definition CLEANUP_INTERVAL_MS : Z := 30000.

Definition CHARS_DIV_4 : Z := 4.
Definition CHARS_DIV_3 : Z := 3.

Definition INVALID_FINISH_REASONS : list string := ["tool-calls"; "unknown"].
Definition COUNTABLE_PART_TYPES : list string := ["text"; "reasoning"].

(** [Set.prototype.has] on a set of strings. *)
Definition has (s : list string) (x : string) : bool :=
  existsb (String.eqb x) s.

End Constants.

(* ================================================================== *)
(** * Shared tracker data (src/types.ts) *)
(* ================================================================== *)

Record BufferEntry : Type := mkEntry { timestamp : Z; count : Z }.

Record TPSTrackerOptions : Type := mkOptions {
  opt_sessionId : option string;
  opt_rollingWindowMs : option Z
}.

(** The calls of the [TPSTracker] interface, as data, so that arbitrary
    call sequences can be quantified over. *)
Inductive TrackerOp : Type :=
| RecordTokens (count : Z) (timestamp : option Z)
| GetInstantTPS
| GetSmoothedTPS
| GetAverageTPS
| GetTotalTokens
| GetElapsedMs
| GetSessionId
| Reset
| GetBufferSize
| GetMaxBufferSize
| GetWindowMs.

(** [options.rollingWindowMs] when it is a positive number, else the default. *)
Definition resolveWindowMs (options : TPSTrackerOptions) : Z :=
  match opt_rollingWindowMs options with
  | Some w => if 0 <? w then w else Constants.DEFAULT_ROLLING_WINDOW_MS
  | None => Constants.DEFAULT_ROLLING_WINDOW_MS
  end.

(** [timestamp ?? Date.now()]. *)
Definition orClock (timestamp : option Z) (clock : Z) : Z :=
  match timestamp with
  | Some x => x
  | None => clock
  end.

(** Accumulators of the loop over the buffer in [getInstantTPS] /
    [calculateRawTPS]: tokens in the window, oldest and newest timestamp. *)
Record WindowAcc : Type := mkAcc {
  tokensInWindow : Z;
  oldestTimestamp : Z;
  newestTimestamp : Z
}.

(** One iteration of [for (const entry of buffer)]. *)
Definition windowStep (cutoff : Z) (acc : WindowAcc) (entry : BufferEntry) : WindowAcc :=
  if cutoff <=? timestamp entry then
    mkAcc (tokensInWindow acc + count entry)
          (if timestamp entry <? oldestTimestamp acc
           then timestamp entry else oldestTimestamp acc)
          (if newestTimestamp acc <? timestamp entry
           then timestamp entry else newestTimestamp acc)
  else acc.

(** The body shared by [getInstantTPS] (src/tracker.ts) and
    [calculateRawTPS] (EWMA revision): the rate over the rolling window. *)
Definition windowRate (windowMs : Z) (buffer : list BufferEntry) (now : Z) : R :=
  match buffer with
  | [] => 0%R
  | _ =>
    let cutoff := now - windowMs in
    let acc := fold_left (windowStep cutoff) buffer (mkAcc 0 now 0) in
    if tokensInWindow acc =? 0 then 0%R
    else
      let windowDurationMs := newestTimestamp acc - oldestTimestamp acc in
      let windowDurationSeconds := (IZR windowDurationMs / 1000)%R in
      let effectiveDuration :=
        Rmax windowDurationSeconds Constants.MIN_WINDOW_DURATION_SECONDS in
      (IZR (tokensInWindow acc) / effectiveDuration)%R
  end.

(** [totalTokens / elapsedSeconds], or 0 when no time has elapsed. *)
Definition averageRate (startTime totalTokens clock : Z) : R :=
  if clock - startTime =? 0 then 0%R
  else (IZR totalTokens / (IZR (clock - startTime) / 1000))%R.

(** [buffer.slice(-n)]: the last [n] entries. *)
Definition sliceLast {A : Type} (n : Z) (l : list A) : list A :=
  skipn (List.length l - Z.to_nat n) l.

(* ================================================================== *)
(** * src/tracker.ts *)
(* ================================================================== *)

Module Tracker.

Record t : Type := mk {
  startTime : Z;
  totalTokens : Z;
  buffer : list BufferEntry;
  sessionId : option string;
  windowMs : Z
}.

Definition createTracker (options : TPSTrackerOptions) (clock : Z) : t :=
  mk clock 0 [] (opt_sessionId options) (resolveWindowMs options).

(** The [while] loop of [pruneBuffer]: the index of the first entry that is
    not older than [cutoff]. *)
Fixpoint validStartIndex (cutoff : Z) (buffer : list BufferEntry) : nat :=
  match buffer with
  | [] => 0%nat
  | e :: rest =>
    if timestamp e <? cutoff then S (validStartIndex cutoff rest) else 0%nat
  end.

Definition pruneBuffer (now : Z) (tr : t) : t :=
  let cutoff := now - windowMs tr in
  let idx := validStartIndex cutoff (buffer tr) in
  let buffer1 := if (0 <? idx)%nat then skipn idx (buffer tr) else buffer tr in
  let buffer2 :=
    if Constants.MAX_BUFFER_SIZE <? Z.of_nat (List.length buffer1)
    then sliceLast Constants.MAX_BUFFER_SIZE buffer1
    else buffer1 in
  mk (startTime tr) (totalTokens tr) buffer2 (sessionId tr) (windowMs tr).

Definition recordTokens (count : Z) (timestamp : option Z) (clock : Z) (tr : t) : t :=
  let ts := orClock timestamp clock in
  let tr1 := mk (startTime tr) (totalTokens tr + count)
                (buffer tr ++ [mkEntry ts count]) (sessionId tr) (windowMs tr) in
  pruneBuffer ts tr1.

Definition getInstantTPS (clock : Z) (tr : t) : R :=
  windowRate (windowMs tr) (buffer tr) clock.

Definition getAverageTPS (clock : Z) (tr : t) : R :=
  averageRate (startTime tr) (totalTokens tr) clock.

Definition getTotalTokens (tr : t) : Z := totalTokens tr.
Definition getElapsedMs (clock : Z) (tr : t) : Z := clock - startTime tr.
Definition getSessionId (tr : t) : option string := sessionId tr.
Definition getBufferSize (tr : t) : Z := Z.of_nat (List.length (buffer tr)).
Definition getMaxBufferSize (tr : t) : Z := Constants.MAX_BUFFER_SIZE.
Definition getWindowMs (tr : t) : Z := windowMs tr.

Definition reset (clock : Z) (tr : t) : t :=
  mk clock 0 [] (sessionId tr) (windowMs tr).

(** The state after one interface call made when the clock reads [clock];
    the accessors leave the state as it is.  This revision has no
    [getSmoothedTPS]; the call is kept in [TrackerOp] for the later one. *)
Definition step (tr : t) (call : Z * TrackerOp) : t :=
  match snd call with
  | RecordTokens c ts => recordTokens c ts (fst call) tr
  | Reset => reset (fst call) tr
  | _ => tr
  end.

Definition run (calls : list (Z * TrackerOp)) (tr : t) : t :=
  fold_left step calls tr.

End Tracker.

(* ================================================================== *)
(** * The tracker with EWMA smoothing *)
(* ================================================================== *)

Module TrackerEwma.

Record t : Type := mk {
  startTime : Z;
  totalTokens : Z;
  buffer : list BufferEntry;
  sessionId : option string;
  windowMs : Z;
  smoothedTps : R;
  lastSmoothedAt : Z;
  hasSmoothedValue : bool
}.

Definition createTracker (options : TPSTrackerOptions) (clock : Z) : t :=
  mk clock 0 [] (opt_sessionId options) (resolveWindowMs options) 0%R 0 false.

(** [Array.prototype.findIndex]: the index of the first element satisfying
    [p], or -1. *)
Fixpoint findIndexFrom {A : Type} (p : A -> bool) (i : Z) (l : list A) : Z :=
  match l with
  | [] => -1
  | x :: rest => if p x then i else findIndexFrom p (i + 1) rest
  end.

Definition findIndex {A : Type} (p : A -> bool) (l : list A) : Z :=
  findIndexFrom p 0 l.

(** [buffer.splice(0, n)] for its effect on the array: the first [n]
    entries are removed. *)
Definition spliceFront {A : Type} (n : Z) (l : list A) : list A :=
  skipn (Z.to_nat n) l.

Definition setBuffer (b : list BufferEntry) (tr : t) : t :=
  mk (startTime tr) (totalTokens tr) b (sessionId tr) (windowMs tr)
     (smoothedTps tr) (lastSmoothedAt tr) (hasSmoothedValue tr).

Definition pruneBuffer (now : Z) (tr : t) : t :=
  let cutoff := now - windowMs tr in
  let validStartIndex := findIndex (fun e => cutoff <=? timestamp e) (buffer tr) in
  let buffer1 :=
    if validStartIndex =? -1 then []
    else if 0 <? validStartIndex then spliceFront validStartIndex (buffer tr)
    else buffer tr in
  let buffer2 :=
    if Constants.MAX_BUFFER_SIZE <? Z.of_nat (List.length buffer1)
    then spliceFront (Z.of_nat (List.length buffer1) - Constants.MAX_BUFFER_SIZE) buffer1
    else buffer1 in
  setBuffer buffer2 tr.

Definition calculateRawTPS (now : Z) (tr : t) : R :=
  windowRate (windowMs tr) (buffer tr) now.

(** The half-life [recordTokens] picks for a count. *)
Definition halfLife (count : Z) : Z :=
  if Constants.BURST_TOKEN_THRESHOLD <? count
  then Constants.BURST_EWMA_HALF_LIFE_MS
  else Constants.DEFAULT_EWMA_HALF_LIFE_MS.

(** [Math.exp(-Math.LN2 * timeDelta / halfLife)], as the real number the
    expression denotes.  The code computes it in double precision: there
    the weight is rounded, and [1 - alpha] is exactly 1 once [timeDelta]
    exceeds about 54 half-lives.  Strict inequalities between smoothed
    rates are therefore stated only with a margin that this rounding does
    not use up. *)
Definition ewmaAlpha (timeDelta halfLifeMs : Z) : R :=
  exp (- ln 2 * IZR timeDelta / IZR halfLifeMs)%R.

Definition recordTokens (count : Z) (timestamp : option Z) (clock : Z) (tr : t) : t :=
  let ts := orClock timestamp clock in
  let tr1 := mk (startTime tr) (totalTokens tr + count)
                (buffer tr ++ [mkEntry ts count]) (sessionId tr) (windowMs tr)
                (smoothedTps tr) (lastSmoothedAt tr) (hasSmoothedValue tr) in
  let tr2 := pruneBuffer ts tr1 in
  let rawTPS := calculateRawTPS ts tr2 in
  let smoothed :=
    if negb (hasSmoothedValue tr2) then rawTPS
    else
      let timeDelta := Z.max 1 (ts - lastSmoothedAt tr2) in
      let alpha := ewmaAlpha timeDelta (halfLife count) in
      (alpha * smoothedTps tr2 + (1 - alpha) * rawTPS)%R in
  mk (startTime tr2) (totalTokens tr2) (buffer tr2) (sessionId tr2) (windowMs tr2)
     smoothed ts true.

Definition getInstantTPS (clock : Z) (tr : t) : R := calculateRawTPS clock tr.

Definition getSmoothedTPS (clock : Z) (tr : t) : R :=
  if hasSmoothedValue tr then smoothedTps tr else calculateRawTPS clock tr.

Definition getAverageTPS (clock : Z) (tr : t) : R :=
  averageRate (startTime tr) (totalTokens tr) clock.

Definition getTotalTokens (tr : t) : Z := totalTokens tr.
Definition getElapsedMs (clock : Z) (tr : t) : Z := clock - startTime tr.
Definition getSessionId (tr : t) : option string := sessionId tr.
Definition getBufferSize (tr : t) : Z := Z.of_nat (List.length (buffer tr)).
Definition getMaxBufferSize (tr : t) : Z := Constants.MAX_BUFFER_SIZE.
Definition getWindowMs (tr : t) : Z := windowMs tr.

Definition reset (clock : Z) (tr : t) : t :=
  mk clock 0 [] (sessionId tr) (windowMs tr) 0%R 0 false.

Definition step (tr : t) (call : Z * TrackerOp) : t :=
  match snd call with
  | RecordTokens c ts => recordTokens c ts (fst call) tr
  | Reset => reset (fst call) tr
  | _ => tr
  end.

Definition run (calls : list (Z * TrackerOp)) (tr : t) : t :=
  fold_left step calls tr.

End TrackerEwma.

(* ================================================================== *)
(** * Token counting (src/tokenCounter.ts) *)
(* ================================================================== *)

Module TokenCounter.

Inductive TokenizerAlgorithm : Type := heuristic | word | code.

(** [Math.ceil(a / b)] for integers [a >= 0] and [b > 0]. *)
Definition ceilDiv (a b : Z) : Z := (a + b - 1) / b.

Definition countByChars (text : string) (divisor : Z) : Z :=
  if (String.length text =? 0)%nat then 0
  else ceilDiv (Z.of_nat (String.length text)) divisor.

(** White space as [String.prototype.trim] and [\s] see it, among the code
    units 0 to 255 that a character of [string] stands for: space, tab,
    line feed, vertical tab, form feed, carriage return and the no-break
    space U+00A0. *)
Definition isSpace (c : ascii) : bool :=
  let n := nat_of_ascii c in
  ((n =? 32) || (n =? 9) || (n =? 10) || (n =? 11) || (n =? 12) || (n =? 13)
   || (n =? 160))%nat.

(** [trimmed.split(/\s+/).length] for a trimmed, non-empty text: the number
    of maximal runs of non-space characters.  [inWord] tells whether the
    previous character belonged to a word. *)
Fixpoint countWordsFrom (inWord : bool) (text : string) : Z :=
  match text with
  | EmptyString => 0
  | String c rest =>
    if isSpace c then countWordsFrom false rest
    else (if inWord then 0 else 1) + countWordsFrom true rest
  end.

(** [Math.ceil(wordCount / 0.75)]; a text with no word at all is the case
    in which [text.trim()] is empty. *)
Definition countByWords (text : string) : Z :=
  if (String.length text =? 0)%nat then 0
  else
    let wordCount := countWordsFrom false text in
    if wordCount =? 0 then 0 else ceilDiv (wordCount * 4) 3.

Definition createTokenizer (algorithm : TokenizerAlgorithm) (text : string) : Z :=
  match algorithm with
  | heuristic => countByChars text Constants.CHARS_DIV_4
  | word => countByWords text
  | code => countByChars text Constants.CHARS_DIV_3
  end.

End TokenCounter.

(* ================================================================== *)
(** * Effects: state with exceptions *)
(* ================================================================== *)

(** A computation over a world [W] that either returns normally or raises
    a JavaScript exception; the world reached is kept in both cases. *)
Inductive Completion (A : Type) : Type :=
| Normal (a : A)
| Raised.
Arguments Normal {A} a.
Arguments Raised {A}.

Definition Eff (W A : Type) : Type := W -> Completion A * W.

Definition ret {W A : Type} (a : A) : Eff W A := fun w => (Normal a, w).

Definition bind {W A B : Type} (m : Eff W A) (k : A -> Eff W B) : Eff W B :=
  fun w =>
    match m w with
    | (Normal a, w') => k a w'
    | (Raised, w') => (Raised, w')
    end.

(** [try { body } catch { handler }]. *)
Definition tryCatch {W A : Type} (body handler : Eff W A) : Eff W A :=
  fun w =>
    match body w with
    | (Normal a, w') => (Normal a, w')
    | (Raised, w') => handler w'
    end.

Definition throw {W A : Type} : Eff W A := fun w => (Raised, w).
Definition get {W : Type} : Eff W W := fun w => (Normal w, w).
Definition modify {W : Type} (f : W -> W) : Eff W unit := fun w => (Normal tt, f w).

Declare Scope eff_scope.
Delimit Scope eff_scope with eff.
Notation "x <- m ;; k" := (bind m (fun x => k))
  (at level 61, m at next level, right associativity) : eff_scope.
Notation "m ;;; k" := (bind m (fun _ => k))
  (at level 61, right associativity) : eff_scope.

(* ================================================================== *)
(** * The UI manager (throttled display and sink fallback chain) *)
(* ================================================================== *)

Module UI.

Inductive Format : Type := compact | verbose | minimal.

Record UiConfig : Type := mkConfig {
  updateIntervalMs : Z;
  format : Format;
  showAverage : bool;
  showInstant : bool;
  showTotalTokens : bool;
  showElapsed : bool;
  enableColorCoding : bool;
  slowTpsThreshold : R;
  fastTpsThreshold : R
}.

Record DisplayState : Type := mkDisplay {
  instantTps : R;
  avgTps : R;
  totalTokens : Z;
  elapsedMs : Z
}.

Inductive Variant : Type := info | success | warning | error.

(** The body of a toast: title, message, variant, duration. *)
Record ToastBody : Type := mkBody {
  title : string;
  message : string;
  variant : Variant;
  duration : Z
}.

(** What a sink does when it is called: it returns, or it throws.  A
    returned promise gets a no-op rejection handler attached, which leaves
    the manager's state alone and is not modelled. *)
Inductive Outcome : Type := Returns | Throws.

Record Tui : Type := mkTui {
  showToast : option (ToastBody -> Outcome);
  publish : option (string -> ToastBody -> Outcome)
}.

Record Toast : Type := mkToast {
  toast_info : option (string -> Z -> Outcome);
  toast_success : option (string -> Z -> Outcome)
}.

Record OpenCodeClient : Type := mkClient {
  tui : option Tui;
  toast : option Toast
}.

(** [client.tui?.showToast], [client.tui?.publish], [client.toast?.info],
    [client.toast?.success]. *)
Definition tui_showToast (client : OpenCodeClient) :=
  match tui client with Some t => showToast t | None => None end.
Definition tui_publish (client : OpenCodeClient) :=
  match tui client with Some t => publish t | None => None end.
Definition client_toast_info (client : OpenCodeClient) :=
  match toast client with Some t => toast_info t | None => None end.
Definition client_toast_success (client : OpenCodeClient) :=
  match toast client with Some t => toast_success t | None => None end.

(** A call made to a sink, with its arguments. *)
Inductive SinkCall : Type :=
| CallShowToast (body : ToastBody)
| CallPublish (type : string) (properties : ToastBody)
| CallToastSuccess (message : string) (duration : Z)
| CallToastInfo (message : string) (duration : Z).

Record UiState : Type := mkUi {
  uiConfig : UiConfig;
  (** the armed flush timer, as the time at which it is due *)
  flushTimer : option Z;
  lastFlushAt : Z;
  lastToastAt : Z;
  lastToastMessage : string;
  pendingState : option DisplayState;
  lastDisplayedState : option DisplayState
}.

(** The world of the UI manager: its private state and the calls made to
    the client's sinks so far, oldest first. *)
Record World : Type := mkWorld {
  ui : UiState;
  calls : list SinkCall
}.

Definition createUIManager (config : UiConfig) : UiState :=
  mkUi config None 0 0 "" None None.

Definition Rltb (x y : R) : bool := if Rlt_dec x y then true else false.

Definition getColorVariant (cfg : UiConfig) (instantTps : R) (isFinal : bool) : Variant :=
  if isFinal then success
  else if negb (enableColorCoding cfg) then info
  else if Rltb instantTps (slowTpsThreshold cfg) then error
  else if Rltb (fastTpsThreshold cfg) instantTps then success
  else warning.

Local Open Scope eff_scope.

(** Calling a sink: the call is logged, then it returns or throws. *)
Definition callSink (c : SinkCall) (o : Outcome) : Eff World unit :=
  modify (fun w => mkWorld (ui w) (calls w ++ [c])) ;;;
  match o with Returns => ret tt | Throws => throw end.

Definition setLastToast (now : Z) (message : string) : Eff World unit :=
  modify (fun w =>
    let s := ui w in
    mkWorld (mkUi (uiConfig s) (flushTimer s) (lastFlushAt s) now message
                  (pendingState s) (lastDisplayedState s))
            (calls w)).

Definition display (client : OpenCodeClient) (now : Z)
    (message : string) (isFinal : bool) (instantTps : R) : Eff World unit :=
  w <- get ;;
  let s := ui w in
  let minToastIntervalMs :=
    Z.max Constants.MIN_TOAST_INTERVAL_MS (updateIntervalMs (uiConfig s) * 3) in
  let toastDuration :=
    Z.max Constants.DEFAULT_TOAST_DURATION_MS (minToastIntervalMs * 20) in
  if negb isFinal &&
     (String.eqb message (lastToastMessage s)
      || (now - lastToastAt s <? minToastIntervalMs))
  then ret tt
  else
    let variant := getColorVariant (uiConfig s) instantTps isFinal in
    displayed1 <-
      match tui_showToast client with
      | Some f =>
        let body := mkBody "TPS Meter" message variant
                           (if isFinal then 2000 else toastDuration) in
        tryCatch (callSink (CallShowToast body) (f body) ;;; ret true) (ret false)
      | None => ret false
      end ;;
    displayed2 <-
      match negb displayed1, tui_publish client with
      | true, Some f =>
        let props := mkBody "TPS Meter" message variant
                            (if isFinal then Constants.FINAL_STATS_DURATION_MS
                             else toastDuration) in
        tryCatch (callSink (CallPublish "tui.toast.show" props)
                           (f "tui.toast.show" props) ;;; ret true)
                 (ret displayed1)
      | _, _ => ret displayed1
      end ;;
    displayed3 <-
      match negb displayed2, client_toast_success client, client_toast_info client with
      | true, Some fsuccess, Some finfo =>
        tryCatch
          ((if isFinal
            then callSink (CallToastSuccess message Constants.FINAL_STATS_DURATION_MS)
                          (fsuccess message Constants.FINAL_STATS_DURATION_MS)
            else callSink (CallToastInfo message toastDuration)
                          (finfo message toastDuration)) ;;;
           ret true)
          (ret displayed2)
      | _, _, _ => ret displayed2
      end ;;
    if displayed3 then setLastToast now message else ret tt.

Section WithFormat.

(** [formatDisplay] renders numbers with [toFixed] and [toLocaleString];
    the rendering is taken as given. *)
Variable formatDisplay : UiConfig -> DisplayState -> string.

Definition setPending (p l : option DisplayState) : Eff World unit :=
  modify (fun w =>
    let s := ui w in
    mkWorld (mkUi (uiConfig s) (flushTimer s) (lastFlushAt s) (lastToastAt s)
                  (lastToastMessage s) p l)
            (calls w)).

Definition flushPendingUpdate (client : OpenCodeClient) (now : Z) : Eff World unit :=
  w <- get ;;
  match pendingState (ui w) with
  | Some p =>
    display client now (formatDisplay (uiConfig (ui w)) p) false (instantTps p) ;;;
    setPending None (Some p)
  | None => ret tt
  end.

Definition scheduleFlush (now : Z) : Eff World unit :=
  modify (fun w =>
    let s := ui w in
    match flushTimer s with
    | Some _ => w
    | None =>
      let delay :=
        if lastFlushAt s =? 0 then 0
        else Z.max 0 (updateIntervalMs (uiConfig s) - (now - lastFlushAt s)) in
      mkWorld (mkUi (uiConfig s) (Some (now + delay)) (lastFlushAt s) (lastToastAt s)
                    (lastToastMessage s) (pendingState s) (lastDisplayedState s))
              (calls w)
    end).

(** The callback of the flush timer, run when the timer fires at [now]. *)
Definition flushTimerFired (client : OpenCodeClient) (now : Z) : Eff World unit :=
  modify (fun w =>
    let s := ui w in
    mkWorld (mkUi (uiConfig s) None now (lastToastAt s)
                  (lastToastMessage s) (pendingState s) (lastDisplayedState s))
            (calls w)) ;;;
  flushPendingUpdate client now.

Definition updateDisplay (now : Z) (instantTps avgTps : R) (totalTokens elapsedMs : Z)
  : Eff World unit :=
  w <- get ;;
  setPending (Some (mkDisplay instantTps avgTps totalTokens elapsedMs))
             (lastDisplayedState (ui w)) ;;;
  scheduleFlush now.

Definition showFinalStats (client : OpenCodeClient) (now : Z)
    (totalTokens : Z) (avgTps : R) (elapsedMs : Z) : Eff World unit :=
  flushPendingUpdate client now ;;;
  modify (fun w =>
    let s := ui w in
    mkWorld (mkUi (uiConfig s) (flushTimer s) (lastFlushAt s) (lastToastAt s) ""
                  (pendingState s) (lastDisplayedState s))
            (calls w)) ;;;
  w <- get ;;
  display client now
    (formatDisplay (uiConfig (ui w)) (mkDisplay 0%R avgTps totalTokens elapsedMs))
    true 0%R.

Definition clear (client : OpenCodeClient) (now : Z) : Eff World unit :=
  modify (fun w =>
    let s := ui w in
    mkWorld (mkUi (uiConfig s) None (lastFlushAt s) (lastToastAt s)
                  (lastToastMessage s) (pendingState s) (lastDisplayedState s))
            (calls w)) ;;;
  flushPendingUpdate client now ;;;
  setPending None None.

Definition setUpdateInterval (ms : Z) : Eff World unit :=
  modify (fun w =>
    let s := ui w in
    let c := uiConfig s in
    mkWorld (mkUi (mkConfig ms (format c) (showAverage c) (showInstant c)
                            (showTotalTokens c) (showElapsed c) (enableColorCoding c)
                            (slowTpsThreshold c) (fastTpsThreshold c))
                  (flushTimer s) 0 (lastToastAt s)
                  (lastToastMessage s) (pendingState s) (lastDisplayedState s))
            (calls w)).

End WithFormat.

End UI.

(* ================================================================== *)
(** * JavaScript [Map] with string keys *)
(* ================================================================== *)

(** A [Map] iterates in insertion order, and the plugin's loops and its
    stable sort observe that order, so a map is an association list with
    pairwise distinct keys, oldest insertion first. *)
Module JsMap.

Definition t (V : Type) : Type := list (string * V).

Definition empty {V : Type} : t V := [].

Fixpoint get {V : Type} (k : string) (m : t V) : option V :=
  match m with
  | [] => None
  | (k', v) :: rest => if String.eqb k k' then Some v else get k rest
  end.

(** [set] replaces the value of a present key in place and appends an
    absent one. *)
Fixpoint set {V : Type} (k : string) (v : V) (m : t V) : t V :=
  match m with
  | [] => [(k, v)]
  | (k', v') :: rest =>
    if String.eqb k k' then (k', v) :: rest else (k', v') :: set k v rest
  end.

Fixpoint delete {V : Type} (k : string) (m : t V) : t V :=
  match m with
  | [] => []
  | (k', v') :: rest =>
    if String.eqb k k' then rest else (k', v') :: delete k rest
  end.

Definition has {V : Type} (k : string) (m : t V) : bool :=
  match get k m with Some _ => true | None => false end.

Definition size {V : Type} (m : t V) : Z := Z.of_nat (List.length m).
Definition keys {V : Type} (m : t V) : list string := map fst m.
Definition values {V : Type} (m : t V) : list V := map snd m.

(** Deleting, while iterating, every entry that satisfies [p]. *)
Definition deleteWhere {V : Type} (p : string -> V -> bool) (m : t V) : t V :=
  filter (fun kv => negb (p (fst kv) (snd kv))) m.

End JsMap.

(* ================================================================== *)
(** * The plugin (src/index.ts) *)
(* ================================================================== *)

Module Plugin.

(** ** Strings as JavaScript uses them *)

(** Truthiness of an optional string: present and not empty. *)
Definition truthy (s : option string) : bool :=
  match s with
  | Some x => negb (String.eqb x "")
  | None => false
  end.

(** [a || b] on optional strings. *)
Definition orElse (a b : option string) : option string :=
  if truthy a then a else b.

(** Truthiness of an optional number: present and not zero. *)
Definition truthyNum (n : option Z) : bool :=
  match n with
  | Some x => negb (x =? 0)
  | None => false
  end.

Fixpoint trimStart (s : string) : string :=
  match s with
  | EmptyString => EmptyString
  | String c rest => if TokenCounter.isSpace c then trimStart rest else s
  end.

Fixpoint rev_string (s acc : string) : string :=
  match s with
  | EmptyString => acc
  | String c rest => rev_string rest (String c acc)
  end.

(** [String.prototype.trim], for ASCII white space. *)
Definition trim (s : string) : string :=
  rev_string (trimStart (rev_string (trimStart s) "")) "".

(** [x?.trim()]. *)
Definition trimOpt (s : option string) : option string := option_map trim s.

(** [s.startsWith(p)] and [s.slice(n)]. *)
Definition startsWith (s p : string) : bool := String.prefix p s.
Definition sliceFrom (n : nat) (s : string) : string :=
  String.substring n (String.length s - n) s.

(** ** Events (src/types.ts) *)

Record AgentIdentity : Type := mkAgent {
  agent_id : option string;
  agent_type : option string;
  agent_name : option string;
  agent_description : option string
}.

(** The value found in an [agent] field: the declared object, or the bare
    agent name that [message.updated] events carry. *)
Inductive AgentValue : Type :=
| AgentObject (a : AgentIdentity)
| AgentString (s : string).

Definition agentTruthy (a : option AgentValue) : bool :=
  match a with
  | Some (AgentObject _) => true
  | Some (AgentString s) => negb (String.eqb s "")
  | None => false
  end.

(** [agent?.id], [agent?.type], [agent?.name]: a bare string has none. *)
Definition agentField (f : AgentIdentity -> option string) (a : option AgentValue)
  : option string :=
  match a with
  | Some (AgentObject o) => f o
  | _ => None
  end.

Record Part : Type := mkPart {
  part_id : string;
  part_sessionID : option string;
  part_messageID : string;
  part_type : string;
  part_text : option string;
  part_name : option string;
  part_agent : option AgentValue;
  part_agentId : option string;
  part_agentType : option string
}.

Inductive Role : Type := user | assistant | system.

Definition isAssistant (r : option Role) : bool :=
  match r with Some assistant => true | _ => false end.

Record MessageTime : Type := mkTime { created : Z; completed : option Z }.
Record MessageTokens : Type := mkTokens { output : Z; reasoning : option Z }.

Record MessageInfo : Type := mkInfo {
  info_id : string;
  info_sessionID : string;
  info_role : Role;
  info_time : option MessageTime;
  info_tokens : option MessageTokens;
  info_finish : option string;
  info_agent : option AgentValue;
  info_agentId : option string;
  info_agentType : option string
}.

(** What the [event] handler is called with, and the one callback the
    plugin itself schedules: the fallback display timer of a session. *)
Inductive Event : Type :=
| MessagePartUpdated (part : option Part) (delta : option string)
| MessageUpdated (info : option MessageInfo)
| SessionIdle (sessionID : option string)
| UnknownEvent
| DisplayTimerFired (sessionId : string).

(** ** Registry state *)

Record TrackerMetadata : Type := mkMeta {
  meta_agent : option AgentValue;
  meta_agentId : option string;
  meta_agentType : option string;
  meta_name : option string
}.

Record MessageTrackerState : Type := mkMT {
  mt_key : string;
  mt_messageId : string;
  mt_partId : option string;
  mt_tracker : TrackerEwma.t;
  mt_label : string;
  mt_firstTokenAt : option Z;
  mt_lastUpdated : Z;
  mt_agent : option AgentValue;
  mt_agentId : option string;
  mt_agentType : option string
}.

Record SessionTrackingState : Type := mkSession {
  aggregate : TrackerEwma.t;
  aggregateFirstTokenAt : option Z;
  messageTrackers : JsMap.t MessageTrackerState
}.

Record AgentDisplayState : Type := mkAgentDisplay {
  ad_id : string;
  ad_label : string;
  ad_instantTps : R;
  ad_avgTps : R;
  ad_totalTokens : Z;
  ad_elapsedMs : Z
}.

(** A call made on the UI manager. *)
Inductive UiCall : Type :=
| UpdateDisplay (instantTps avgTps : R) (totalTokens elapsedMs : Z)
                (agents : list AgentDisplayState)
| ShowFinalStats (totalTokens : Z) (avgTps : R) (elapsedMs : Z)
| Clear.

Inductive Heuristic : Type := chars_div_4 | chars_div_3 | words_div_0_75.

(** The fields of the resolved configuration that the handlers read. *)
Record Config : Type := mkConfig {
  rollingWindowMs : Z;
  minVisibleTPS : R;
  fallbackTokenHeuristic : Heuristic
}.

Record State : Type := mkState {
  sessionTrackers : JsMap.t SessionTrackingState;
  partTextCache : JsMap.t (JsMap.t string);
  messageTokenCache : JsMap.t (JsMap.t Z);
  messageRoleCache : JsMap.t (JsMap.t Role);
  sessionAgentNameCache : JsMap.t string;
  primarySessionId : option string;
  (** armed fallback display timers, each with the time it is due *)
  pendingDisplayTimers : JsMap.t Z;
  lastCleanupTime : Z
}.

Definition initial : State :=
  mkState JsMap.empty JsMap.empty JsMap.empty JsMap.empty JsMap.empty None JsMap.empty 0.

(** Field updates. *)
Definition setSessionTrackers (x : JsMap.t SessionTrackingState) (s : State) : State :=
  mkState x (partTextCache s) (messageTokenCache s) (messageRoleCache s)
          (sessionAgentNameCache s) (primarySessionId s) (pendingDisplayTimers s)
          (lastCleanupTime s).
Definition setPartTextCache (x : JsMap.t (JsMap.t string)) (s : State) : State :=
  mkState (sessionTrackers s) x (messageTokenCache s) (messageRoleCache s)
          (sessionAgentNameCache s) (primarySessionId s) (pendingDisplayTimers s)
          (lastCleanupTime s).
Definition setMessageTokenCache (x : JsMap.t (JsMap.t Z)) (s : State) : State :=
  mkState (sessionTrackers s) (partTextCache s) x (messageRoleCache s)
          (sessionAgentNameCache s) (primarySessionId s) (pendingDisplayTimers s)
          (lastCleanupTime s).
Definition setMessageRoleCache (x : JsMap.t (JsMap.t Role)) (s : State) : State :=
  mkState (sessionTrackers s) (partTextCache s) (messageTokenCache s) x
          (sessionAgentNameCache s) (primarySessionId s) (pendingDisplayTimers s)
          (lastCleanupTime s).
Definition setSessionAgentNameCache (x : JsMap.t string) (s : State) : State :=
  mkState (sessionTrackers s) (partTextCache s) (messageTokenCache s)
          (messageRoleCache s) x (primarySessionId s) (pendingDisplayTimers s)
          (lastCleanupTime s).
Definition setPrimarySessionId (x : option string) (s : State) : State :=
  mkState (sessionTrackers s) (partTextCache s) (messageTokenCache s)
          (messageRoleCache s) (sessionAgentNameCache s) x (pendingDisplayTimers s)
          (lastCleanupTime s).
Definition setPendingDisplayTimers (x : JsMap.t Z) (s : State) : State :=
  mkState (sessionTrackers s) (partTextCache s) (messageTokenCache s)
          (messageRoleCache s) (sessionAgentNameCache s) (primarySessionId s) x
          (lastCleanupTime s).
Definition setLastCleanupTime (x : Z) (s : State) : State :=
  mkState (sessionTrackers s) (partTextCache s) (messageTokenCache s)
          (messageRoleCache s) (sessionAgentNameCache s) (primarySessionId s)
          (pendingDisplayTimers s) x.

Definition setAggregate (a : TrackerEwma.t) (f : option Z) (ss : SessionTrackingState)
  : SessionTrackingState :=
  mkSession a f (messageTrackers ss).
Definition setMessageTrackers (m : JsMap.t MessageTrackerState) (ss : SessionTrackingState)
  : SessionTrackingState :=
  mkSession (aggregate ss) (aggregateFirstTokenAt ss) m.

(** [Boolean(trackerState.agent || trackerState.agentId || trackerState.agentType)]. *)
Definition hasAgentMetadata (mt : MessageTrackerState) : bool :=
  agentTruthy (mt_agent mt) || truthy (mt_agentId mt) || truthy (mt_agentType mt).

(** [extractPartText] on the part types that reach it in
    [handleMessagePartUpdated], which returns before the call for every type
    outside [COUNTABLE_PART_TYPES]: [part.text ?? ""].  The cases of the
    other part types read fields that [Part] does not carry here. *)
Definition extractPartText (part : Part) : string :=
  match part_text part with Some x => x | None => "" end.

Definition withLabel (l : string) (mt : MessageTrackerState) : MessageTrackerState :=
  mkMT (mt_key mt) (mt_messageId mt) (mt_partId mt) (mt_tracker mt) l
       (mt_firstTokenAt mt) (mt_lastUpdated mt) (mt_agent mt) (mt_agentId mt)
       (mt_agentType mt).
Definition withAgent (a : option AgentValue) (mt : MessageTrackerState) : MessageTrackerState :=
  mkMT (mt_key mt) (mt_messageId mt) (mt_partId mt) (mt_tracker mt) (mt_label mt)
       (mt_firstTokenAt mt) (mt_lastUpdated mt) a (mt_agentId mt) (mt_agentType mt).
Definition withAgentId (a : option string) (mt : MessageTrackerState) : MessageTrackerState :=
  mkMT (mt_key mt) (mt_messageId mt) (mt_partId mt) (mt_tracker mt) (mt_label mt)
       (mt_firstTokenAt mt) (mt_lastUpdated mt) (mt_agent mt) a (mt_agentType mt).
Definition withAgentType (a : option string) (mt : MessageTrackerState) : MessageTrackerState :=
  mkMT (mt_key mt) (mt_messageId mt) (mt_partId mt) (mt_tracker mt) (mt_label mt)
       (mt_firstTokenAt mt) (mt_lastUpdated mt) (mt_agent mt) (mt_agentId mt) a.
Definition withActivity (first : option Z) (last : Z) (tr : TrackerEwma.t)
    (mt : MessageTrackerState) : MessageTrackerState :=
  mkMT (mt_key mt) (mt_messageId mt) (mt_partId mt) tr (mt_label mt)
       first last (mt_agent mt) (mt_agentId mt) (mt_agentType mt).

Definition Rleb (x y : R) : bool := if Rle_dec x y then true else false.

(** [entries.sort((a, b) => b.instantTps - a.instantTps)]: a stable sort
    by descending rate. *)
Fixpoint insertByRate (x : AgentDisplayState) (l : list AgentDisplayState)
  : list AgentDisplayState :=
  match l with
  | [] => [x]
  | y :: rest =>
    if UI.Rltb (ad_instantTps x) (ad_instantTps y) then y :: insertByRate x rest
    else x :: l
  end.

Definition sortByRate (l : list AgentDisplayState) : list AgentDisplayState :=
  fold_right insertByRate [] l.

Definition abbreviateId (id : string) : string :=
  if (String.length id <=? 4)%nat then id
  else String.substring 0 4 id ++ "…".

(** [a || d] where [d] is a string. *)
Definition orDefault (a : option string) (d : string) : string :=
  match a with
  | Some x => if String.eqb x "" then d else x
  | None => d
  end.

Definition buildAgentLabel (messageId : string) (metadata : TrackerMetadata) : string :=
  let typeLabel :=
    orDefault
      (orElse (trimOpt (agentField agent_type (meta_agent metadata)))
        (orElse (trimOpt (meta_agentType metadata))
          (orElse (trimOpt (agentField agent_name (meta_agent metadata)))
                  (trimOpt (meta_name metadata)))))
      "Subagent" in
  let rawId :=
    orDefault
      (orElse (trimOpt (meta_agentId metadata))
              (trimOpt (agentField agent_id (meta_agent metadata))))
      messageId in
  typeLabel ++ "(" ++ abbreviateId rawId ++ ")".

Definition buildTrackerKey (sessionId messageId : string) (partId : option string)
    (metadata : TrackerMetadata) : string :=
  let agentId :=
    orElse (trimOpt (meta_agentId metadata))
      (orElse (trimOpt (agentField agent_id (meta_agent metadata)))
              (trimOpt (meta_agentType metadata))) in
  if truthy agentId then sessionId ++ ":" ++ messageId ++ ":" ++ orDefault agentId ""
  else if truthy partId then sessionId ++ ":" ++ messageId ++ ":" ++ orDefault partId ""
  else sessionId ++ ":" ++ messageId.

(** [sessionId.replace(/^ses_/, "")]. *)
Definition stripSesPrefix (sessionId : string) : string :=
  if startsWith sessionId "ses_" then sliceFrom 4 sessionId else sessionId.

Section WithConfig.

Variable config : Config.

Definition tokenizerCount (text : string) : Z :=
  TokenCounter.createTokenizer
    match fallbackTokenHeuristic config with
    | words_div_0_75 => TokenCounter.word
    | chars_div_3 => TokenCounter.code
    | chars_div_4 => TokenCounter.heuristic
    end
    text.

Definition newTracker (sessionId : string) (now : Z) : TrackerEwma.t :=
  TrackerEwma.createTracker
    (mkOptions (Some sessionId) (Some (rollingWindowMs config))) now.

Definition activityWindow : Z :=
  Z.max (rollingWindowMs config) (Constants.MIN_TPS_ELAPSED_MS * 4).

Definition getOrCreateSessionState (sessionId : string) (now : Z) (s : State)
  : State * SessionTrackingState :=
  match JsMap.get sessionId (sessionTrackers s) with
  | Some ss => (s, ss)
  | None =>
    let ss := mkSession (newTracker sessionId now) None JsMap.empty in
    (setSessionTrackers (JsMap.set sessionId ss (sessionTrackers s)) s, ss)
  end.

(** The three [if (metadata?.x) trackerState.x = metadata.x] updates at the
    end of [getOrCreateMessageTrackerState]. *)
Definition mergeMetadata (metadata : TrackerMetadata) (t0 : MessageTrackerState)
  : MessageTrackerState :=
  let t1 := if agentTruthy (meta_agent metadata)
            then withAgent (meta_agent metadata) t0 else t0 in
  let t2 := if truthy (meta_agentId metadata)
            then withAgentId (meta_agentId metadata) t1 else t1 in
  if truthy (meta_agentType metadata)
  then withAgentType (meta_agentType metadata) t2 else t2.

Definition getOrCreateMessageTrackerState (sessionId messageId : string)
    (partId : option string) (metadata : TrackerMetadata) (now : Z) (s : State)
  : State * MessageTrackerState :=
  let '(s1, sessionState) := getOrCreateSessionState sessionId now s in
  let key := buildTrackerKey sessionId messageId partId metadata in
  let nextLabel := buildAgentLabel messageId metadata in
  let t0 :=
    match JsMap.get key (messageTrackers sessionState) with
    | None =>
      mkMT key messageId partId (newTracker key now) nextLabel None 0
           (meta_agent metadata) (meta_agentId metadata) (meta_agentType metadata)
    | Some t => if String.eqb (mt_label t) nextLabel then t else withLabel nextLabel t
    end in
  let t3 := mergeMetadata metadata t0 in
  let sessionState' :=
    setMessageTrackers (JsMap.set key t3 (messageTrackers sessionState)) sessionState in
  (setSessionTrackers (JsMap.set sessionId sessionState' (sessionTrackers s1)) s1, t3).

(** [sessionId !== primarySessionId]. *)
Definition differsFromPrimary (sessionId : string) (s : State) : bool :=
  match primarySessionId s with
  | Some p => negb (String.eqb sessionId p)
  | None => true
  end.

(** The entry [getAllActiveAgentsGlobally] pushes for one tracker, if any. *)
Definition agentEntry (now : Z) (s : State) (sessionId : string)
    (kv : string * MessageTrackerState) : list AgentDisplayState :=
  let trackerKey := fst kv in
  let trackerState := snd kv in
  if negb (truthyNum (mt_firstTokenAt trackerState)) then []
  else if activityWindow <? now - mt_lastUpdated trackerState then []
  else
    let entry label :=
      mkAgentDisplay trackerKey label
        (TrackerEwma.getSmoothedTPS now (mt_tracker trackerState))
        (TrackerEwma.getAverageTPS now (mt_tracker trackerState))
        (TrackerEwma.getTotalTokens (mt_tracker trackerState))
        (now - match mt_firstTokenAt trackerState with Some f => f | None => 0 end) in
    if hasAgentMetadata trackerState then [entry (mt_label trackerState)]
    else if differsFromPrimary sessionId s then
      let agentName := orDefault (JsMap.get sessionId (sessionAgentNameCache s)) "bg" in
      let shortId := abbreviateId (stripSesPrefix sessionId) in
      [entry (agentName ++ "(" ++ shortId ++ ")")%string]
    else [].

Definition getAllActiveAgentsGlobally (now : Z) (s : State) : list AgentDisplayState :=
  sortByRate
    (flat_map
       (fun ks => flat_map (agentEntry now s (fst ks)) (messageTrackers (snd ks)))
       (sessionTrackers s)).

Definition isPrimarySessionActive (now : Z) (s : State) : bool :=
  if negb (truthy (primarySessionId s)) then false
  else
    match JsMap.get (orDefault (primarySessionId s) "") (sessionTrackers s) with
    | None => false
    | Some sessionState =>
      existsb
        (fun trackerState =>
           negb (hasAgentMetadata trackerState)
           && truthyNum (mt_firstTokenAt trackerState)
           && (now - mt_lastUpdated trackerState <=? activityWindow))
        (JsMap.values (messageTrackers sessionState))
    end.

Definition resetIfEmpty (now : Z) (ss : SessionTrackingState) : SessionTrackingState :=
  if JsMap.size (messageTrackers ss) =? 0
  then setAggregate (TrackerEwma.reset now (aggregate ss)) None ss
  else ss.

Definition removeMessageTrackerState (sessionId messageId : string) (now : Z) (s : State)
  : State :=
  match JsMap.get sessionId (sessionTrackers s) with
  | None => s
  | Some sessionState =>
    let trackers :=
      JsMap.deleteWhere (fun _ st => String.eqb (mt_messageId st) messageId)
                        (messageTrackers sessionState) in
    let sessionState' := resetIfEmpty now (setMessageTrackers trackers sessionState) in
    setSessionTrackers (JsMap.set sessionId sessionState' (sessionTrackers s)) s
  end.

Definition scheduleDisplayTimer (sessionId : string) (now : Z) (s : State) : State :=
  setPendingDisplayTimers
    (JsMap.set sessionId (now + (Constants.MIN_TPS_ELAPSED_MS + 10))
               (pendingDisplayTimers s)) s.

Definition clearDisplayTimer (sessionId : string) (s : State) : State :=
  setPendingDisplayTimers (JsMap.delete sessionId (pendingDisplayTimers s)) s.

(** What the handlers decide to show once the elapsed-time gate has passed;
    [gateInPrimary] tells where the [minVisibleTPS] test sits: inside the
    primary branch (timer callback) or in its condition (part handler). *)
Definition displayCalls (gateInPrimary : bool) (now : Z) (sessionState : SessionTrackingState)
    (s : State) : list UiCall :=
  let allAgents := getAllActiveAgentsGlobally now s in
  let smoothedTps := TrackerEwma.getSmoothedTPS now (aggregate sessionState) in
  let avgTps := TrackerEwma.getAverageTPS now (aggregate sessionState) in
  let totalTokens := TrackerEwma.getTotalTokens (aggregate sessionState) in
  let elapsedMs := TrackerEwma.getElapsedMs now (aggregate sessionState) in
  let visible := Rleb (minVisibleTPS config) smoothedTps in
  let agentsOnly :=
    if 0 <? Z.of_nat (List.length allAgents)
    then [UpdateDisplay 0%R 0%R 0 0 allAgents] else [] in
  if gateInPrimary then
    if isPrimarySessionActive now s then
      if visible then [UpdateDisplay smoothedTps avgTps totalTokens elapsedMs allAgents]
      else []
    else agentsOnly
  else
    if isPrimarySessionActive now s && visible
    then [UpdateDisplay smoothedTps avgTps totalTokens elapsedMs allAgents]
    else agentsOnly.

(** The callback armed by [scheduleDisplayTimer], run when it fires. *)
Definition displayTimerCallback (sessionId : string) (now : Z) (s : State)
  : State * list UiCall :=
  let s1 := setPendingDisplayTimers (JsMap.delete sessionId (pendingDisplayTimers s)) s in
  match JsMap.get sessionId (sessionTrackers s1) with
  | None => (s1, [])
  | Some sessionState =>
    match aggregateFirstTokenAt sessionState with
    | None => (s1, [])
    | Some first =>
      if first =? 0 then (s1, [])
      else if now - first <? Constants.MIN_TPS_ELAPSED_MS then (s1, [])
      else (s1, displayCalls true now sessionState s1)
    end
  end.

Definition cleanup (s : State) : State * list UiCall :=
  (mkState JsMap.empty JsMap.empty JsMap.empty JsMap.empty JsMap.empty None
           JsMap.empty (lastCleanupTime s),
   [Clear]).

(** ** Stale-entry sweep *)

(** The inner map stored under [sessionId], updated in place when present
    ([cache?.delete(...)]). *)
Definition updateInner {V : Type} (sessionId : string) (f : JsMap.t V -> JsMap.t V)
    (m : JsMap.t (JsMap.t V)) : JsMap.t (JsMap.t V) :=
  match JsMap.get sessionId m with
  | Some inner => JsMap.set sessionId (f inner) m
  | None => m
  end.

(** Deleting the part-text entries of a message: the keys that start with
    the message id followed by a colon. *)
Definition dropMessageTexts (messageId : string) (c : JsMap.t string) : JsMap.t string :=
  JsMap.deleteWhere (fun k _ => startsWith k (messageId ++ ":")%string) c.

Definition isStale (now : Z) (mt : MessageTrackerState) : bool :=
  (0 <? mt_lastUpdated mt) && (Constants.MAX_MESSAGE_AGE_MS <? now - mt_lastUpdated mt).

(** The deletion of one collected key in the session [sessionId]. *)
Definition deleteStaleKey (sessionId : string) (s : State) (key : string) : State :=
  match JsMap.get sessionId (sessionTrackers s) with
  | None => s
  | Some sessionState =>
    match JsMap.get key (messageTrackers sessionState) with
    | None => s
    | Some messageTracker =>
      let messageId := mt_messageId messageTracker in
      let sessionState' :=
        setMessageTrackers (JsMap.delete key (messageTrackers sessionState)) sessionState in
      let s1 := setSessionTrackers
                  (JsMap.set sessionId sessionState' (sessionTrackers s)) s in
      let s2 := setMessageTokenCache
                  (updateInner sessionId (JsMap.delete messageId) (messageTokenCache s1)) s1 in
      let s3 := setMessageRoleCache
                  (updateInner sessionId (JsMap.delete messageId) (messageRoleCache s2)) s2 in
      setPartTextCache
        (updateInner sessionId (dropMessageTexts messageId) (partTextCache s3)) s3
    end
  end.

(** One iteration of the loop over [sessionTrackers]. *)
Definition cleanupSession (now : Z) (s : State) (sessionId : string) : State :=
  match JsMap.get sessionId (sessionTrackers s) with
  | None => s
  | Some sessionState =>
    let keysToDelete :=
      JsMap.keys (filter (fun kv => isStale now (snd kv)) (messageTrackers sessionState)) in
    let s1 := fold_left (deleteStaleKey sessionId) keysToDelete s in
    match JsMap.get sessionId (sessionTrackers s1) with
    | None => s1
    | Some sessionState1 =>
      setSessionTrackers
        (JsMap.set sessionId (resetIfEmpty now sessionState1) (sessionTrackers s1)) s1
    end
  end.

Definition cleanupStaleMessages (now : Z) (s : State) : State :=
  if now - lastCleanupTime s <? Constants.CLEANUP_INTERVAL_MS then s
  else
    fold_left (cleanupSession now) (JsMap.keys (sessionTrackers s))
              (setLastCleanupTime now s).

(** ** [message.part.updated] *)

(** The key of the part-text cache: [`${part.messageID}:${part.id}:${part.type}`]. *)
Definition partCacheKey (part : Part) : string :=
  part_messageID part ++ ":" ++ part_id part ++ ":" ++ part_type part.


(** The delta that will be counted and the part-text cache, after the
    block that derives a delta from the full text when the event carries
    none.  The same block stands in the earlier revision of the handler,
    written with [if]/[else] in place of the conditional expression. *)
Definition resolveDelta (sessionId : string) (part : Part) (delta : option string)
    (cache : JsMap.t (JsMap.t string)) : option string * JsMap.t (JsMap.t string) :=
  let partText := extractPartText part in
  if negb (truthy delta) && (0 <? String.length partText)%nat then
    let sessionCache :=
      match JsMap.get sessionId cache with
      | Some c => c
      | None => JsMap.empty
      end in
    let cacheKey := partCacheKey part in
    let previousText := orDefault (JsMap.get cacheKey sessionCache) "" in
    let delta' :=
      if startsWith partText previousText
      then sliceFrom (String.length previousText) partText
      else partText in
    (Some delta',
     JsMap.set sessionId (JsMap.set cacheKey partText sessionCache) cache)
  else (delta, cache).

Definition partSessionId (part : Part) : string :=
  orDefault (part_sessionID part) "default".

Definition partMetadata (part : Part) : TrackerMetadata :=
  mkMeta (part_agent part) (part_agentId part) (part_agentType part) (part_name part).

(** [roleCache?.get(part.messageID)]. *)
Definition cachedRole (sessionId messageId : string) (s : State) : option Role :=
  match JsMap.get sessionId (messageRoleCache s) with
  | Some roleCache => JsMap.get messageId roleCache
  | None => None
  end.

(** The part of the handler that runs once the role gate has passed.  The
    local [messageTracker] keeps pointing at its object even when the sweep
    has just removed that object from the registry; what is then written
    to it no longer reaches the registry ([attached] is false). *)
Definition recordPart (sessionId : string) (part : Part) (delta : string) (now : Z)
    (s1 : State) : State * list UiCall :=
  let '(s2, sessionState0) := getOrCreateSessionState sessionId now s1 in
  let '(s3, messageTracker) :=
    getOrCreateMessageTrackerState sessionId (part_messageID part)
      (Some (part_id part)) (partMetadata part) now s2 in
  let s4 := cleanupStaleMessages now s3 in
  let sessionState :=
    match JsMap.get sessionId (sessionTrackers s4) with
    | Some ss => ss
    | None => sessionState0
    end in
  let attached := JsMap.has (mt_key messageTracker) (messageTrackers sessionState) in
  let aggregateStarted := truthyNum (aggregateFirstTokenAt sessionState) in
  let aggregateFirstTokenAt' :=
    if aggregateStarted then aggregateFirstTokenAt sessionState else Some now in
  let s5 := if aggregateStarted then s4 else scheduleDisplayTimer sessionId now s4 in
  let trackerStarted := truthyNum (mt_firstTokenAt messageTracker) in
  let firstTokenAt' :=
    if trackerStarted then mt_firstTokenAt messageTracker else Some now in
  let s6 :=
    if negb trackerStarted && negb (hasAgentMetadata messageTracker)
       && match primarySessionId s5 with None => true | Some _ => false end
    then setPrimarySessionId (Some sessionId) s5
    else s5 in
  let tokenCount := tokenizerCount delta in
  let aggregate' :=
    TrackerEwma.recordTokens tokenCount (Some now) now (aggregate sessionState) in
  let messageTracker' :=
    withActivity firstTokenAt' now
      (TrackerEwma.recordTokens tokenCount (Some now) now (mt_tracker messageTracker))
      messageTracker in
  let trackers' :=
    if attached
    then JsMap.set (mt_key messageTracker) messageTracker' (messageTrackers sessionState)
    else messageTrackers sessionState in
  let sessionState' := mkSession aggregate' aggregateFirstTokenAt' trackers' in
  let s7 := setSessionTrackers
              (JsMap.set sessionId sessionState' (sessionTrackers s6)) s6 in
  let messageCache :=
    match JsMap.get sessionId (messageTokenCache s7) with
    | Some c => c
    | None => JsMap.empty
    end in
  let previousTokens :=
    match JsMap.get (part_messageID part) messageCache with
    | Some n => n
    | None => 0
    end in
  let s8 := setMessageTokenCache
              (JsMap.set sessionId
                 (JsMap.set (part_messageID part) (previousTokens + tokenCount) messageCache)
                 (messageTokenCache s7)) s7 in
  let elapsedSinceFirstToken :=
    match aggregateFirstTokenAt' with
    | None => 0
    | Some first => Z.max 0 (now - first)
    end in
  if Constants.MIN_TPS_ELAPSED_MS <=? elapsedSinceFirstToken then
    let s9 := clearDisplayTimer sessionId s8 in
    (s9, displayCalls false now sessionState' s9)
  else (s8, []).

Definition handleMessagePartUpdated (part : option Part) (delta : option string)
    (now : Z) (s : State) : State * list UiCall :=
  match part with
  | None => (s, [])
  | Some part =>
    if negb (Constants.has Constants.COUNTABLE_PART_TYPES (part_type part)) then (s, [])
    else
      let sessionId := partSessionId part in
      let '(delta', cache') := resolveDelta sessionId part delta (partTextCache s) in
      let s1 := setPartTextCache cache' s in
      if negb (truthy delta') then (s1, [])
      else if negb (isAssistant (cachedRole sessionId (part_messageID part) s1)) then (s1, [])
      else recordPart sessionId part (orDefault delta' "") now s1
  end.

(** ** [message.updated] *)

Definition infoMetadata (info : MessageInfo) : TrackerMetadata :=
  mkMeta (info_agent info) (info_agentId info) (info_agentType info) None.

(** [info.time?.completed], when truthy. *)
Definition completedAt (info : MessageInfo) : option Z :=
  match info_time info with
  | Some t => if truthyNum (completed t) then completed t else None
  | None => None
  end.

Definition hasValidFinish (info : MessageInfo) : bool :=
  match info_finish info with
  | Some f => negb (Constants.has Constants.INVALID_FINISH_REASONS f)
  | None => false
  end.

(** The final-stats call of a completed assistant message, if it is due. *)
Definition finalStatsCalls (info : MessageInfo) (messageTracker : MessageTrackerState)
    (reportedTokens cachedTokens : Z) : list UiCall :=
  match completedAt info, info_time info with
  | Some completedAt, Some t =>
    let createdAt := created t in
    let firstTokenAt :=
      match mt_firstTokenAt messageTracker with
      | Some f => f
      | None => createdAt
      end in
    let elapsedMs := Z.max 0 (completedAt - firstTokenAt) in
    let totalTokens := if 0 <? reportedTokens then reportedTokens else cachedTokens in
    let avgTps :=
      if 0 <? elapsedMs then (IZR totalTokens / (IZR elapsedMs / 1000))%R else 0%R in
    if hasValidFinish info && (0 <? totalTokens)
       && (Constants.MIN_TPS_ELAPSED_MS <=? elapsedMs)
    then [ShowFinalStats totalTokens avgTps elapsedMs]
    else []
  | _, _ => []
  end.

Definition handleMessageUpdated (info : option MessageInfo) (now : Z) (s : State)
  : State * list UiCall :=
  match info with
  | None => (s, [])
  | Some info =>
    let sessionId := info_sessionID info in
    let messageId := info_id info in
    let roleCache :=
      match JsMap.get sessionId (messageRoleCache s) with
      | Some c => c
      | None => JsMap.empty
      end in
    let s1 := setMessageRoleCache
                (JsMap.set sessionId (JsMap.set messageId (info_role info) roleCache)
                           (messageRoleCache s)) s in
    let s2 :=
      match info_agent info with
      | Some (AgentString name) =>
        if String.eqb name "" then s1
        else setSessionAgentNameCache
               (JsMap.set sessionId name (sessionAgentNameCache s1)) s1
      | _ => s1
      end in
    match info_role info with
    | assistant =>
      let tokenCache :=
        match JsMap.get sessionId (messageTokenCache s2) with
        | Some c => c
        | None => JsMap.empty
        end in
      let outputTokens :=
        match info_tokens info with Some t => output t | None => 0 end in
      let reasoningTokens :=
        match info_tokens info with
        | Some t => match reasoning t with Some r => r | None => 0 end
        | None => 0
        end in
      let reportedTokens := outputTokens + reasoningTokens in
      let '(s3, messageTracker) :=
        getOrCreateMessageTrackerState sessionId messageId None (infoMetadata info) now
          (setMessageTokenCache
             (JsMap.set sessionId tokenCache (messageTokenCache s2)) s2) in
      let previous :=
        match JsMap.get messageId tokenCache with Some n => n | None => 0 end in
      let nextTokens := Z.max previous reportedTokens in
      let s4 := setMessageTokenCache
                  (JsMap.set sessionId (JsMap.set messageId nextTokens tokenCache)
                             (messageTokenCache s3)) s3 in
      let calls := finalStatsCalls info messageTracker reportedTokens nextTokens in
      let s5 := setPartTextCache
                  (updateInner sessionId (dropMessageTexts messageId) (partTextCache s4))
                  s4 in
      match completedAt info with
      | Some _ =>
        let s6 := setMessageTokenCache
                    (updateInner sessionId (JsMap.delete messageId) (messageTokenCache s5))
                    s5 in
        let s7 := setMessageRoleCache
                    (updateInner sessionId (JsMap.delete messageId) (messageRoleCache s6))
                    s6 in
        (removeMessageTrackerState sessionId messageId now s7, calls)
      | None => (s5, calls)
      end
    | _ => (s2, [])
    end
  end.

(** ** [session.idle] *)

Definition handleSessionIdle (sessionID : option string) (s : State)
  : State * list UiCall :=
  let sessionId := orDefault sessionID "default" in
  let s1 := clearDisplayTimer sessionId s in
  let s2 :=
    mkState (JsMap.delete sessionId (sessionTrackers s1))
            (JsMap.delete sessionId (partTextCache s1))
            (JsMap.delete sessionId (messageTokenCache s1))
            (JsMap.delete sessionId (messageRoleCache s1))
            (JsMap.delete sessionId (sessionAgentNameCache s1))
            (primarySessionId s1) (pendingDisplayTimers s1) (lastCleanupTime s1) in
  if JsMap.size (sessionTrackers s2) =? 0 then cleanup s2 else (s2, []).

(** ** The plugin as a transition system *)

(** One event handled when the clock reads [now].  A display timer fires
    only while it is armed. *)
Definition step (now : Z) (e : Event) (s : State) : State * list UiCall :=
  match e with
  | MessagePartUpdated part delta => handleMessagePartUpdated part delta now s
  | MessageUpdated info => handleMessageUpdated info now s
  | SessionIdle sessionID => handleSessionIdle sessionID s
  | UnknownEvent => (s, [])
  | DisplayTimerFired sessionId =>
    if JsMap.has sessionId (pendingDisplayTimers s)
    then displayTimerCallback sessionId now s
    else (s, [])
  end.

(** A run: the events in order, each with its clock reading; the UI calls
    are collected oldest first. *)
Fixpoint run (events : list (Z * Event)) (s : State) : State * list UiCall :=
  match events with
  | [] => (s, [])
  | (now, e) :: rest =>
    let '(s1, calls1) := step now e s in
    let '(s2, calls2) := run rest s1 in
    (s2, calls1 ++ calls2)
  end.

End WithConfig.

End Plugin.

(* ================================================================== *)
(** * Configuration loading (the config module) *)
(* ================================================================== *)

Module ConfigFile.

Local Open Scope Q_scope.

(** A JavaScript number: the finite doubles are rationals. *)
Inductive JsNumber : Type :=
| NaN
| PosInfinity
| NegInfinity
| Finite (q : Q).

(** The values a parsed JSON document or the environment can put under a
    configuration key; [JsUndefined] is a key that is absent. *)
Inductive JsValue : Type :=
| JsUndefined
| JsNull
| JsBoolean (b : bool)
| JsNum (n : JsNumber)
| JsString (s : string)
| JsObject.

(** [Partial<Config>]. *)
Record PartialConfig : Type := mkPartial {
  p_enabled : JsValue;
  p_updateIntervalMs : JsValue;
  p_rollingWindowMs : JsValue;
  p_showAverage : JsValue;
  p_showInstant : JsValue;
  p_showTotalTokens : JsValue;
  p_showElapsed : JsValue;
  p_format : JsValue;
  p_minVisibleTPS : JsValue;
  p_fallbackTokenHeuristic : JsValue;
  p_enableColorCoding : JsValue;
  p_slowTpsThreshold : JsValue;
  p_fastTpsThreshold : JsValue
}.

(** [Config]; its numbers are finite. *)
Record Config : Type := mkConfig {
  enabled : bool;
  updateIntervalMs : Q;
  rollingWindowMs : Q;
  showAverage : bool;
  showInstant : bool;
  showTotalTokens : bool;
  showElapsed : bool;
  format : string;
  minVisibleTPS : Q;
  fallbackTokenHeuristic : string;
  enableColorCoding : bool;
  slowTpsThreshold : Q;
  fastTpsThreshold : Q
}.

(** From src/constants.ts. *)
Definition DEFAULT_SLOW_TPS_THRESHOLD : Q := 10.
Definition DEFAULT_FAST_TPS_THRESHOLD : Q := 50.

Definition defaultConfig : Config :=
  mkConfig true (inject_Z Constants.DEFAULT_UPDATE_INTERVAL_MS)
           (inject_Z Constants.DEFAULT_ROLLING_WINDOW_MS)
           true true true false "compact" 0 "chars_div_4" false
           DEFAULT_SLOW_TPS_THRESHOLD DEFAULT_FAST_TPS_THRESHOLD.

(** The type guards return the narrowed value. *)
Definition isBoolean (value : JsValue) : option bool :=
  match value with
  | JsBoolean b => Some b
  | _ => None
  end.

(** [typeof value === "number" && !isNaN(value) && isFinite(value) &&
    value >= 0]. *)
Definition isNumber (value : JsValue) : option Q :=
  match value with
  | JsNum (Finite q) => if Qle_bool 0 q then Some q else None
  | _ => None
  end.

Definition isString (value : JsValue) : option string :=
  match value with
  | JsString s => Some s
  | _ => None
  end.

(** [Math.max(min, Math.min(max, value))]. *)
Definition clamp (value min max : Q) : Q := Qmax min (Qmin max value).

Definition FORMATS : list string := ["compact"; "verbose"; "minimal"].
Definition HEURISTICS : list string := ["chars_div_4"; "chars_div_3"; "words_div_0_75"].

(** [Array.prototype.includes] on an array of strings. *)
Definition includes (l : list string) (x : string) : bool := existsb (String.eqb x) l.

Definition orDefaultBool (value : JsValue) (d : bool) : bool :=
  match isBoolean value with
  | Some b => b
  | None => d
  end.

Definition clampOrDefault (value : JsValue) (min max d : Q) : Q :=
  match isNumber value with
  | Some q => clamp q min max
  | None => d
  end.

Definition oneOfOrDefault (value : JsValue) (allowed : list string) (d : string) : string :=
  match isString value with
  | Some s => if includes allowed s then s else d
  | None => d
  end.

Definition mergeConfig (partial : PartialConfig) (defaults : Config) : Config :=
  let updateIntervalMs' :=
    clampOrDefault (p_updateIntervalMs partial) 10 5000 (updateIntervalMs defaults) in
  let rollingWindowMs' :=
    clampOrDefault (p_rollingWindowMs partial) 100 30000 (rollingWindowMs defaults) in
  let minVisibleTPS' :=
    clampOrDefault (p_minVisibleTPS partial) 0 10000 (minVisibleTPS defaults) in
  let slow := clampOrDefault (p_slowTpsThreshold partial) 0 10000 (slowTpsThreshold defaults) in
  let fast := clampOrDefault (p_fastTpsThreshold partial) 0 10000 (fastTpsThreshold defaults) in
  let reorder := Qle_bool fast slow in
  let slow' := if reorder then slowTpsThreshold defaults else slow in
  let fast' := if reorder then fastTpsThreshold defaults else fast in
  mkConfig (orDefaultBool (p_enabled partial) (enabled defaults))
           updateIntervalMs'
           rollingWindowMs'
           (orDefaultBool (p_showAverage partial) (showAverage defaults))
           (orDefaultBool (p_showInstant partial) (showInstant defaults))
           (orDefaultBool (p_showTotalTokens partial) (showTotalTokens defaults))
           (orDefaultBool (p_showElapsed partial) (showElapsed defaults))
           (oneOfOrDefault (p_format partial) FORMATS (format defaults))
           minVisibleTPS'
           (oneOfOrDefault (p_fallbackTokenHeuristic partial) HEURISTICS
                           (fallbackTokenHeuristic defaults))
           (orDefaultBool (p_enableColorCoding partial) (enableColorCoding defaults))
           slow' fast'.

(** The outcome of [JSON.parse]: an object (its configuration keys), or
    another value. *)
Inductive Parsed : Type :=
| ParsedObject (keys : PartialConfig)
| ParsedNull
| ParsedPrimitive.

(** The process environment, one entry per supported variable. *)
Record Env : Type := mkEnv {
  TPS_METER_ENABLED : option string;
  TPS_METER_UPDATE_INTERVAL_MS : option string;
  TPS_METER_ROLLING_WINDOW_MS : option string;
  TPS_METER_SHOW_AVERAGE : option string;
  TPS_METER_SHOW_INSTANT : option string;
  TPS_METER_SHOW_TOTAL_TOKENS : option string;
  TPS_METER_SHOW_ELAPSED : option string;
  TPS_METER_FORMAT : option string;
  TPS_METER_MIN_VISIBLE_TPS : option string;
  TPS_METER_FALLBACK_HEURISTIC : option string;
  TPS_METER_ENABLE_COLOR_CODING : option string;
  TPS_METER_SLOW_TPS_THRESHOLD : option string;
  TPS_METER_FAST_TPS_THRESHOLD : option string
}.

Definition emptyPartial : PartialConfig :=
  mkPartial JsUndefined JsUndefined JsUndefined JsUndefined JsUndefined JsUndefined
            JsUndefined JsUndefined JsUndefined JsUndefined JsUndefined JsUndefined
            JsUndefined.

(** One key of [{ ...a, ...b }]: the value of [b] where [b] has the key. *)
Definition over (a b : JsValue) : JsValue :=
  match b with
  | JsUndefined => a
  | _ => b
  end.

(** [{ ...a, ...b }]. *)
Definition spread (a b : PartialConfig) : PartialConfig :=
  mkPartial (over (p_enabled a) (p_enabled b))
            (over (p_updateIntervalMs a) (p_updateIntervalMs b))
            (over (p_rollingWindowMs a) (p_rollingWindowMs b))
            (over (p_showAverage a) (p_showAverage b))
            (over (p_showInstant a) (p_showInstant b))
            (over (p_showTotalTokens a) (p_showTotalTokens b))
            (over (p_showElapsed a) (p_showElapsed b))
            (over (p_format a) (p_format b))
            (over (p_minVisibleTPS a) (p_minVisibleTPS b))
            (over (p_fallbackTokenHeuristic a) (p_fallbackTokenHeuristic b))
            (over (p_enableColorCoding a) (p_enableColorCoding b))
            (over (p_slowTpsThreshold a) (p_slowTpsThreshold b))
            (over (p_fastTpsThreshold a) (p_fastTpsThreshold b)).

(** [if (process.env.X !== undefined) envConfig.k = process.env.X === "true"]. *)
Definition envBoolean (variable : option string) : JsValue :=
  match variable with
  | Some s => JsBoolean (String.eqb s "true")
  | None => JsUndefined
  end.

(** [const val = parse(process.env.X); if (!isNaN(val)) envConfig.k = val]. *)
Definition envNumber (parse : string -> JsNumber) (variable : option string) : JsValue :=
  match variable with
  | Some s =>
    match parse s with
    | NaN => JsUndefined
    | n => JsNum n
    end
  | None => JsUndefined
  end.

(** [if (allowed.includes(val)) envConfig.k = val]. *)
Definition envOneOf (allowed : list string) (variable : option string) : JsValue :=
  match variable with
  | Some s => if includes allowed s then JsString s else JsUndefined
  | None => JsUndefined
  end.

Section WithHost.

(** The host: the file system, [JSON.parse] ([None]: it throws),
    [parseInt(_, 10)], [parseFloat], and the two paths [path.join] yields. *)
Variable existsSync : string -> bool.
Variable readFileSync : string -> option string.
Variable jsonParse : string -> option Parsed.
Variable parseInt : string -> JsNumber.
Variable parseFloat : string -> JsNumber.
Variable projectConfigPath : string.
Variable globalConfigPath : string.
Variable env : Env.

Definition loadConfigFile (filePath : string) : option PartialConfig :=
  if negb (existsSync filePath) then None
  else
    match readFileSync filePath with
    | None => None
    | Some content =>
      match jsonParse content with
      | Some (ParsedObject keys) => Some keys
      | Some ParsedNull => None
      | Some ParsedPrimitive => None
      | None => None
      end
    end.

Definition loadEnvConfig : PartialConfig :=
  mkPartial (envBoolean (TPS_METER_ENABLED env))
            (envNumber parseInt (TPS_METER_UPDATE_INTERVAL_MS env))
            (envNumber parseInt (TPS_METER_ROLLING_WINDOW_MS env))
            (envBoolean (TPS_METER_SHOW_AVERAGE env))
            (envBoolean (TPS_METER_SHOW_INSTANT env))
            (envBoolean (TPS_METER_SHOW_TOTAL_TOKENS env))
            (envBoolean (TPS_METER_SHOW_ELAPSED env))
            (envOneOf FORMATS (TPS_METER_FORMAT env))
            (envNumber parseFloat (TPS_METER_MIN_VISIBLE_TPS env))
            (envOneOf HEURISTICS (TPS_METER_FALLBACK_HEURISTIC env))
            (envBoolean (TPS_METER_ENABLE_COLOR_CODING env))
            (envNumber parseFloat (TPS_METER_SLOW_TPS_THRESHOLD env))
            (envNumber parseFloat (TPS_METER_FAST_TPS_THRESHOLD env)).

(** The [mergedConfig] of [loadConfigSync] before the defaults are applied. *)
Definition mergedSources : PartialConfig :=
  let mergedConfig := emptyPartial in
  let mergedConfig :=
    match loadConfigFile projectConfigPath with
    | Some projectConfig => spread mergedConfig projectConfig
    | None => mergedConfig
    end in
  let mergedConfig :=
    match loadConfigFile globalConfigPath with
    | Some globalConfig => spread mergedConfig globalConfig
    | None => mergedConfig
    end in
  spread mergedConfig loadEnvConfig.

Definition loadConfigSync : Config := mergeConfig mergedSources defaultConfig.

End WithHost.

(** A [Config] read as a [Partial<Config>]. *)
Definition asPartial (c : Config) : PartialConfig :=
  mkPartial (JsBoolean (enabled c)) (JsNum (Finite (updateIntervalMs c)))
            (JsNum (Finite (rollingWindowMs c)))
            (JsBoolean (showAverage c)) (JsBoolean (showInstant c))
            (JsBoolean (showTotalTokens c)) (JsBoolean (showElapsed c))
            (JsString (format c)) (JsNum (Finite (minVisibleTPS c)))
            (JsString (fallbackTokenHeuristic c)) (JsBoolean (enableColorCoding c))
            (JsNum (Finite (slowTpsThreshold c))) (JsNum (Finite (fastTpsThreshold c))).

(** Two configurations with the same values (numbers compared as numbers). *)
Definition sameConfig (a b : Config) : Prop :=
  enabled a = enabled b
  /\ updateIntervalMs a == updateIntervalMs b
  /\ rollingWindowMs a == rollingWindowMs b
  /\ showAverage a = showAverage b
  /\ showInstant a = showInstant b
  /\ showTotalTokens a = showTotalTokens b
  /\ showElapsed a = showElapsed b
  /\ format a = format b
  /\ minVisibleTPS a == minVisibleTPS b
  /\ fallbackTokenHeuristic a = fallbackTokenHeuristic b
  /\ enableColorCoding a = enableColorCoding b
  /\ slowTpsThreshold a == slowTpsThreshold b
  /\ fastTpsThreshold a == fastTpsThreshold b.

(** The ranges every resolved configuration is within. *)
Definition withinBounds (c : Config) : Prop :=
  10 <= updateIntervalMs c <= 5000
  /\ 100 <= rollingWindowMs c <= 30000
  /\ 0 <= minVisibleTPS c <= 10000
  /\ 0 <= slowTpsThreshold c
  /\ slowTpsThreshold c < fastTpsThreshold c
  /\ fastTpsThreshold c <= 10000
  /\ In (format c) FORMATS
  /\ In (fallbackTokenHeuristic c) HEURISTICS.

End ConfigFile.

(* ================================================================== *)
(** * Vocabulary of the statements *)
(* ================================================================== *)

(** ** Trackers *)

(** A [recordTokens] call: the clock reading when it is made, the count,
    and the optional timestamp argument. *)
Definition RecordCall : Type := (Z * Z * option Z)%type.

Definition recordCalls (calls : list RecordCall) : list (Z * TrackerOp) :=
  map (fun c => (fst (fst c), RecordTokens (snd (fst c)) (snd c))) calls.

Definition sumCounts (calls : list RecordCall) : Z :=
  fold_right Z.add 0 (map (fun c => snd (fst c)) calls).

Definition defaultOptions : TPSTrackerOptions := mkOptions None None.

(** 100 tokens at t = 0 on a fresh tracker (raw rate 1000/s), then a burst
    of 51 tokens at t = 3000, after the first entry has left the window. *)
Definition afterHighRate : TrackerEwma.t :=
  TrackerEwma.recordTokens 100 (Some 0) 0 (TrackerEwma.createTracker defaultOptions 0).

(** The same with a burst of 201 tokens. *)
Definition largeBurstAfterHighRate : TrackerEwma.t :=
  TrackerEwma.recordTokens 201 (Some 3000) 3000 afterHighRate.


(** An entry that the rolling window starting at [cutoff] still holds. *)
Definition notExpired (cutoff : Z) (e : BufferEntry) : bool := cutoff <=? timestamp e.

(** 40 tokens at t = 0 and 40 at t = 1000, with a window of 1000 ms. *)
Definition twoChunks : TrackerEwma.t :=
  TrackerEwma.recordTokens 40 (Some 1000) 1000
    (TrackerEwma.recordTokens 40 (Some 0) 0
       (TrackerEwma.createTracker (mkOptions None (Some 1000)) 0)).

(** ** Display *)

(** The place of a sink in the fallback chain. *)
Definition sinkRank (c : UI.SinkCall) : Z :=
  match c with
  | UI.CallShowToast _ => 1
  | UI.CallPublish _ _ => 2
  | UI.CallToastSuccess _ _ => 3
  | UI.CallToastInfo _ _ => 3
  end.

(** What the client does on a logged call. *)
Definition sinkOutcome (client : UI.OpenCodeClient) (c : UI.SinkCall) : UI.Outcome :=
  match c with
  | UI.CallShowToast body =>
    match UI.tui_showToast client with Some f => f body | None => UI.Throws end
  | UI.CallPublish type props =>
    match UI.tui_publish client with Some f => f type props | None => UI.Throws end
  | UI.CallToastSuccess m d =>
    match UI.client_toast_success client with Some f => f m d | None => UI.Throws end
  | UI.CallToastInfo m d =>
    match UI.client_toast_info client with Some f => f m d | None => UI.Throws end
  end.

Definition returned (o : UI.Outcome) : bool :=
  match o with
  | UI.Returns => true
  | UI.Throws => false
  end.

(** The calls come in the order of the chain, each sink at most once. *)
Fixpoint inSinkOrder (l : list UI.SinkCall) : bool :=
  match l with
  | [] => true
  | c :: rest => forallb (fun c' => sinkRank c <? sinkRank c') rest && inSinkOrder rest
  end.

(** Every call but the last one threw. *)
Fixpoint onlyLastMayReturn (client : UI.OpenCodeClient) (l : list UI.SinkCall) : bool :=
  match l with
  | [] => true
  | [c] => true
  | c :: rest => negb (returned (sinkOutcome client c)) && onlyLastMayReturn client rest
  end.

Definition someReturned (client : UI.OpenCodeClient) (l : list UI.SinkCall) : bool :=
  existsb (fun c => returned (sinkOutcome client c)) l.

(** The number of sinks the client offers; the third needs both
    [toast.success] and [toast.info]. *)
Definition availableSinks (client : UI.OpenCodeClient) : nat :=
  ((match UI.tui_showToast client with Some _ => 1 | None => 0 end)
   + (match UI.tui_publish client with Some _ => 1 | None => 0 end)
   + (match UI.client_toast_success client, UI.client_toast_info client with
      | Some _, Some _ => 1
      | _, _ => 0
      end))%nat.

(** max(150 ms, 3 x updateIntervalMs). *)
Definition floodInterval (s : UI.UiState) : Z :=
  Z.max 150 (3 * UI.updateIntervalMs (UI.uiConfig s)).

(** The flood guard stops the emission. *)
Definition suppressed (now : Z) (message : string) (isFinal : bool) (s : UI.UiState) : bool :=
  negb isFinal &&
  (String.eqb message (UI.lastToastMessage s) || (now - UI.lastToastAt s <? floodInterval s)).

(** The bookkeeping of a successful emission. *)
Definition withLastToast (now : Z) (message : string) (s : UI.UiState) : UI.UiState :=
  UI.mkUi (UI.uiConfig s) (UI.flushTimer s) (UI.lastFlushAt s) now message
          (UI.pendingState s) (UI.lastDisplayedState s).

Definition defaultUiConfig : UI.UiConfig :=
  UI.mkConfig 50 UI.compact true true true false false 10%R 50%R.

(** A client whose three sinks all throw, and one whose first sink throws
    and whose second returns. *)
Definition throwingClient : UI.OpenCodeClient :=
  UI.mkClient
    (Some (UI.mkTui (Some (fun _ => UI.Throws)) (Some (fun _ _ => UI.Throws))))
    (Some (UI.mkToast (Some (fun _ _ => UI.Throws)) (Some (fun _ _ => UI.Throws)))).

(** A manager that showed "TPS: 42.0" at t = 10000. *)
Definition shownWorld : UI.World :=
  UI.mkWorld (UI.mkUi defaultUiConfig None 10000 10000 "TPS: 42.0" None None) [].

(** ** Plugin *)

(** The stream (tracker state) that a part event is attributed to. *)
Definition streamOf (config : Plugin.Config) (part : Plugin.Part) (now : Z)
    (s : Plugin.State) : Plugin.MessageTrackerState :=
  snd (Plugin.getOrCreateMessageTrackerState config (Plugin.partSessionId part)
         (Plugin.part_messageID part) (Some (Plugin.part_id part))
         (Plugin.partMetadata part) now s).

(** The tokens cached for a message of a session:
    [messageCache.get(messageID) ?? 0], 0 too when the session has no cache. *)
Definition cachedTokens (sessionId messageId : string) (s : Plugin.State) : Z :=
  match JsMap.get sessionId (Plugin.messageTokenCache s) with
  | Some messageCache =>
    match JsMap.get messageId messageCache with
    | Some n => n
    | None => 0
    end
  | None => 0
  end.

Definition defaultConfig : Plugin.Config :=
  Plugin.mkConfig 1000 0%R Plugin.chars_div_4.

Definition assistantInfo (sessionId messageId : string) : Plugin.MessageInfo :=
  Plugin.mkInfo messageId sessionId Plugin.assistant None None None None None None.

Definition textPart (sessionId messageId partId text : string) : Plugin.Part :=
  Plugin.mkPart partId (Some sessionId) messageId "text" (Some text)
                None None None None.

(** A text part tagged with an agent id. *)
Definition agentPart (sessionId messageId partId text agentId : string) : Plugin.Part :=
  Plugin.mkPart partId (Some sessionId) messageId "text" (Some text)
                None None (Some agentId) None.

(** Session A streams and goes idle; then session B streams. *)
Definition twoSessions : list (Z * Plugin.Event) :=
  [ (1000, Plugin.MessageUpdated (Some (assistantInfo "ses_A" "m1")));
    (1001, Plugin.MessagePartUpdated (Some (textPart "ses_A" "m1" "p1" "hello")) None);
    (2000, Plugin.SessionIdle (Some "ses_A"));
    (3000, Plugin.MessageUpdated (Some (assistantInfo "ses_B" "m2")));
    (3001, Plugin.MessagePartUpdated (Some (textPart "ses_B" "m2" "p2" "world")) None) ].

(** The state after the first two events of [twoSessions]. *)
Definition sessionAStreaming : Plugin.State :=
  fst (Plugin.run defaultConfig (firstn 2 twoSessions) Plugin.initial).

(** Session B starts streaming while session A is the primary one. *)
Definition sessionBJoins : list (Z * Plugin.Event) :=
  [ (1500, Plugin.MessageUpdated (Some (assistantInfo "ses_B" "m2")));
    (1501, Plugin.MessagePartUpdated (Some (textPart "ses_B" "m2" "p2" "world")) None) ].

(** The state in which message m1 of session A is known to be the
    assistant's and nothing has streamed yet. *)
Definition roleKnown : Plugin.State :=
  fst (Plugin.run defaultConfig
         [(1000, Plugin.MessageUpdated (Some (assistantInfo "ses_A" "m1")))]
         Plugin.initial).

(** A tool part of the assistant's message, and a text part of a message
    whose role was never announced. *)
Definition toolPart : Plugin.Part :=
  Plugin.mkPart "p9" (Some "ses_A") "m1" "tool" (Some "ls -la") None None None None.
Definition userPart : Plugin.Part := textPart "ses_A" "m0" "p0" "a question".

(** The part of [sessionAStreaming], whose cached text is "hello", grown
    to "hello world", and replaced by "goodbye". *)
Definition grownPart : Plugin.Part := textPart "ses_A" "m1" "p1" "hello world".

(** ** Trackers: call sequences, windows, invariants *)

(** The timestamp a [recordTokens] call records: its argument, or the
    clock reading when there is none. *)
Definition callTimestamp (c : RecordCall) : Z := orClock (snd c) (fst (fst c)).

(** Each number is at least the one before it. *)
Fixpoint nonDecreasing (l : list Z) : bool :=
  match l with
  | [] => true
  | x :: rest =>
    match rest with
    | [] => true
    | y :: _ => (x <=? y) && nonDecreasing rest
    end
  end.

(** Every entry of the buffer lies in the window that ends at [latest]. *)
Definition withinWindow (windowMs latest : Z) (b : list BufferEntry) : bool :=
  forallb (fun e => (latest - windowMs <=? timestamp e) && (timestamp e <=? latest)) b.

(** Three calls, at t = 100, 900 and 1500. *)
Definition threeCalls : list RecordCall :=
  [ (5, 10, Some 100); (6, 20, Some 900); (7, 30, Some 1500) ].

(** The buffer is in timestamp order and within the window that ends at [t]. *)
Definition BufferInv (w t : Z) (b : list BufferEntry) : Prop :=
  StronglySorted Z.le (map timestamp b)
  /\ Forall (fun e => t - w <= timestamp e <= t) b.

(** The state the two revisions share. *)
Definition sameTracker (tr : Tracker.t) (tre : TrackerEwma.t) : Prop :=
  Tracker.startTime tr = TrackerEwma.startTime tre
  /\ Tracker.totalTokens tr = TrackerEwma.totalTokens tre
  /\ Tracker.buffer tr = TrackerEwma.buffer tre
  /\ Tracker.sessionId tr = TrackerEwma.sessionId tre
  /\ Tracker.windowMs tr = TrackerEwma.windowMs tre.

(** The entries that are not older than the window at [now], and the
    tokens of a list of entries. *)
Definition liveEntries (windowMs now : Z) (b : list BufferEntry) : list BufferEntry :=
  filter (notExpired (now - windowMs)) b.
Definition sumOfCounts (b : list BufferEntry) : Z := fold_right Z.add 0 (map count b).
(** The oldest and the newest timestamp as the loop computes them: it
    starts the oldest at [now] and the newest at 0. *)
Definition oldestOf (now : Z) (b : list BufferEntry) : Z :=
  fold_right Z.min now (map timestamp b).
Definition newestOf (b : list BufferEntry) : Z :=
  fold_right Z.max 0 (map timestamp b).

(** The rate of the entries [live] at time [now]: their tokens over the
    time they span, which is taken to be at least 0.1 s. *)
Definition rateOver (now : Z) (live : list BufferEntry) : R :=
  if sumOfCounts live =? 0 then 0%R
  else (IZR (sumOfCounts live)
        / Rmax (IZR (newestOf live - oldestOf now live) / 1000)
               Constants.MIN_WINDOW_DURATION_SECONDS)%R.





(** ** Token counter *)

(** The text a stream of chunks adds up to, and the count the plugin
    reaches by counting chunk by chunk. *)
Definition joinChunks (chunks : list string) : string :=
  fold_right String.append "" chunks.
Definition countChunks (algorithm : TokenCounter.TokenizerAlgorithm)
                       (chunks : list string) : Z :=
  fold_right Z.add 0 (map (TokenCounter.createTokenizer algorithm) chunks).
(** The divisor of a character-based algorithm. *)
Definition charDivisor (algorithm : TokenCounter.TokenizerAlgorithm) : option Z :=
  match algorithm with
  | TokenCounter.heuristic => Some Constants.CHARS_DIV_4
  | TokenCounter.code => Some Constants.CHARS_DIV_3
  | TokenCounter.word => None
  end.

(** ** Configuration *)

(** A host with one configuration file, the global one, whose
    [rollingWindowMs] is a string, and an environment that sets two
    variables. *)
Definition globalOnlyExists (filePath : string) : bool := String.eqb filePath "global.json".
Definition readAny (filePath : string) : option string := Some filePath.
Definition stringWindow : ConfigFile.PartialConfig :=
  ConfigFile.mkPartial ConfigFile.JsUndefined ConfigFile.JsUndefined
    (ConfigFile.JsString "500") ConfigFile.JsUndefined ConfigFile.JsUndefined
    ConfigFile.JsUndefined ConfigFile.JsUndefined ConfigFile.JsUndefined
    ConfigFile.JsUndefined ConfigFile.JsUndefined ConfigFile.JsUndefined
    ConfigFile.JsUndefined ConfigFile.JsUndefined.
Definition parseStringWindow (content : string) : option ConfigFile.Parsed :=
  Some (ConfigFile.ParsedObject stringWindow).
Definition parseMinusFive (text : string) : ConfigFile.JsNumber :=
  if String.eqb text "-5" then ConfigFile.Finite (-5 # 1) else ConfigFile.NaN.
Definition noEnv : ConfigFile.Env :=
  ConfigFile.mkEnv None None None None None None None None None None None None None.
Definition enabledOne : ConfigFile.Env :=
  ConfigFile.mkEnv (Some "1") None (Some "-5") None None None None None None None None
                   None None.

(** ** UI manager: call sequences *)

(** The operations of the UI manager and the callback of its flush
    timer, as data. *)
Inductive UiOp : Type :=
| UpdateDisplayOp (instantTps avgTps : R) (totalTokens elapsedMs : Z)
| ShowFinalStatsOp (totalTokens : Z) (avgTps : R) (elapsedMs : Z)
| ClearOp
| SetUpdateIntervalOp (ms : Z)
| FlushTimerOp.

(** The call an operation stands for, made when the clock reads [fst call],
    the world after it, and the world after a sequence of calls. *)
Definition uiCall (formatDisplay : UI.UiConfig -> UI.DisplayState -> string)
    (client : UI.OpenCodeClient) (call : Z * UiOp) : Eff UI.World unit :=
  match snd call with
  | UpdateDisplayOp i a t e => UI.updateDisplay (fst call) i a t e
  | ShowFinalStatsOp t a e => UI.showFinalStats formatDisplay client (fst call) t a e
  | ClearOp => UI.clear formatDisplay client (fst call)
  | SetUpdateIntervalOp ms => UI.setUpdateInterval ms
  | FlushTimerOp => UI.flushTimerFired formatDisplay client (fst call)
  end.

Definition uiStep (formatDisplay : UI.UiConfig -> UI.DisplayState -> string)
    (client : UI.OpenCodeClient) (w : UI.World) (call : Z * UiOp) : UI.World :=
  snd (uiCall formatDisplay client call w).

Definition uiRun (formatDisplay : UI.UiConfig -> UI.DisplayState -> string)
    (client : UI.OpenCodeClient) (calls : list (Z * UiOp)) (w : UI.World) : UI.World :=
  fold_left (uiStep formatDisplay client) calls w.

(** The flush timer runs its callback only while it is armed, and not
    before it is due. *)
Fixpoint timerRespected (formatDisplay : UI.UiConfig -> UI.DisplayState -> string)
    (client : UI.OpenCodeClient) (calls : list (Z * UiOp)) (w : UI.World) : bool :=
  match calls with
  | [] => true
  | call :: rest =>
    match snd call with
    | FlushTimerOp =>
      match UI.flushTimer (UI.ui w) with
      | Some due => due <=? fst call
      | None => false
      end
    | _ => true
    end
    && timerRespected formatDisplay client rest (uiStep formatDisplay client w call)
  end.

(** A manager that was just created; no sink has been called. *)
Definition newUi (config : UI.UiConfig) : UI.World :=
  UI.mkWorld (UI.createUIManager config) [].

(** The call is an [updateDisplay]. *)
Definition isUpdate (call : Z * UiOp) : bool :=
  match snd call with
  | UpdateDisplayOp _ _ _ _ => true
  | _ => false
  end.

(** A rendering, and a sequence in which the timer fires once. *)
Definition plainFormat (c : UI.UiConfig) (d : UI.DisplayState) : string := "TPS".

Definition throttledCalls : list (Z * UiOp) :=
  [ (1000, UpdateDisplayOp 1 1 10 100); (1000, FlushTimerOp);
    (1010, UpdateDisplayOp 2 2 20 110); (1020, UpdateDisplayOp 3 3 30 120) ].

(** ** UI manager: what was shown *)














(** An armed timer is due no earlier than an interval after the last
    flush, unless [lastFlushAt] is 0. *)
Definition UiThrottleInv (s : UI.UiState) : Prop :=
  match UI.flushTimer s with
  | Some due =>
    UI.lastFlushAt s = 0 \/ UI.lastFlushAt s + UI.updateIntervalMs (UI.uiConfig s) <= due
  | None => True
  end.

(** ** Plugin: what reaches the UI manager *)

(** Descending by rate, as the agents of a display call are listed. *)
Definition fasterFirst (a b : Plugin.AgentDisplayState) : Prop :=
  (Plugin.ad_instantTps b <= Plugin.ad_instantTps a)%R.

(** The UI calls of a run. *)
Definition uiCallsOf (config : Plugin.Config) (events : list (Z * Plugin.Event))
    (s : Plugin.State) : list Plugin.UiCall :=
  snd (Plugin.run config events s).

(** The placeholder a display call carries when only subagents are shown. *)
Definition agentsOnlyCall (c : Plugin.UiCall) : Prop :=
  match c with
  | Plugin.UpdateDisplay i a t e agents =>
    i = 0%R /\ a = 0%R /\ t = 0 /\ e = 0 /\ agents <> []
  | _ => False
  end.

(** The assistant's message m1 of session A, completed at t = 4000 after
    being created at t = 1000, with 30 output tokens reported. *)
Definition completedInfo : Plugin.MessageInfo :=
  Plugin.mkInfo "m1" "ses_A" Plugin.assistant
                (Some (Plugin.mkTime 1000 (Some 4000)))
                (Some (Plugin.mkTokens 30 None)) (Some "stop") None None None.

(** A subagent streams two chunks 300 ms apart in session A. *)
Definition subagentStreams : list (Z * Plugin.Event) :=
  [ (1000, Plugin.MessageUpdated (Some (assistantInfo "ses_A" "m1")));
    (1001, Plugin.MessagePartUpdated
             (Some (agentPart "ses_A" "m1" "p1" "hello" "agent-7")) None);
    (1301, Plugin.MessagePartUpdated
             (Some (agentPart "ses_A" "m1" "p1" "hello world" "agent-7")) None) ].
(** The calls of one step: display calls and final statistics as the two
    functions above shape them, or the one [Clear] of [cleanup]. *)
Definition callOk (config : Plugin.Config) (c : Plugin.UiCall) : Prop :=
  match c with
  | Plugin.UpdateDisplay i a t e agents => (Plugin.minVisibleTPS config <= i)%R \/ agentsOnlyCall c
  | Plugin.ShowFinalStats t a e =>
    0 < t /\ Constants.MIN_TPS_ELAPSED_MS <= e /\ a = (IZR t / (IZR e / 1000))%R
  | Plugin.Clear => True
  end.

(** ** Plugin: reachable states *)

(** The state a run of events leads to, from the state of a plugin that
    was just loaded. *)
Definition stateAfter (config : Plugin.Config) (events : list (Z * Plugin.Event))
  : Plugin.State :=
  fst (Plugin.run config events Plugin.initial).

(** Nothing is held for a session: no trackers, no cache, no timer. *)
Definition forgotten (sessionId : string) (s : Plugin.State) : Prop :=
  JsMap.get sessionId (Plugin.sessionTrackers s) = None
  /\ JsMap.get sessionId (Plugin.partTextCache s) = None
  /\ JsMap.get sessionId (Plugin.messageTokenCache s) = None
  /\ JsMap.get sessionId (Plugin.messageRoleCache s) = None
  /\ JsMap.get sessionId (Plugin.sessionAgentNameCache s) = None
  /\ JsMap.get sessionId (Plugin.pendingDisplayTimers s) = None.

(** Parts of the message are not counted: the role cached for it is not
    the assistant's. *)
Definition closedMessage (sessionId messageId : string) (s : Plugin.State) : Prop :=
  Plugin.isAssistant (Plugin.cachedRole sessionId messageId s) = false.

(** The event opens the message for counting: a [message.updated] that
    reports it as an assistant message with no completion time. *)
Definition reopens (sessionId messageId : string) (e : Z * Plugin.Event) : bool :=
  match snd e with
  | Plugin.MessageUpdated (Some info) =>
    String.eqb (Plugin.info_sessionID info) sessionId
    && String.eqb (Plugin.info_id info) messageId
    && Plugin.isAssistant (Some (Plugin.info_role info))
    && match Plugin.completedAt info with Some _ => false | None => true end
  | _ => false
  end.

(** After the completion of m1, session A sees a user message and a part
    of another assistant message, and a stray part of m1. *)
Definition afterCompletion : list (Z * Plugin.Event) :=
  [ (5010, Plugin.MessageUpdated
             (Some (Plugin.mkInfo "m2" "ses_A" Plugin.user None None None None None None)));
    (5020, Plugin.MessageUpdated (Some (assistantInfo "ses_A" "m3")));
    (5030, Plugin.MessagePartUpdated (Some (textPart "ses_A" "m3" "p1" "next")) None);
    (5040, Plugin.MessagePartUpdated (Some (textPart "ses_A" "m1" "p1" "hello again")) None) ].

(** A [Map] holds a key once. *)
Definition uniqueKeys {V : Type} (m : JsMap.t V) : Prop := NoDup (JsMap.keys m).
Definition innerUnique {V : Type} (m : JsMap.t (JsMap.t V)) : Prop :=
  Forall (fun kv => uniqueKeys (snd kv)) m.

(** The maps of the plugin hold every key once. *)
Definition WellFormed (s : Plugin.State) : Prop :=
  uniqueKeys (Plugin.sessionTrackers s)
  /\ uniqueKeys (Plugin.partTextCache s)
  /\ uniqueKeys (Plugin.messageTokenCache s)
  /\ uniqueKeys (Plugin.messageRoleCache s)
  /\ innerUnique (Plugin.messageRoleCache s)
  /\ uniqueKeys (Plugin.sessionAgentNameCache s)
  /\ uniqueKeys (Plugin.pendingDisplayTimers s).

(** A session holds each of its streams once, under the stream's own key. *)
Definition goodStreams (m : JsMap.t Plugin.MessageTrackerState) : Prop :=
  uniqueKeys m /\ Forall (fun kv => Plugin.mt_key (snd kv) = fst kv) m.
Definition streamsUnique (s : Plugin.State) : Prop :=
  Forall (fun kv => goodStreams (Plugin.messageTrackers (snd kv))) (Plugin.sessionTrackers s).

(** The streams a sweep at [now] keeps. *)
Definition fresh (now : Z) (kv : string * Plugin.MessageTrackerState) : bool :=
  negb (Plugin.isStale now (snd kv)).

(** The tokens the session's aggregate tracker holds, and those of one of
    its streams; 0 where there is none. *)
Definition aggregateTotal (sessionId : string) (s : Plugin.State) : Z :=
  match JsMap.get sessionId (Plugin.sessionTrackers s) with
  | Some ss => TrackerEwma.getTotalTokens (Plugin.aggregate ss)
  | None => 0
  end.
Definition streamTotal (sessionId key : string) (s : Plugin.State) : Z :=
  match JsMap.get sessionId (Plugin.sessionTrackers s) with
  | Some ss =>
    match JsMap.get key (Plugin.messageTrackers ss) with
    | Some mt => TrackerEwma.getTotalTokens (Plugin.mt_tracker mt)
    | None => 0
    end
  | None => 0
  end.

(** The key of the stream a part belongs to. *)
Definition partStreamKey (part : Plugin.Part) : string :=
  Plugin.buildTrackerKey (Plugin.partSessionId part) (Plugin.part_messageID part)
                         (Some (Plugin.part_id part)) (Plugin.partMetadata part).

(** The state of session A in [sessionAStreaming]. *)
Definition sessionAState : Plugin.SessionTrackingState :=
  match JsMap.get "ses_A" (Plugin.sessionTrackers sessionAStreaming) with
  | Some ss => ss
  | None => Plugin.mkSession (Plugin.newTracker defaultConfig "ses_A" 0) None JsMap.empty
  end.

(** A session without streams has a reset aggregate. *)
Definition emptyMeansReset (ss : Plugin.SessionTrackingState) : Prop :=
  Plugin.messageTrackers ss = [] ->
  TrackerEwma.getTotalTokens (Plugin.aggregate ss) = 0
  /\ TrackerEwma.getBufferSize (Plugin.aggregate ss) = 0
  /\ Plugin.aggregateFirstTokenAt ss = None.

(** A configuration file that cannot be used: it does not exist, reading
    it throws, [JSON.parse] throws, or the document is not an object. *)
Definition unusableFile (existsSync : string -> bool)
    (readFileSync : string -> option string)
    (jsonParse : string -> option ConfigFile.Parsed) (filePath : string) : bool :=
  negb (existsSync filePath)
  || match readFileSync filePath with
     | None => true
     | Some content =>
       match jsonParse content with
       | Some (ConfigFile.ParsedObject _) => false
       | _ => true
       end
     end.

(** A host whose files both exist and hold text that is not JSON. *)
Definition everyFileExists (filePath : string) : bool := true.
Definition parseFails (content : string) : option ConfigFile.Parsed := None.

(* ================================================================== *)
(** * Trackers: totals and buffer bound *)
(* ================================================================== *)

Lemma Tracker_record_total c ts clock tr :
  Tracker.getTotalTokens (Tracker.recordTokens c ts clock tr)
  = Tracker.getTotalTokens tr + c.
Proof. reflexivity. Qed.

Lemma TrackerEwma_record_total c ts clock tr :
  TrackerEwma.getTotalTokens (TrackerEwma.recordTokens c ts clock tr)
  = TrackerEwma.getTotalTokens tr + c.
Proof. reflexivity. Qed.

Lemma Tracker_run_total calls : forall tr,
  Tracker.getTotalTokens (Tracker.run (recordCalls calls) tr)
  = Tracker.getTotalTokens tr + sumCounts calls.
Proof.
  induction calls as [|[[clock c] ts] rest IH]; intros tr.
  - unfold sumCounts; simpl. lia.
  - change (Tracker.run (recordCalls ((clock, c, ts) :: rest)) tr)
      with (Tracker.run (recordCalls rest) (Tracker.recordTokens c ts clock tr)).
    rewrite IH, Tracker_record_total.
    unfold sumCounts; simpl. lia.
Qed.

Lemma TrackerEwma_run_total calls : forall tr,
  TrackerEwma.getTotalTokens (TrackerEwma.run (recordCalls calls) tr)
  = TrackerEwma.getTotalTokens tr + sumCounts calls.
Proof.
  induction calls as [|[[clock c] ts] rest IH]; intros tr.
  - unfold sumCounts; simpl. lia.
  - change (TrackerEwma.run (recordCalls ((clock, c, ts) :: rest)) tr)
      with (TrackerEwma.run (recordCalls rest) (TrackerEwma.recordTokens c ts clock tr)).
    rewrite IH, TrackerEwma_record_total.
    unfold sumCounts; simpl. lia.
Qed.

(** C1. For every sequence of [recordTokens] calls on a fresh tracker,
    whatever the timestamps (so in particular for non-decreasing ones) and
    whatever was pruned or trimmed from the buffer on the way,
    [getTotalTokens()] is the sum of the recorded counts.  Both revisions
    of the tracker. *)
Theorem total_tokens_is_sum_of_counts :
  forall (options : TPSTrackerOptions) (clock0 : Z) (calls : list RecordCall),
    Tracker.getTotalTokens
      (Tracker.run (recordCalls calls) (Tracker.createTracker options clock0))
    = sumCounts calls
    /\ TrackerEwma.getTotalTokens
         (TrackerEwma.run (recordCalls calls) (TrackerEwma.createTracker options clock0))
       = sumCounts calls.
Proof.
  intros options clock0 calls. split.
  - now rewrite Tracker_run_total.
  - now rewrite TrackerEwma_run_total.
Qed.

Lemma Tracker_prune_bound now tr :
  Tracker.getBufferSize (Tracker.pruneBuffer now tr) <= Constants.MAX_BUFFER_SIZE.
Proof.
  unfold Tracker.getBufferSize, Tracker.pruneBuffer; simpl.
  set (b1 := if (0 <? _)%nat then _ else _).
  destruct (Constants.MAX_BUFFER_SIZE <? Z.of_nat (List.length b1)) eqn:E.
  - unfold sliceLast. rewrite length_skipn. apply Z.ltb_lt in E.
    unfold Constants.MAX_BUFFER_SIZE in *. lia.
  - apply Z.ltb_ge in E. exact E.
Qed.

Lemma TrackerEwma_prune_bound now tr :
  TrackerEwma.getBufferSize (TrackerEwma.pruneBuffer now tr) <= Constants.MAX_BUFFER_SIZE.
Proof.
  unfold TrackerEwma.getBufferSize, TrackerEwma.pruneBuffer; simpl.
  set (b1 := if (_ =? -1) then _ else _).
  destruct (Constants.MAX_BUFFER_SIZE <? Z.of_nat (List.length b1)) eqn:E.
  - unfold TrackerEwma.spliceFront. rewrite length_skipn. apply Z.ltb_lt in E.
    unfold Constants.MAX_BUFFER_SIZE in *. lia.
  - apply Z.ltb_ge in E. exact E.
Qed.

Lemma Tracker_step_bound tr call :
  Tracker.getBufferSize tr <= Constants.MAX_BUFFER_SIZE ->
  Tracker.getBufferSize (Tracker.step tr call) <= Constants.MAX_BUFFER_SIZE.
Proof.
  intros H. destruct call as [clock op]. unfold Tracker.step.
  destruct op; cbn [snd fst]; try exact H.
  - apply Tracker_prune_bound.
  - unfold Tracker.getBufferSize, Constants.MAX_BUFFER_SIZE. simpl. lia.
Qed.

Lemma TrackerEwma_step_bound tr call :
  TrackerEwma.getBufferSize tr <= Constants.MAX_BUFFER_SIZE ->
  TrackerEwma.getBufferSize (TrackerEwma.step tr call) <= Constants.MAX_BUFFER_SIZE.
Proof.
  intros H. destruct call as [clock op]. unfold TrackerEwma.step.
  destruct op; cbn [snd fst]; try exact H.
  - unfold TrackerEwma.recordTokens, TrackerEwma.getBufferSize.
    cbn [TrackerEwma.buffer]. apply TrackerEwma_prune_bound.
  - unfold TrackerEwma.getBufferSize, Constants.MAX_BUFFER_SIZE. simpl. lia.
Qed.

Lemma Tracker_run_bound calls : forall tr,
  Tracker.getBufferSize tr <= Constants.MAX_BUFFER_SIZE ->
  Tracker.getBufferSize (Tracker.run calls tr) <= Constants.MAX_BUFFER_SIZE.
Proof.
  induction calls as [|call rest IH]; intros tr H; [exact H|].
  apply IH, Tracker_step_bound, H.
Qed.

Lemma TrackerEwma_run_bound calls : forall tr,
  TrackerEwma.getBufferSize tr <= Constants.MAX_BUFFER_SIZE ->
  TrackerEwma.getBufferSize (TrackerEwma.run calls tr) <= Constants.MAX_BUFFER_SIZE.
Proof.
  induction calls as [|call rest IH]; intros tr H; [exact H|].
  apply IH, TrackerEwma_step_bound, H.
Qed.

(** C2. After any sequence of interface calls on a fresh tracker
    ([recordTokens] with arbitrary counts and timestamps, [reset], the
    accessors), [getBufferSize()] is at most 100.  Both revisions of the
    tracker. *)
Theorem buffer_size_bounded :
  forall (options : TPSTrackerOptions) (clock0 : Z) (calls : list (Z * TrackerOp)),
    Tracker.getBufferSize (Tracker.run calls (Tracker.createTracker options clock0)) <= 100
    /\ TrackerEwma.getBufferSize
         (TrackerEwma.run calls (TrackerEwma.createTracker options clock0)) <= 100.
Proof.
  intros options clock0 calls. split.
  - apply Tracker_run_bound. unfold Tracker.getBufferSize, Constants.MAX_BUFFER_SIZE.
    simpl. lia.
  - apply TrackerEwma_run_bound.
    unfold TrackerEwma.getBufferSize, Constants.MAX_BUFFER_SIZE. simpl. lia.
Qed.

(* ================================================================== *)
(** * Trackers: EWMA smoothing *)
(* ================================================================== *)

Lemma halfLife_cases c :
  TrackerEwma.halfLife c
  = if 50 <? c then 3000 else 500.
Proof. reflexivity. Qed.


(** The update [recordTokens] makes once a smoothed value exists. *)
Lemma TrackerEwma_record_smoothed c ts clock tr :
  TrackerEwma.hasSmoothedValue tr = true ->
  TrackerEwma.smoothedTps (TrackerEwma.recordTokens c ts clock tr) =
  (TrackerEwma.ewmaAlpha (Z.max 1 (orClock ts clock - TrackerEwma.lastSmoothedAt tr))
                         (TrackerEwma.halfLife c)
   * TrackerEwma.smoothedTps tr
   + (1 - TrackerEwma.ewmaAlpha
            (Z.max 1 (orClock ts clock - TrackerEwma.lastSmoothedAt tr))
            (TrackerEwma.halfLife c))
     * TrackerEwma.calculateRawTPS (orClock ts clock)
         (TrackerEwma.recordTokens c ts clock tr))%R.
Proof.
  intros H. unfold TrackerEwma.recordTokens; cbn -[TrackerEwma.ewmaAlpha Z.max].
  rewrite H. reflexivity.
Qed.

(** The first call stores the raw rate (bootstrap). *)
Lemma TrackerEwma_record_bootstrap c ts clock tr :
  TrackerEwma.hasSmoothedValue tr = false ->
  TrackerEwma.smoothedTps (TrackerEwma.recordTokens c ts clock tr)
  = TrackerEwma.calculateRawTPS (orClock ts clock)
      (TrackerEwma.recordTokens c ts clock tr).
Proof.
  intros H. unfold TrackerEwma.recordTokens; cbn -[TrackerEwma.ewmaAlpha Z.max].
  rewrite H. reflexivity.
Qed.

(** C3, the code against the three tiers.  A count above the large-burst
    threshold (201 > 200) gets the burst half-life, 3000 ms, as every
    count above 50 does; the large-burst half-life, 5000 ms, is never
    chosen.  The smoothed value stored for such a count is computed with
    that 3000 ms half-life. *)
Theorem large_burst_gets_burst_half_life :
  TrackerEwma.halfLife (Constants.LARGE_BURST_THRESHOLD + 1)
  = Constants.BURST_EWMA_HALF_LIFE_MS
  /\ TrackerEwma.halfLife (Constants.LARGE_BURST_THRESHOLD + 1)
     <> Constants.LARGE_BURST_EWMA_HALF_LIFE_MS
  /\ (forall c, TrackerEwma.halfLife c <> Constants.LARGE_BURST_EWMA_HALF_LIFE_MS)
  /\ TrackerEwma.smoothedTps largeBurstAfterHighRate
     = (TrackerEwma.ewmaAlpha 3000 Constants.BURST_EWMA_HALF_LIFE_MS
        * TrackerEwma.smoothedTps afterHighRate
        + (1 - TrackerEwma.ewmaAlpha 3000 Constants.BURST_EWMA_HALF_LIFE_MS)
          * TrackerEwma.calculateRawTPS 3000 largeBurstAfterHighRate)%R.
Proof.
  split; [reflexivity|]. split; [discriminate|]. split.
  - intros c. rewrite halfLife_cases. destruct (50 <? c); discriminate.
  - unfold largeBurstAfterHighRate.
    rewrite TrackerEwma_record_smoothed by reflexivity. reflexivity.
Qed.












(* ================================================================== *)
(** * Trackers: window, pruning, bootstrap *)
(* ================================================================== *)

Lemma findIndexFrom_validStart cutoff buf : forall i,
  TrackerEwma.findIndexFrom (notExpired cutoff) i buf
  = if (Tracker.validStartIndex cutoff buf =? List.length buf)%nat then -1
    else i + Z.of_nat (Tracker.validStartIndex cutoff buf).
Proof.
  induction buf as [|e rest IH]; intros i; [reflexivity|].
  cbn [TrackerEwma.findIndexFrom Tracker.validStartIndex List.length].
  unfold notExpired at 1.
  destruct (timestamp e <? cutoff) eqn:E.
  - assert ((cutoff <=? timestamp e) = false) as -> by lia.
    rewrite IH. cbn [Nat.eqb].
    destruct (_ =? _)%nat; lia.
  - assert ((cutoff <=? timestamp e) = true) as -> by lia.
    cbn. lia.
Qed.

Lemma validStartIndex_le cutoff buf :
  (Tracker.validStartIndex cutoff buf <= List.length buf)%nat.
Proof.
  induction buf as [|e rest IH]; simpl; [lia|].
  destruct (_ <? _); simpl; lia.
Qed.

Lemma prune_same_buffer now tr tre :
  Tracker.buffer tr = TrackerEwma.buffer tre ->
  Tracker.windowMs tr = TrackerEwma.windowMs tre ->
  Tracker.buffer (Tracker.pruneBuffer now tr)
  = TrackerEwma.buffer (TrackerEwma.pruneBuffer now tre).
Proof.
  intros Hb Hw.
  unfold Tracker.pruneBuffer, TrackerEwma.pruneBuffer, TrackerEwma.findIndex.
  cbn [Tracker.buffer TrackerEwma.buffer TrackerEwma.setBuffer].
  rewrite <- Hb, <- Hw.
  set (cutoff := now - Tracker.windowMs tr).
  change (fun e : BufferEntry => cutoff <=? timestamp e) with (notExpired cutoff).
  rewrite findIndexFrom_validStart.
  pose proof (validStartIndex_le cutoff (Tracker.buffer tr)) as Hle.
  set (n := Tracker.validStartIndex cutoff (Tracker.buffer tr)) in *.
  set (b := Tracker.buffer tr) in *.
  assert (E1 : (if (0 <? n)%nat then skipn n b else b)
               = (if (if (n =? List.length b)%nat then -1 else 0 + Z.of_nat n) =? -1
                  then []
                  else if 0 <? (if (n =? List.length b)%nat then -1 else 0 + Z.of_nat n)
                       then TrackerEwma.spliceFront
                              (if (n =? List.length b)%nat then -1 else 0 + Z.of_nat n) b
                       else b)).
  { destruct (n =? List.length b)%nat eqn:En.
    - apply Nat.eqb_eq in En. cbn [Z.eqb]. 
      destruct (0 <? n)%nat eqn:E0.
      + rewrite En. apply skipn_all.
      + apply Nat.ltb_ge in E0. destruct b; [reflexivity|simpl in *; lia].
    - assert ((0 + Z.of_nat n =? -1) = false) as -> by lia.
      destruct (0 <? n)%nat eqn:E0.
      + apply Nat.ltb_lt in E0.
        assert ((0 <? 0 + Z.of_nat n) = true) as -> by lia.
        unfold TrackerEwma.spliceFront. f_equal. lia.
      + apply Nat.ltb_ge in E0.
        assert ((0 <? 0 + Z.of_nat n) = false) as -> by lia. reflexivity. }
  rewrite <- E1.
  set (b1 := if (0 <? n)%nat then skipn n b else b).
  destruct (Constants.MAX_BUFFER_SIZE <? Z.of_nat (List.length b1)) eqn:E; [|reflexivity].
  unfold sliceLast, TrackerEwma.spliceFront. f_equal.
  apply Z.ltb_lt in E. unfold Constants.MAX_BUFFER_SIZE in *. lia.
Qed.

(** The two revisions of [pruneBuffer], the [while] loop with [slice]
    and [findIndex] with [splice], keep the same entries of the same
    buffer. *)
Theorem prune_revisions_agree :
  forall (now windowMs : Z) (buffer : list BufferEntry)
         (start total : Z) (sid : option string)
         (start' total' : Z) (sid' : option string)
         (smoothed : R) (lastAt : Z) (has : bool),
    Tracker.buffer
      (Tracker.pruneBuffer now (Tracker.mk start total buffer sid windowMs))
    = TrackerEwma.buffer
        (TrackerEwma.pruneBuffer now
           (TrackerEwma.mk start' total' buffer sid' windowMs smoothed lastAt has)).
Proof. intros. now apply prune_same_buffer. Qed.

Lemma windowStep_filter cutoff buf : forall acc,
  fold_left (windowStep cutoff) buf acc
  = fold_left (windowStep cutoff) (filter (notExpired cutoff) buf) acc.
Proof.
  induction buf as [|e rest IH]; intros acc; [reflexivity|].
  cbn [fold_left filter].
  assert (Hs : notExpired cutoff e = false -> windowStep cutoff acc e = acc).
  { unfold notExpired, windowStep. now intros ->. }
  destruct (notExpired cutoff e) eqn:E.
  - cbn [fold_left]. apply IH.
  - rewrite (Hs eq_refl). apply IH.
Qed.

Lemma windowStep_tokens_nil cutoff now :
  tokensInWindow (fold_left (windowStep cutoff) [] (mkAcc 0 now 0)) = 0.
Proof. reflexivity. Qed.

(** Entries older than the window contribute nothing to the rate: the
    rate of a buffer is the rate of its entries that have not expired. *)
Theorem expired_entries_do_not_count :
  forall (windowMs : Z) (buffer : list BufferEntry) (now : Z),
    windowRate windowMs buffer now
    = windowRate windowMs (filter (notExpired (now - windowMs)) buffer) now.
Proof.
  intros w buf now. unfold windowRate.
  rewrite (windowStep_filter (now - w) buf).
  destruct buf as [|e rest]; [reflexivity|].
  destruct (filter (notExpired (now - w)) (e :: rest)) as [|e' rest'] eqn:F;
    reflexivity.
Qed.

(** Right after the first [recordTokens] call on a fresh tracker,
    [getSmoothedTPS()] is the raw rate computed at that call. *)
Theorem smoothed_bootstrap :
  forall (options : TPSTrackerOptions) (clock0 count : Z) (timestamp : option Z) (clock : Z),
    TrackerEwma.getSmoothedTPS clock
      (TrackerEwma.recordTokens count timestamp clock
         (TrackerEwma.createTracker options clock0))
    = TrackerEwma.calculateRawTPS (orClock timestamp clock)
        (TrackerEwma.recordTokens count timestamp clock
           (TrackerEwma.createTracker options clock0)).
Proof.
  intros. unfold TrackerEwma.getSmoothedTPS.
  cbn [TrackerEwma.hasSmoothedValue TrackerEwma.recordTokens].
  now rewrite TrackerEwma_record_bootstrap.
Qed.

(** [getAverageTPS()] is 0 right after [reset()], before the clock
    moves. *)
Theorem average_zero_after_reset :
  forall (clock : Z) (tr : Tracker.t) (tre : TrackerEwma.t),
    Tracker.getAverageTPS clock (Tracker.reset clock tr) = 0%R
    /\ TrackerEwma.getAverageTPS clock (TrackerEwma.reset clock tre) = 0%R.
Proof.
  intros. unfold Tracker.getAverageTPS, TrackerEwma.getAverageTPS, averageRate.
  cbn [Tracker.startTime Tracker.reset TrackerEwma.startTime TrackerEwma.reset].
  rewrite Z.sub_diag. split; reflexivity.
Qed.

(** 40 tokens at t = 0 and 40 at t = 1000 with a 1000 ms window: the
    instantaneous rate at t = 1000 is 80 tokens per second. *)
Theorem two_chunks_rate :
  TrackerEwma.getInstantTPS 1000 twoChunks = 80%R.
Proof.
  unfold TrackerEwma.getInstantTPS, TrackerEwma.calculateRawTPS, windowRate. simpl.
  unfold Constants.MIN_WINDOW_DURATION_SECONDS.
  rewrite Rmax_left by lra. lra.
Qed.

(* ================================================================== *)
(** * Trackers: counts are recorded as given *)
(* ================================================================== *)

Lemma last_skipn {A : Type} (l : list A) : forall n d,
  (n < List.length l)%nat -> last (skipn n l) d = last l d.
Proof.
  induction l as [|x l IH]; intros n d H; [simpl in H; lia|].
  destruct n as [|n]; [reflexivity|].
  simpl in H. cbn [skipn]. rewrite IH by lia.
  destruct l; [simpl in H; lia|reflexivity].
Qed.

Lemma validStartIndex_app_live cutoff b e :
  cutoff <= timestamp e ->
  (Tracker.validStartIndex cutoff (b ++ [e]) <= List.length b)%nat.
Proof.
  intros H. induction b as [|x b IH]; simpl.
  - assert ((timestamp e <? cutoff) = false) as -> by lia. lia.
  - destruct (timestamp x <? cutoff); simpl; lia.
Qed.

Lemma resolveWindowMs_pos options : 0 < resolveWindowMs options.
Proof.
  unfold resolveWindowMs, Constants.DEFAULT_ROLLING_WINDOW_MS.
  destruct (opt_rollingWindowMs options) as [w|]; [|lia].
  destruct (0 <? w) eqn:E; lia.
Qed.

Lemma Tracker_step_window tr call : Tracker.windowMs (Tracker.step tr call) = Tracker.windowMs tr.
Proof. destruct call as [clock []]; reflexivity. Qed.

Lemma Tracker_run_window calls : forall tr,
  Tracker.windowMs (Tracker.run calls tr) = Tracker.windowMs tr.
Proof.
  induction calls as [|c rest IH]; intros tr; [reflexivity|].
  unfold Tracker.run in *. cbn [fold_left]. now rewrite IH, Tracker_step_window.
Qed.

Lemma TrackerEwma_step_window tr call :
  TrackerEwma.windowMs (TrackerEwma.step tr call) = TrackerEwma.windowMs tr.
Proof. destruct call as [clock []]; reflexivity. Qed.

Lemma TrackerEwma_run_window calls : forall tr,
  TrackerEwma.windowMs (TrackerEwma.run calls tr) = TrackerEwma.windowMs tr.
Proof.
  induction calls as [|c rest IH]; intros tr; [reflexivity|].
  unfold TrackerEwma.run in *. cbn [fold_left]. now rewrite IH, TrackerEwma_step_window.
Qed.

(** The entry just pushed survives the pruning that follows. *)
Lemma Tracker_record_last count ts clock tr :
  0 <= Tracker.windowMs tr ->
  last (Tracker.buffer (Tracker.recordTokens count ts clock tr)) (mkEntry 0 0)
  = mkEntry (orClock ts clock) count.
Proof.
  intros Hw. unfold Tracker.recordTokens, Tracker.pruneBuffer.
  cbn [Tracker.buffer Tracker.windowMs].
  set (e := mkEntry (orClock ts clock) count).
  set (b := Tracker.buffer tr).
  pose proof (validStartIndex_app_live (orClock ts clock - Tracker.windowMs tr) b e
                ltac:(cbn; lia)) as Hi.
  set (n := Tracker.validStartIndex _ (b ++ [e])) in *.
  set (b1 := if (0 <? n)%nat then skipn n (b ++ [e]) else b ++ [e]).
  assert (H1 : last b1 (mkEntry 0 0) = e /\ b1 <> []).
  { unfold b1. destruct (0 <? n)%nat.
    - split.
      + rewrite last_skipn by (rewrite length_app; simpl; lia). apply last_last.
      + intros E. apply (f_equal (@List.length _)) in E.
        rewrite length_skipn, length_app in E. simpl in E. lia.
    - split; [apply last_last|]. now destruct b. }
  destruct H1 as [H1 Hne]. clearbody b1.
  destruct (Constants.MAX_BUFFER_SIZE <? Z.of_nat (List.length b1)) eqn:E; [|exact H1].
  unfold sliceLast. rewrite last_skipn; [exact H1|].
  apply Z.ltb_lt in E. unfold Constants.MAX_BUFFER_SIZE in *. lia.
Qed.

Lemma TrackerEwma_record_buffer count ts clock tre :
  TrackerEwma.buffer (TrackerEwma.recordTokens count ts clock tre)
  = Tracker.buffer
      (Tracker.recordTokens count ts clock
         (Tracker.mk (TrackerEwma.startTime tre) (TrackerEwma.totalTokens tre)
                     (TrackerEwma.buffer tre) (TrackerEwma.sessionId tre)
                     (TrackerEwma.windowMs tre))).
Proof.
  unfold TrackerEwma.recordTokens, Tracker.recordTokens.
  cbn [TrackerEwma.buffer]. symmetry. now apply prune_same_buffer.
Qed.

(** C9, the claim refuted: a negative count is neither clamped nor
    ignored.  Recording -5 on a fresh tracker leaves [getTotalTokens()] at
    -5, below the 0 it was at before the call.  Both revisions. *)
Lemma negative_count_decreases_total :
  Tracker.getTotalTokens
    (Tracker.recordTokens (-5) (Some 1000) 1000 (Tracker.createTracker defaultOptions 0))
  < Tracker.getTotalTokens (Tracker.createTracker defaultOptions 0)
  /\ TrackerEwma.getTotalTokens
       (TrackerEwma.recordTokens (-5) (Some 1000) 1000
          (TrackerEwma.createTracker defaultOptions 0))
     < TrackerEwma.getTotalTokens (TrackerEwma.createTracker defaultOptions 0).
Proof. split; reflexivity. Qed.

(** C9, amended.  [recordTokens] takes any count as it is, negative or
    not: on a tracker reached from a fresh one by any sequence of calls,
    [getTotalTokens()] after the call is its value before plus the count
    (so it decreases by the absolute value of a negative count), the
    newest buffer entry carries the count unchanged, and the call returns
    normally.  Both revisions. *)
Theorem record_tokens_adds_count_literally :
  forall (options : TPSTrackerOptions) (clock0 : Z) (calls : list (Z * TrackerOp))
         (count : Z) (timestamp : option Z) (clock : Z),
    let tr := Tracker.run calls (Tracker.createTracker options clock0) in
    let tre := TrackerEwma.run calls (TrackerEwma.createTracker options clock0) in
    Tracker.getTotalTokens (Tracker.recordTokens count timestamp clock tr)
    = Tracker.getTotalTokens tr + count
    /\ last (Tracker.buffer (Tracker.recordTokens count timestamp clock tr)) (mkEntry 0 0)
       = mkEntry (orClock timestamp clock) count
    /\ TrackerEwma.getTotalTokens (TrackerEwma.recordTokens count timestamp clock tre)
       = TrackerEwma.getTotalTokens tre + count
    /\ last (TrackerEwma.buffer (TrackerEwma.recordTokens count timestamp clock tre))
            (mkEntry 0 0)
       = mkEntry (orClock timestamp clock) count.
Proof.
  intros options clock0 calls count timestamp clock tr tre.
  pose proof (resolveWindowMs_pos options) as Hp.
  split; [reflexivity|]. split; [|split; [reflexivity|]].
  - apply Tracker_record_last. unfold tr. rewrite Tracker_run_window. cbn. lia.
  - rewrite TrackerEwma_record_buffer. apply Tracker_record_last.
    cbn [Tracker.windowMs]. unfold tre. rewrite TrackerEwma_run_window. cbn. lia.
Qed.

(* ================================================================== *)
(** * Display: flood guard and sink chain *)
(* ================================================================== *)


Ltac break_sink :=
  match goal with
  | |- context [match ?f ?b with UI.Returns => _ | UI.Throws => _ end] =>
    destruct (f b) eqn:?
  | |- context [match ?f ?a ?b with UI.Returns => _ | UI.Throws => _ end] =>
    destruct (f a b) eqn:?
  end.

Ltac rewrite_outcomes :=
  repeat match goal with
         | H : _ = UI.Returns |- _ => rewrite H
         | H : _ = UI.Throws |- _ => rewrite H
         end.

(** Everything [display] does, by cases on the guard, on the sinks the
    client offers and on what each of them does. *)
Lemma display_chain client now message isFinal tps w :
  exists attempts u,
    UI.display client now message isFinal tps w
      = (Normal tt, UI.mkWorld u (UI.calls w ++ attempts))
    /\ inSinkOrder attempts = true
    /\ onlyLastMayReturn client attempts = true
    /\ u = (if someReturned client attempts
            then withLastToast now message (UI.ui w) else UI.ui w)
    /\ (suppressed now message isFinal (UI.ui w) = true -> attempts = [])
    /\ (suppressed now message isFinal (UI.ui w) = false ->
        someReturned client attempts = false ->
        List.length attempts = availableSinks client).
Proof.
  destruct w as [s cs].
  unfold UI.display, bind, get, availableSinks, suppressed, floodInterval.
  cbn [UI.ui UI.calls].
  unfold Constants.MIN_TOAST_INTERVAL_MS.
  replace (UI.updateIntervalMs (UI.uiConfig s) * 3) with
    (3 * UI.updateIntervalMs (UI.uiConfig s)) by lia.
  destruct (negb isFinal && _) eqn:G.
  - exists [], s. rewrite app_nil_r. cbn. repeat split; auto; discriminate.
  - destruct (UI.tui_showToast client) as [f1|] eqn:E1;
    destruct (UI.tui_publish client) as [f2|] eqn:E2;
    destruct (UI.client_toast_success client) as [f3|] eqn:E3;
    destruct (UI.client_toast_info client) as [f4|] eqn:E4;
    destruct isFinal;
    unfold tryCatch, UI.callSink, UI.setLastToast, bind, modify, ret, throw;
    cbn [UI.ui UI.calls negb];
    repeat (break_sink; cbn [UI.ui UI.calls negb]);
    first [ eexists; eexists; (split; [ rewrite <- ?app_assoc; reflexivity | ])
          | exists [], s; (split; [ rewrite app_nil_r; reflexivity | ]) ];
    cbn [inSinkOrder onlyLastMayReturn someReturned existsb forallb sinkRank
         sinkOutcome returned List.length app andb orb negb];
    rewrite ?E1, ?E2, ?E3, ?E4;
    rewrite_outcomes;
    cbn [returned negb andb orb];
    repeat split; auto; try discriminate.
Qed.











Section UiShown.

Variable formatDisplay : UI.UiConfig -> UI.DisplayState -> string.
Variable client : UI.OpenCodeClient.





End UiShown.




Section UiOperations.

Variable formatDisplay : UI.UiConfig -> UI.DisplayState -> string.

(** A flush returns normally. *)
Lemma flushPendingUpdate_returns client now w :
  exists w', UI.flushPendingUpdate formatDisplay client now w = (Normal tt, w').
Proof.
  unfold UI.flushPendingUpdate, bind, get.
  destruct (UI.pendingState (UI.ui w)) as [p|].
  - destruct (display_chain client now (formatDisplay (UI.uiConfig (UI.ui w)) p)
                false (UI.instantTps p) w) as (a & u & Hd & _).
    rewrite Hd. unfold UI.setPending, modify. eexists. reflexivity.
  - eexists. reflexivity.
Qed.

(** So does the timer callback that drives it. *)
Lemma flushTimerFired_returns client now w :
  exists w', UI.flushTimerFired formatDisplay client now w = (Normal tt, w').
Proof.
  unfold UI.flushTimerFired, bind, modify.
  apply flushPendingUpdate_returns.
Qed.

(** And so does [showFinalStats]. *)
Lemma showFinalStats_returns client now total avg elapsed w :
  exists w',
    UI.showFinalStats formatDisplay client now total avg elapsed w = (Normal tt, w').
Proof.
  unfold UI.showFinalStats, bind.
  destruct (flushPendingUpdate_returns client now w) as (w1 & ->).
  unfold modify, get.
  match goal with |- context [UI.display ?c ?n ?m ?f ?t ?x] =>
    destruct (display_chain c n m f t x) as (a & u & Hd & _) end.
  rewrite Hd. eexists. reflexivity.
Qed.

Lemma clear_returns client now w :
  exists w', UI.clear formatDisplay client now w = (Normal tt, w').
Proof.
  unfold UI.clear, bind, modify.
  match goal with |- context [UI.flushPendingUpdate _ ?c ?n ?x] =>
    destruct (flushPendingUpdate_returns c n x) as (w1 & ->) end.
  unfold UI.setPending, modify. eexists. reflexivity.
Qed.

(** X6. No operation of the UI manager lets an exception of a sink through:
    the flush, the flush timer's callback, [showFinalStats] and [clear]
    all return normally. *)
Theorem ui_operations_return_normally :
  forall (client : UI.OpenCodeClient) (now total elapsed : Z) (avg : R) (w : UI.World),
    (exists w', UI.flushPendingUpdate formatDisplay client now w = (Normal tt, w'))
    /\ (exists w', UI.flushTimerFired formatDisplay client now w = (Normal tt, w'))
    /\ (exists w',
          UI.showFinalStats formatDisplay client now total avg elapsed w = (Normal tt, w'))
    /\ (exists w', UI.clear formatDisplay client now w = (Normal tt, w')).
Proof.
  intros. repeat split.
  - apply flushPendingUpdate_returns.
  - apply flushTimerFired_returns.
  - apply showFinalStats_returns.
  - apply clear_returns.
Qed.

End UiOperations.

(** C8. Whatever the client and the state, [display] returns normally: no
    exception of a sink reaches the caller.  The sinks it calls come in
    the order of the chain ([tui.showToast], [tui.publish], then
    [toast.success] for a final message or [toast.info] otherwise), each
    at most once; every call but the last threw, so the first sink that
    does not throw ends the chain; the last-shown text and time are set
    exactly when some sink returned, and the state is otherwise left as it
    was; and when the guard lets the emission through and no sink
    returned, every sink the client offers was tried. *)
Theorem sink_chain_fallback :
  forall (client : UI.OpenCodeClient) (now : Z) (message : string)
         (isFinal : bool) (instantTps : R) (w : UI.World),
  exists attempts u,
    UI.display client now message isFinal instantTps w
      = (Normal tt, UI.mkWorld u (UI.calls w ++ attempts))
    /\ inSinkOrder attempts = true
    /\ onlyLastMayReturn client attempts = true
    /\ u = (if someReturned client attempts
            then withLastToast now message (UI.ui w) else UI.ui w)
    /\ (if suppressed now message isFinal (UI.ui w)
        then attempts = []
        else someReturned client attempts = true
             \/ List.length attempts = availableSinks client).
Proof.
  intros client now message isFinal tps w.
  destruct (display_chain client now message isFinal tps w)
    as (attempts & u & Hd & Ho & Hl & Hu & Hs & Hall).
  exists attempts, u. repeat split; try assumption.
  destruct (suppressed now message isFinal (UI.ui w)).
  - now apply Hs.
  - destruct (someReturned client attempts); [now left | right; now apply Hall].
Qed.

(** All three sinks throw: each is tried once, in order, nothing is
    recorded as shown, and [display] returns normally. *)
Example all_sinks_throw :
  UI.display throwingClient 20000 "TPS: 1.0" false 1%R shownWorld
  = (Normal tt,
     UI.mkWorld (UI.ui shownWorld)
       [ UI.CallShowToast (UI.mkBody "TPS Meter" "TPS: 1.0" UI.info 20000);
         UI.CallPublish "tui.toast.show"
           (UI.mkBody "TPS Meter" "TPS: 1.0" UI.info 20000);
         UI.CallToastInfo "TPS: 1.0" 20000 ]).
Proof. reflexivity. Qed.

(* ================================================================== *)
(** * Maps and strings *)
(* ================================================================== *)

Lemma JsMap_get_set_eq {V : Type} k (v : V) m :
  JsMap.get k (JsMap.set k v m) = Some v.
Proof.
  induction m as [|[k' v'] rest IH]; simpl.
  - now rewrite String.eqb_refl.
  - destruct (String.eqb k k') eqn:E; simpl; rewrite E; auto.
Qed.

Lemma JsMap_get_set_ne {V : Type} k k' (v : V) m :
  k <> k' -> JsMap.get k (JsMap.set k' v m) = JsMap.get k m.
Proof.
  intros Hne. induction m as [|[k2 v2] rest IH]; simpl.
  - apply String.eqb_neq in Hne. now rewrite Hne.
  - destruct (String.eqb k' k2) eqn:E; simpl.
    + apply String.eqb_eq in E; subst k2.
      apply String.eqb_neq in Hne. now rewrite Hne.
    + destruct (String.eqb k k2); auto.
Qed.

Lemma JsMap_set_same {V : Type} k (v : V) m :
  JsMap.get k m = Some v -> JsMap.set k v m = m.
Proof.
  induction m as [|[k' v'] rest IH]; simpl; [discriminate|].
  destruct (String.eqb k k') eqn:E; intros H.
  - congruence.
  - now rewrite IH.
Qed.

Lemma JsMap_get_In {V : Type} k (v : V) m :
  JsMap.get k m = Some v -> In v (JsMap.values m).
Proof.
  induction m as [|[k' v'] rest IH]; simpl; [discriminate|].
  destruct (String.eqb k k'); intros H.
  - left. congruence.
  - right. auto.
Qed.





(* ================================================================== *)
(** * Plugin: what the handlers leave alone *)
(* ================================================================== *)

Section PluginFacts.

Import Plugin.
Variable config : Config.

Lemma primary_getOrCreateSessionState sid now s :
  primarySessionId (fst (getOrCreateSessionState config sid now s)) = primarySessionId s.
Proof. unfold getOrCreateSessionState. destruct (JsMap.get _ _); reflexivity. Qed.

Lemma primary_getOrCreateMessageTrackerState sid mid pid md now s :
  primarySessionId (fst (getOrCreateMessageTrackerState config sid mid pid md now s))
  = primarySessionId s.
Proof.
  unfold getOrCreateMessageTrackerState.
  pose proof (primary_getOrCreateSessionState sid now s) as H.
  destruct (getOrCreateSessionState config sid now s) as [s1 ss]. exact H.
Qed.

Lemma primary_deleteStaleKey sid s key :
  primarySessionId (deleteStaleKey sid s key) = primarySessionId s.
Proof.
  unfold deleteStaleKey. destruct (JsMap.get sid _); [|reflexivity].
  destruct (JsMap.get key _); reflexivity.
Qed.

Lemma primary_fold {A : Type} (f : State -> A -> State) l :
  (forall s a, primarySessionId (f s a) = primarySessionId s) ->
  forall s, primarySessionId (fold_left f l s) = primarySessionId s.
Proof.
  intros Hf. induction l as [|a l IH]; intros s; simpl; [reflexivity|].
  rewrite IH. apply Hf.
Qed.

Lemma primary_cleanupSession now s sid :
  primarySessionId (cleanupSession now s sid) = primarySessionId s.
Proof.
  unfold cleanupSession. destruct (JsMap.get sid _); [|reflexivity].
  match goal with |- context [fold_left ?f ?l ?s0] =>
    pose proof (primary_fold f l (primary_deleteStaleKey sid) s0) as H;
    destruct (JsMap.get sid (sessionTrackers (fold_left f l s0))) end;
  exact H.
Qed.

Lemma primary_cleanupStaleMessages now s :
  primarySessionId (cleanupStaleMessages now s) = primarySessionId s.
Proof.
  unfold cleanupStaleMessages. destruct (_ <? _); [reflexivity|].
  now rewrite (primary_fold _ _ (primary_cleanupSession now)).
Qed.

Lemma primary_removeMessageTrackerState sid mid now s :
  primarySessionId (removeMessageTrackerState sid mid now s) = primarySessionId s.
Proof. unfold removeMessageTrackerState. destruct (JsMap.get _ _); reflexivity. Qed.

(** The stream a part event is attributed to is the same whether or not the
    session state has been created beforehand, and does not depend on the
    part-text cache. *)
Lemma stream_after_session_created sid mid pid md now c s :
  snd (getOrCreateMessageTrackerState config sid mid pid md now
         (fst (getOrCreateSessionState config sid now (setPartTextCache c s))))
  = snd (getOrCreateMessageTrackerState config sid mid pid md now s).
Proof.
  unfold getOrCreateMessageTrackerState, getOrCreateSessionState.
  cbn [sessionTrackers setPartTextCache].
  destruct (JsMap.get sid (sessionTrackers s)) as [ss|] eqn:E; cbn [fst snd].
  - cbn [sessionTrackers setPartTextCache]. rewrite E. reflexivity.
  - cbn [sessionTrackers setSessionTrackers setPartTextCache].
    rewrite JsMap_get_set_eq. reflexivity.
Qed.

(** The primary session after the recording part of the handler. *)
Lemma primary_recordPart sid part delta now s :
  primarySessionId (fst (recordPart config sid part delta now s)) =
  match primarySessionId s with
  | Some p => Some p
  | None =>
    let mt := snd (getOrCreateMessageTrackerState config sid (part_messageID part)
                     (Some (part_id part)) (partMetadata part) now
                     (fst (getOrCreateSessionState config sid now s))) in
    if negb (truthyNum (mt_firstTokenAt mt)) && negb (hasAgentMetadata mt)
    then Some sid else None
  end.
Proof.
  unfold recordPart.
  pose proof (primary_getOrCreateSessionState sid now s) as H2.
  destruct (getOrCreateSessionState config sid now s) as [s2 ss0]. cbn [fst] in *.
  pose proof (primary_getOrCreateMessageTrackerState sid (part_messageID part)
                (Some (part_id part)) (partMetadata part) now s2) as H3.
  destruct (getOrCreateMessageTrackerState config sid (part_messageID part)
              (Some (part_id part)) (partMetadata part) now s2) as [s3 mt].
  cbn [fst snd] in *.
  pose proof (primary_cleanupStaleMessages now s3) as H4.
  set (s4 := cleanupStaleMessages now s3) in *.
  set (ss := match JsMap.get sid (sessionTrackers s4) with
             | Some x => x
             | None => ss0
             end).
  set (s5 := if truthyNum (aggregateFirstTokenAt ss)
             then s4 else scheduleDisplayTimer sid now s4).
  assert (H5 : primarySessionId s5 = primarySessionId s).
  { unfold s5. destruct (truthyNum _); cbn; congruence. }
  clearbody s5.
  match goal with |- context [Constants.MIN_TPS_ELAPSED_MS <=? ?e] =>
    destruct (Constants.MIN_TPS_ELAPSED_MS <=? e) end; cbn [fst];
  unfold clearDisplayTimer;
  cbn [primarySessionId setPendingDisplayTimers setMessageTokenCache setSessionTrackers];
  rewrite <- H5; destruct (primarySessionId s5) eqn:E;
  rewrite ?andb_false_r, ?andb_true_r; cbn [fst]; rewrite ?E; try reflexivity;
  destruct (negb (truthyNum (mt_firstTokenAt mt)) && negb (hasAgentMetadata mt));
  cbn; rewrite ?E; reflexivity.
Qed.

Lemma has_countable t :
  Constants.has Constants.COUNTABLE_PART_TYPES t = false
  <-> t <> "text" /\ t <> "reasoning".
Proof.
  unfold Constants.has, Constants.COUNTABLE_PART_TYPES. cbn [existsb].
  rewrite orb_false_r, orb_false_iff, !String.eqb_neq. reflexivity.
Qed.

Lemma cachedRole_setPartTextCache sid mid c s :
  cachedRole sid mid (setPartTextCache c s) = cachedRole sid mid s.
Proof. reflexivity. Qed.

Lemma isAssistant_false r : r <> Some assistant -> isAssistant r = false.
Proof. destruct r as [[]|]; auto. congruence. Qed.

(** A primary session that is set survives [handleMessagePartUpdated]. *)
Lemma primary_kept_by_part part delta now s p :
  primarySessionId s = Some p ->
  primarySessionId (fst (handleMessagePartUpdated config part delta now s)) = Some p.
Proof.
  intros Hp. unfold handleMessagePartUpdated.
  destruct part as [part|]; [|exact Hp].
  destruct (negb (Constants.has _ _)); [exact Hp|].
  destruct (resolveDelta _ _ _ _) as [d c].
  destruct (negb (truthy d)); [exact Hp|].
  destruct (negb (isAssistant _)); [exact Hp|].
  rewrite primary_recordPart. cbn [primarySessionId setPartTextCache].
  now rewrite Hp.
Qed.

(** A stream that carries agent metadata does not change the primary
    session. *)
Lemma primary_untouched_by_agent_stream part delta now s :
  hasAgentMetadata (streamOf config part now s) = true ->
  primarySessionId (fst (handleMessagePartUpdated config (Some part) delta now s))
  = primarySessionId s.
Proof.
  intros Hm. unfold handleMessagePartUpdated.
  destruct (negb (Constants.has _ _)); [reflexivity|].
  destruct (resolveDelta _ _ _ _) as [d c].
  destruct (negb (truthy d)); [reflexivity|].
  destruct (negb (isAssistant _)); [reflexivity|].
  rewrite primary_recordPart. cbn [primarySessionId setPartTextCache].
  destruct (primarySessionId s); [reflexivity|]. cbv zeta.
  rewrite stream_after_session_created. fold (streamOf config part now s).
  rewrite Hm. now rewrite andb_false_r.
Qed.

Lemma primary_handleMessageUpdated info now s :
  primarySessionId (fst (handleMessageUpdated config info now s)) = primarySessionId s.
Proof.
  unfold handleMessageUpdated. destruct info as [info|]; [|reflexivity].
  set (s1 := setMessageRoleCache _ s).
  set (s2 := match info_agent info with
             | Some (AgentString name) => _
             | _ => s1
             end).
  assert (H2 : primarySessionId s2 = primarySessionId s).
  { unfold s2. destruct (info_agent info) as [[a|name]|]; try reflexivity.
    destruct (String.eqb name ""); reflexivity. }
  clearbody s2.
  destruct (info_role info); try exact H2.
  match goal with |- context [getOrCreateMessageTrackerState config ?a ?b ?c ?d ?e ?f] =>
    pose proof (primary_getOrCreateMessageTrackerState a b c d e f) as H3;
    destruct (getOrCreateMessageTrackerState config a b c d e f) as [s3 mt] end.
  cbn [fst primarySessionId setMessageTokenCache] in H3.
  destruct (completedAt info); cbn [fst].
  - rewrite primary_removeMessageTrackerState. cbn. congruence.
  - cbn. congruence.
Qed.

Lemma primary_displayTimerCallback sid now s :
  primarySessionId (fst (displayTimerCallback config sid now s)) = primarySessionId s.
Proof.
  unfold displayTimerCallback.
  destruct (JsMap.get sid _) as [ss|]; [|reflexivity].
  destruct (aggregateFirstTokenAt ss) as [f|]; [|reflexivity].
  destruct (f =? 0); [reflexivity|].
  destruct (_ <? _); reflexivity.
Qed.

(** [session.idle] either keeps the primary session or runs [cleanup],
    which calls [ui.clear()] and forgets it. *)
Lemma primary_handleSessionIdle sid s :
  (primarySessionId (fst (handleSessionIdle sid s)) = primarySessionId s
   /\ snd (handleSessionIdle sid s) = [])
  \/ (primarySessionId (fst (handleSessionIdle sid s)) = None
      /\ snd (handleSessionIdle sid s) = [Clear]
      /\ sessionTrackers (fst (handleSessionIdle sid s)) = JsMap.empty).
Proof.
  unfold handleSessionIdle.
  destruct (JsMap.size _ =? 0).
  - right. repeat split.
  - left. split; reflexivity.
Qed.

(** One step keeps a primary session that is set, unless it logs [Clear]. *)
Lemma primary_step now e s p :
  primarySessionId s = Some p ->
  primarySessionId (fst (step config now e s)) = Some p
  \/ In Clear (snd (step config now e s)).
Proof.
  intros Hp. destruct e as [part delta|info|sid| |sid]; cbn [step].
  - left. now apply primary_kept_by_part.
  - left. now rewrite primary_handleMessageUpdated.
  - destruct (primary_handleSessionIdle sid s) as [[H _]|(_ & H & _)].
    + left. congruence.
    + right. rewrite H. now left.
  - now left.
  - left. destruct (JsMap.has sid _); [|exact Hp].
    now rewrite primary_displayTimerCallback.
Qed.

Lemma primary_run events : forall s p,
  primarySessionId s = Some p ->
  ~ In Clear (snd (run config events s)) ->
  primarySessionId (fst (run config events s)) = Some p.
Proof.
  induction events as [|[now e] rest IH]; intros s p Hp Hc; [exact Hp|].
  cbn [run] in *.
  pose proof (primary_step now e s p Hp) as Hs.
  destruct (step config now e s) as [s1 c1]. cbn [fst snd] in Hs.
  specialize (IH s1 p).
  destruct (run config rest s1) as [s2 c2]. cbn [fst snd] in *.
  destruct Hs as [Hs|Hs].
  - apply IH; [exact Hs|]. intros Hin. apply Hc, in_or_app. now right.
  - exfalso. apply Hc, in_or_app. now left.
Qed.

(** Primary activity is witnessed by a stream without agent metadata. *)
Lemma primary_activity_without_agent now s :
  isPrimarySessionActive config now s = true ->
  exists p ss mt,
    primarySessionId s = Some p
    /\ JsMap.get p (sessionTrackers s) = Some ss
    /\ In mt (JsMap.values (messageTrackers ss))
    /\ hasAgentMetadata mt = false
    /\ truthyNum (mt_firstTokenAt mt) = true
    /\ now - mt_lastUpdated mt <= activityWindow config.
Proof.
  unfold isPrimarySessionActive.
  destruct (primarySessionId s) as [p|] eqn:Hp; cbn [truthy negb]; [|discriminate].
  destruct (String.eqb p "") eqn:Ep; cbn [negb]; [discriminate|].
  unfold orDefault. rewrite Ep.
  destruct (JsMap.get p (sessionTrackers s)) as [ss|] eqn:Hs; [|discriminate].
  intros H. apply existsb_exists in H. destruct H as (mt & Hin & H).
  apply andb_true_iff in H. destruct H as [H Hw].
  apply andb_true_iff in H. destruct H as [Hm Hf].
  exists p, ss, mt. repeat split; auto.
  - now apply negb_true_iff in Hm.
  - now apply Z.leb_le.
Qed.

(** A part event that is not counted, or whose message is not known to be
    the assistant's, reaches no tracker and no UI call. *)
Lemma uncounted_part part delta now s :
  (part_type part <> "text" /\ part_type part <> "reasoning")
  \/ cachedRole (partSessionId part) (part_messageID part) s <> Some assistant ->
  exists c,
    handleMessagePartUpdated config (Some part) delta now s
    = (setPartTextCache c s, []).
Proof.
  intros H. unfold handleMessagePartUpdated.
  destruct (Constants.has Constants.COUNTABLE_PART_TYPES (part_type part)) eqn:Hc;
    cbn [negb].
  - destruct H as [H|H]; [apply has_countable in H; congruence|].
    destruct (resolveDelta _ _ _ _) as [d c].
    destruct (negb (truthy d)); [now exists c|].
    rewrite cachedRole_setPartTextCache, (isAssistant_false _ H). cbn [negb].
    now exists c.
  - exists (partTextCache s). now destruct s.
Qed.


(** The caches that [getOrCreateMessageTrackerState] leaves alone. *)
Lemma caches_getOrCreateMessageTrackerState sid mid pid md now s :
  let s' := fst (getOrCreateMessageTrackerState config sid mid pid md now s) in
  messageTokenCache s' = messageTokenCache s
  /\ partTextCache s' = partTextCache s
  /\ lastCleanupTime s' = lastCleanupTime s.
Proof.
  unfold getOrCreateMessageTrackerState, getOrCreateSessionState.
  destruct (JsMap.get sid (sessionTrackers s)); cbn; auto.
Qed.

Lemma caches_getOrCreateSessionState sid now s :
  let s' := fst (getOrCreateSessionState config sid now s) in
  messageTokenCache s' = messageTokenCache s
  /\ partTextCache s' = partTextCache s
  /\ lastCleanupTime s' = lastCleanupTime s.
Proof.
  unfold getOrCreateSessionState.
  destruct (JsMap.get sid (sessionTrackers s)); cbn; auto.
Qed.

(** With no sweep due, the recording part of the handler adds the
    tokenizer's count of the delta to the tokens cached for the message and
    leaves the part-text cache alone. *)
Lemma recordPart_caches sid part delta now s :
  now - lastCleanupTime s < Constants.CLEANUP_INTERVAL_MS ->
  let s' := fst (recordPart config sid part delta now s) in
  cachedTokens sid (part_messageID part) s'
  = cachedTokens sid (part_messageID part) s + tokenizerCount config delta
  /\ partTextCache s' = partTextCache s.
Proof.
  intros Hsweep. unfold recordPart.
  pose proof (caches_getOrCreateSessionState sid now s) as (A1 & A2 & A3).
  destruct (getOrCreateSessionState config sid now s) as [s2 ss0]. cbn [fst] in *.
  pose proof (caches_getOrCreateMessageTrackerState sid (part_messageID part)
                (Some (part_id part)) (partMetadata part) now s2) as (B1 & B2 & B3).
  destruct (getOrCreateMessageTrackerState config sid (part_messageID part)
              (Some (part_id part)) (partMetadata part) now s2) as [s3 mt].
  cbn [fst snd] in *.
  assert (Hc : cleanupStaleMessages now s3 = s3).
  { unfold cleanupStaleMessages. rewrite B3, A3.
    apply Z.ltb_lt in Hsweep. now rewrite Hsweep. }
  rewrite Hc.
  set (ss := match JsMap.get sid (sessionTrackers s3) with
             | Some x => x
             | None => ss0
             end).
  set (s5 := if truthyNum (aggregateFirstTokenAt ss)
             then s3 else scheduleDisplayTimer sid now s3).
  assert (H5 : messageTokenCache s5 = messageTokenCache s
               /\ partTextCache s5 = partTextCache s).
  { unfold s5. destruct (truthyNum _); cbn; split; congruence. }
  destruct H5 as [H5 H5'].
  clearbody s5.
  set (s6 := if _ && _ && _ then setPrimarySessionId (Some sid) s5 else s5).
  assert (H6 : messageTokenCache s6 = messageTokenCache s
               /\ partTextCache s6 = partTextCache s).
  { unfold s6. destruct (_ && _ && _); cbn; split; congruence. }
  destruct H6 as [H6 H6'].
  clearbody s6.
  match goal with |- context [Constants.MIN_TPS_ELAPSED_MS <=? ?e] =>
    destruct (Constants.MIN_TPS_ELAPSED_MS <=? e) end; cbn [fst];
  unfold cachedTokens, clearDisplayTimer;
  cbn [messageTokenCache partTextCache setPendingDisplayTimers
       setMessageTokenCache setSessionTrackers];
  rewrite H6, H6', !JsMap_get_set_eq;
  (split; [destruct (JsMap.get sid (messageTokenCache s)); reflexivity | reflexivity]).
Qed.

End PluginFacts.

(* ================================================================== *)
(** * Plugin: stream lookup *)
(* ================================================================== *)

Section StreamLookup.

Import Plugin.

Lemma mergeMetadata_idempotent md t0 :
  mergeMetadata md (mergeMetadata md t0) = mergeMetadata md t0.
Proof.
  destruct t0. unfold mergeMetadata.
  destruct (agentTruthy _), (truthy (meta_agentId md)), (truthy (meta_agentType md));
    reflexivity.
Qed.

Lemma mergeMetadata_label md t0 : mt_label (mergeMetadata md t0) = mt_label t0.
Proof.
  destruct t0. unfold mergeMetadata.
  destruct (agentTruthy _), (truthy (meta_agentId md)), (truthy (meta_agentType md));
    reflexivity.
Qed.

(** X7. [getOrCreateMessageTrackerState] is idempotent: a second call with the
    same identity and metadata returns the same stream state, estimator
    included, and leaves the registry as the first call left it. *)
Theorem getOrCreate_idempotent :
  forall (config : Config) (sid mid : string) (pid : option string)
         (md : TrackerMetadata) (now now' : Z) (s : State),
    getOrCreateMessageTrackerState config sid mid pid md now'
      (fst (getOrCreateMessageTrackerState config sid mid pid md now s))
    = getOrCreateMessageTrackerState config sid mid pid md now s.
Proof.
  intros config sid mid pid md now now' s.
  unfold getOrCreateMessageTrackerState at 2 3.
  destruct (getOrCreateSessionState config sid now s) as [s1 ss] eqn:E1.
  assert (Hs1 : JsMap.get sid (sessionTrackers s1) = Some ss).
  { unfold getOrCreateSessionState in E1.
    destruct (JsMap.get sid (sessionTrackers s)) eqn:G; inversion E1; subst; auto.
    cbn. apply JsMap_get_set_eq. }
  set (key := buildTrackerKey sid mid pid md).
  set (lbl := buildAgentLabel mid md).
  set (t0 := match JsMap.get key (messageTrackers ss) with
             | Some t => if String.eqb (mt_label t) lbl then t else withLabel lbl t
             | None => _
             end).
  assert (Hl0 : mt_label t0 = lbl).
  { unfold t0. destruct (JsMap.get key (messageTrackers ss)) as [t|]; [|reflexivity].
    destruct (String.eqb (mt_label t) lbl) eqn:E; [now apply String.eqb_eq|reflexivity]. }
  clearbody t0. cbv zeta. cbn [fst].
  unfold getOrCreateMessageTrackerState, getOrCreateSessionState.
  cbn [sessionTrackers setSessionTrackers].
  rewrite JsMap_get_set_eq. cbn [messageTrackers setMessageTrackers].
  fold key lbl. rewrite JsMap_get_set_eq. cbv beta iota zeta.
  rewrite mergeMetadata_label, Hl0, String.eqb_refl, mergeMetadata_idempotent.
  f_equal.
  rewrite (JsMap_set_same key) by apply JsMap_get_set_eq.
  cbn [setMessageTrackers messageTrackers aggregate aggregateFirstTokenAt].
  rewrite (JsMap_set_same sid) by apply JsMap_get_set_eq.
  now destruct s1.
Qed.

End StreamLookup.

(* ================================================================== *)
(** * Plugin: UI calls, primary session, counted parts *)
(* ================================================================== *)

Section PluginCalls.

Import Plugin.
Variable config : Config.

Lemma displayCalls_no_clear g now ss s : ~ In Clear (displayCalls config g now ss s).
Proof.
  unfold displayCalls. cbv zeta.
  destruct g; destruct (isPrimarySessionActive config now s); cbn [andb];
    try destruct (Rleb _ _); try destruct (0 <? _); cbn;
    intros H; repeat destruct H as [H|H]; try discriminate; auto.
Qed.

Lemma recordPart_no_clear sid part delta now s :
  ~ In Clear (snd (recordPart config sid part delta now s)).
Proof.
  unfold recordPart.
  destruct (getOrCreateSessionState config sid now s) as [s2 ss0].
  destruct (getOrCreateMessageTrackerState _ _ _ _ _ _ _) as [s3 mt].
  match goal with |- context [Constants.MIN_TPS_ELAPSED_MS <=? ?e] =>
    destruct (Constants.MIN_TPS_ELAPSED_MS <=? e) end; cbn [snd].
  - apply displayCalls_no_clear.
  - intros [].
Qed.

Lemma handleMessagePartUpdated_no_clear part delta now s :
  ~ In Clear (snd (handleMessagePartUpdated config part delta now s)).
Proof.
  unfold handleMessagePartUpdated.
  destruct part as [part|]; [|intros []].
  destruct (negb (Constants.has _ _)); [intros []|].
  destruct (resolveDelta _ _ _ _) as [d c].
  destruct (negb (truthy d)); [intros []|].
  destruct (negb (isAssistant _)); [intros []|].
  apply recordPart_no_clear.
Qed.

Lemma finalStatsCalls_no_clear info mt r c : ~ In Clear (finalStatsCalls info mt r c).
Proof.
  unfold finalStatsCalls.
  destruct (completedAt info); [|intros []].
  destruct (info_time info); [|intros []].
  destruct (_ && _ && _); cbn; intros H; repeat destruct H as [H|H];
    try discriminate; auto.
Qed.

Lemma handleMessageUpdated_no_clear info now s :
  ~ In Clear (snd (handleMessageUpdated config info now s)).
Proof.
  unfold handleMessageUpdated. destruct info as [info|]; [|intros []].
  destruct (info_role info); try (intros []).
  destruct (getOrCreateMessageTrackerState _ _ _ _ _ _ _) as [s3 mt].
  destruct (completedAt info) eqn:E; cbn [snd]; apply finalStatsCalls_no_clear.
Qed.

Lemma displayTimerCallback_no_clear sid now s :
  ~ In Clear (snd (displayTimerCallback config sid now s)).
Proof.
  unfold displayTimerCallback.
  destruct (JsMap.get sid _) as [ss|]; [|intros []].
  destruct (aggregateFirstTokenAt ss) as [f|]; [|intros []].
  destruct (f =? 0); [intros []|].
  destruct (_ <? _); [intros []|]. cbn [snd]. apply displayCalls_no_clear.
Qed.

(** [ui.clear()] is called by [cleanup] alone: on a [session.idle] event
    that leaves no session tracked; the primary session is then unset. *)
Lemma clear_only_by_cleanup now e s :
  In Clear (snd (step config now e s)) ->
  exists sid,
    e = SessionIdle sid
    /\ sessionTrackers (fst (step config now e s)) = JsMap.empty
    /\ primarySessionId (fst (step config now e s)) = None.
Proof.
  destruct e as [part delta|info|sid| |sid]; cbn [step]; intros H.
  - now apply handleMessagePartUpdated_no_clear in H.
  - now apply handleMessageUpdated_no_clear in H.
  - exists sid. split; [reflexivity|].
    destruct (primary_handleSessionIdle sid s) as [[_ Hn]|(Hp & _ & Hs)].
    + rewrite Hn in H. destruct H.
    + now split.
  - destruct H.
  - destruct (JsMap.has sid _); [|destruct H].
    now apply displayTimerCallback_no_clear in H.
Qed.

End PluginCalls.

Section PluginClaims.

Import Plugin.

(** C5, the claim refuted.  Session A becomes primary on its first token.
    Its [session.idle] event leaves no session tracked, so [cleanup] runs
    and unsets the primary session.  The first token of session B then
    makes B primary: the primary session was reassigned to a different
    session within one plugin instance. *)
Lemma primary_reassigned_after_cleanup :
  primarySessionId (fst (run defaultConfig (firstn 2 twoSessions) initial)) = Some "ses_A"
  /\ primarySessionId (fst (run defaultConfig (firstn 3 twoSessions) initial)) = None
  /\ primarySessionId (fst (run defaultConfig twoSessions initial)) = Some "ses_B".
Proof. repeat split; vm_compute; reflexivity. Qed.

(** C5, amended.  Once a primary session is assigned, it stays assigned to
    that session for as long as [cleanup] does not run; [cleanup] runs,
    and calls [ui.clear()], exactly on a [session.idle] event that leaves
    no session tracked, and unsets the primary session, after which another
    session can become primary.  A stream carrying agent metadata never
    changes the primary session, and primary activity in
    [isPrimarySessionActive] is always that of a stream of the primary
    session without agent metadata. *)
Theorem primary_sticky_until_cleanup :
  forall (config : Config),
    (forall events s p,
        primarySessionId s = Some p ->
        ~ In Clear (snd (run config events s)) ->
        primarySessionId (fst (run config events s)) = Some p)
    /\ (forall now e s,
           In Clear (snd (step config now e s)) ->
           exists sid,
             e = SessionIdle sid
             /\ sessionTrackers (fst (step config now e s)) = JsMap.empty
             /\ primarySessionId (fst (step config now e s)) = None)
    /\ (forall part delta now s,
           hasAgentMetadata (streamOf config part now s) = true ->
           primarySessionId (fst (handleMessagePartUpdated config (Some part) delta now s))
           = primarySessionId s)
    /\ (forall now s,
           isPrimarySessionActive config now s = true ->
           exists p ss mt,
             primarySessionId s = Some p
             /\ JsMap.get p (sessionTrackers s) = Some ss
             /\ In mt (JsMap.values (messageTrackers ss))
             /\ hasAgentMetadata mt = false
             /\ truthyNum (mt_firstTokenAt mt) = true
             /\ now - mt_lastUpdated mt <= activityWindow config).
Proof.
  intros config. split; [|split; [|split]].
  - intros events s p. apply primary_run.
  - apply clear_only_by_cleanup.
  - apply primary_untouched_by_agent_stream.
  - apply primary_activity_without_agent.
Qed.

(** The amended C5 at work: session B starts streaming while A is primary
    and A stays primary; a part tagged with an agent id leaves the primary
    session unset; the activity of A is that of its untagged stream. *)
Lemma primary_sticky_until_cleanup_witness :
  primarySessionId (fst (run defaultConfig sessionBJoins sessionAStreaming)) = Some "ses_A"
  /\ primarySessionId
       (fst (handleMessagePartUpdated defaultConfig
               (Some (agentPart "ses_A" "m1" "p1" "hello" "agent-7")) None 1001 roleKnown))
     = primarySessionId roleKnown
  /\ exists p ss mt,
       primarySessionId sessionAStreaming = Some p
       /\ JsMap.get p (sessionTrackers sessionAStreaming) = Some ss
       /\ In mt (JsMap.values (messageTrackers ss))
       /\ hasAgentMetadata mt = false
       /\ truthyNum (mt_firstTokenAt mt) = true
       /\ 1002 - mt_lastUpdated mt <= activityWindow defaultConfig.
Proof.
  destruct (primary_sticky_until_cleanup defaultConfig) as (H1 & _ & H3 & H4).
  split; [|split].
  - apply H1; [vm_compute; reflexivity|].
    assert (E : snd (run defaultConfig sessionBJoins sessionAStreaming) = [])
      by (vm_compute; reflexivity).
    rewrite E. intros [].
  - apply H3. vm_compute. reflexivity.
  - apply H4. vm_compute. reflexivity.
Defined.

(** C6. A [message.part.updated] event whose part type is neither "text"
    nor "reasoning", or whose message has no cached role "assistant",
    records no tokens: the registry of session aggregates and stream
    trackers, the per-message token counts, the primary session and the
    display timers are as before, and no UI call is made. *)
Theorem uncounted_part_leaves_trackers_alone :
  forall (config : Config) (part : Part) (delta : option string) (now : Z) (s : State),
    (part_type part <> "text" /\ part_type part <> "reasoning")
    \/ cachedRole (partSessionId part) (part_messageID part) s <> Some assistant ->
    sessionTrackers (fst (handleMessagePartUpdated config (Some part) delta now s))
    = sessionTrackers s
    /\ messageTokenCache (fst (handleMessagePartUpdated config (Some part) delta now s))
       = messageTokenCache s
    /\ primarySessionId (fst (handleMessagePartUpdated config (Some part) delta now s))
       = primarySessionId s
    /\ pendingDisplayTimers (fst (handleMessagePartUpdated config (Some part) delta now s))
       = pendingDisplayTimers s
    /\ snd (handleMessagePartUpdated config (Some part) delta now s) = [].
Proof.
  intros config part delta now s H.
  destruct (uncounted_part config part delta now s H) as [c ->].
  repeat split.
Qed.

(** C6 at work: a tool part of the assistant's message, and a text part of
    a message whose role is unknown. *)
Lemma uncounted_part_leaves_trackers_alone_witness :
  (sessionTrackers (fst (handleMessagePartUpdated defaultConfig (Some toolPart) None 1500
                           sessionAStreaming))
   = sessionTrackers sessionAStreaming
   /\ messageTokenCache (fst (handleMessagePartUpdated defaultConfig (Some toolPart) None 1500
                                sessionAStreaming))
      = messageTokenCache sessionAStreaming
   /\ primarySessionId (fst (handleMessagePartUpdated defaultConfig (Some toolPart) None 1500
                               sessionAStreaming))
      = primarySessionId sessionAStreaming
   /\ pendingDisplayTimers (fst (handleMessagePartUpdated defaultConfig (Some toolPart) None
                                   1500 sessionAStreaming))
      = pendingDisplayTimers sessionAStreaming
   /\ snd (handleMessagePartUpdated defaultConfig (Some toolPart) None 1500
             sessionAStreaming) = [])
  /\ snd (handleMessagePartUpdated defaultConfig (Some userPart) None 1500
            sessionAStreaming) = [].
Proof.
  split.
  - apply (uncounted_part_leaves_trackers_alone defaultConfig toolPart None 1500
             sessionAStreaming).
    left. split; discriminate.
  - apply (uncounted_part_leaves_trackers_alone defaultConfig userPart None 1500
             sessionAStreaming).
    right. vm_compute. discriminate.
Defined.


(** What the handler does with the resolved delta when no sweep is due. *)
Lemma handler_counts_resolved_delta config part delta now s d :
  Constants.has Constants.COUNTABLE_PART_TYPES (part_type part) = true ->
  cachedRole (partSessionId part) (part_messageID part) s = Some assistant ->
  now - lastCleanupTime s < Constants.CLEANUP_INTERVAL_MS ->
  fst (resolveDelta (partSessionId part) part delta (partTextCache s)) = Some d ->
  d <> "" ->
  cachedTokens (partSessionId part) (part_messageID part)
    (fst (handleMessagePartUpdated config (Some part) delta now s))
  = cachedTokens (partSessionId part) (part_messageID part) s + tokenizerCount config d
  /\ partTextCache (fst (handleMessagePartUpdated config (Some part) delta now s))
     = snd (resolveDelta (partSessionId part) part delta (partTextCache s)).
Proof.
  intros Hc Hr Hs Hd Hne. unfold handleMessagePartUpdated. rewrite Hc. cbn [negb].
  destruct (resolveDelta _ _ _ _) as [d' c]. cbn [fst snd] in *. subst d'.
  assert (Ht : truthy (Some d) = true).
  { cbn. apply negb_true_iff, String.eqb_neq. exact Hne. }
  rewrite Ht, cachedRole_setPartTextCache, Hr. cbn [negb isAssistant].
  assert (Ho : orDefault (Some d) "" = d).
  { unfold orDefault. apply String.eqb_neq in Hne. now rewrite Hne. }
  rewrite Ho.
  destruct (recordPart_caches config (partSessionId part) part d now
              (setPartTextCache c s) Hs) as [H1 H2].
  split; [exact H1 | exact H2].
Qed.



End PluginClaims.

(* ================================================================== *)
(** * Trackers: buffer order and the two revisions *)
(* ================================================================== *)

Lemma StronglySorted_skipn {A : Type} (R : A -> A -> Prop) (l : list A) : forall n,
  StronglySorted R l -> StronglySorted R (skipn n l).
Proof.
  induction l as [|x l IH]; intros n H; destruct n; simpl; auto.
  apply IH. now apply StronglySorted_inv in H.
Qed.

Lemma Forall_skipn {A : Type} (P : A -> Prop) (l : list A) : forall n,
  Forall P l -> Forall P (skipn n l).
Proof.
  induction l as [|x l IH]; intros n H; destruct n; simpl; auto.
  apply IH. now inversion H.
Qed.

Lemma StronglySorted_push (b : list BufferEntry) (e : BufferEntry) :
  StronglySorted Z.le (map timestamp b) ->
  Forall (fun x => timestamp x <= timestamp e) b ->
  StronglySorted Z.le (map timestamp (b ++ [e])).
Proof.
  induction b as [|x b IH]; intros Hs Hf; simpl.
  - constructor; constructor.
  - simpl in Hs. apply StronglySorted_inv in Hs. destruct Hs as [Hs Hx].
    inversion Hf; subst. constructor; [now apply IH|].
    rewrite map_app. apply Forall_app. split; [exact Hx|].
    constructor; [assumption|constructor].
Qed.

(** In a sorted buffer, what is left after the leading expired entries is
    not expired. *)
Lemma live_after_validStartIndex cutoff (b : list BufferEntry) :
  StronglySorted Z.le (map timestamp b) ->
  Forall (fun e => cutoff <= timestamp e) (skipn (Tracker.validStartIndex cutoff b) b).
Proof.
  induction b as [|x b IH]; intros Hs; simpl; [constructor|].
  simpl in Hs. apply StronglySorted_inv in Hs. destruct Hs as [Hs Hx].
  destruct (timestamp x <? cutoff) eqn:E; simpl.
  - now apply IH.
  - constructor; [lia|].
    rewrite Forall_map in Hx. eapply Forall_impl; [|exact Hx].
    cbn. intros a Ha. lia.
Qed.

Lemma Tracker_pruned_buffer now tr :
  exists n,
    Tracker.buffer (Tracker.pruneBuffer now tr)
    = skipn n (skipn (Tracker.validStartIndex (now - Tracker.windowMs tr) (Tracker.buffer tr))
                     (Tracker.buffer tr)).
Proof.
  unfold Tracker.pruneBuffer. cbn [Tracker.buffer].
  set (idx := Tracker.validStartIndex _ _).
  assert (E : (if (0 <? idx)%nat then skipn idx (Tracker.buffer tr) else Tracker.buffer tr)
              = skipn idx (Tracker.buffer tr)).
  { destruct (0 <? idx)%nat eqn:E0; [reflexivity|].
    apply Nat.ltb_ge in E0. assert (idx = 0%nat) as -> by lia. reflexivity. }
  rewrite E.
  destruct (Constants.MAX_BUFFER_SIZE <? _).
  - unfold sliceLast. eexists. reflexivity.
  - exists 0%nat. reflexivity.
Qed.

Lemma Tracker_record_inv count ts clock tr t :
  0 <= Tracker.windowMs tr ->
  t <= orClock ts clock ->
  BufferInv (Tracker.windowMs tr) t (Tracker.buffer tr) ->
  BufferInv (Tracker.windowMs tr) (orClock ts clock)
            (Tracker.buffer (Tracker.recordTokens count ts clock tr)).
Proof.
  intros Hw Ht [Hs Hf]. unfold Tracker.recordTokens.
  set (t' := orClock ts clock) in *.
  set (e := mkEntry t' count).
  set (tr1 := Tracker.mk _ _ _ _ _).
  destruct (Tracker_pruned_buffer t' tr1) as [n ->].
  cbn [Tracker.buffer Tracker.windowMs tr1].
  assert (Hle : Forall (fun x => timestamp x <= t') (Tracker.buffer tr ++ [e])).
  { apply Forall_app. split.
    - eapply Forall_impl; [|exact Hf]. cbn. intros a Ha. lia.
    - constructor; [cbn; lia|constructor]. }
  assert (Hs' : StronglySorted Z.le (map timestamp (Tracker.buffer tr ++ [e]))).
  { apply StronglySorted_push; [exact Hs|].
    eapply Forall_impl; [|exact Hf]. cbn. intros a Ha. lia. }
  pose proof (live_after_validStartIndex (t' - Tracker.windowMs tr) _ Hs') as Hlive.
  split.
  - rewrite <- !skipn_map. now apply StronglySorted_skipn, StronglySorted_skipn.
  - apply Forall_skipn.
    assert (Hle' := Forall_skipn _ _
              (Tracker.validStartIndex (t' - Tracker.windowMs tr) (Tracker.buffer tr ++ [e]))
              Hle).
    rewrite Forall_forall in *. intros x Hx. split; [now apply Hlive | now apply Hle'].
Qed.


Lemma sameTracker_step tr tre call :
  sameTracker tr tre -> sameTracker (Tracker.step tr call) (TrackerEwma.step tre call).
Proof.
  intros (H1 & H2 & H3 & H4 & H5). destruct call as [clock op].
  unfold Tracker.step, TrackerEwma.step.
  destruct op; cbn [snd fst]; try (repeat split; assumption).
  - split; [exact H1|]. split; [cbn; congruence|].
    split; [|split; [exact H4|exact H5]].
    rewrite TrackerEwma_record_buffer.
    unfold Tracker.recordTokens, Tracker.pruneBuffer.
    cbn [Tracker.buffer Tracker.windowMs]. now rewrite H3, H5.
Qed.

Lemma sameTracker_run calls : forall tr tre,
  sameTracker tr tre -> sameTracker (Tracker.run calls tr) (TrackerEwma.run calls tre).
Proof.
  induction calls as [|c rest IH]; intros tr tre H; [exact H|].
  apply IH, sameTracker_step, H.
Qed.

Lemma tracker_same_state options clock0 calls :
  sameTracker (Tracker.run calls (Tracker.createTracker options clock0))
              (TrackerEwma.run calls (TrackerEwma.createTracker options clock0)).
Proof. apply sameTracker_run. repeat split. Qed.

(** X5. The two revisions of the tracker are the same tracker, smoothing
    apart: after any sequence of interface calls on trackers created with
    the same options at the same time, they hold the same buffer and answer
    [getTotalTokens], [getBufferSize], [getInstantTPS], [getAverageTPS],
    [getElapsedMs], [getSessionId] and [getWindowMs] alike, at any clock
    reading. *)
Theorem tracker_revisions_agree :
  forall (options : TPSTrackerOptions) (clock0 : Z) (calls : list (Z * TrackerOp)) (clock : Z),
    let tr := Tracker.run calls (Tracker.createTracker options clock0) in
    let tre := TrackerEwma.run calls (TrackerEwma.createTracker options clock0) in
    Tracker.buffer tr = TrackerEwma.buffer tre
    /\ Tracker.getTotalTokens tr = TrackerEwma.getTotalTokens tre
    /\ Tracker.getBufferSize tr = TrackerEwma.getBufferSize tre
    /\ Tracker.getInstantTPS clock tr = TrackerEwma.getInstantTPS clock tre
    /\ Tracker.getAverageTPS clock tr = TrackerEwma.getAverageTPS clock tre
    /\ Tracker.getElapsedMs clock tr = TrackerEwma.getElapsedMs clock tre
    /\ Tracker.getSessionId tr = TrackerEwma.getSessionId tre
    /\ Tracker.getWindowMs tr = TrackerEwma.getWindowMs tre.
Proof.
  intros options clock0 calls clock tr tre.
  destruct (tracker_same_state options clock0 calls) as (H1 & H2 & H3 & H4 & H5).
  fold tr tre in H1, H2, H3, H4, H5.
  unfold Tracker.getTotalTokens, TrackerEwma.getTotalTokens, Tracker.getBufferSize,
    TrackerEwma.getBufferSize, Tracker.getInstantTPS, TrackerEwma.getInstantTPS,
    TrackerEwma.calculateRawTPS, Tracker.getAverageTPS, TrackerEwma.getAverageTPS,
    Tracker.getElapsedMs, TrackerEwma.getElapsedMs, Tracker.getSessionId,
    TrackerEwma.getSessionId, Tracker.getWindowMs, TrackerEwma.getWindowMs.
  rewrite H1, H2, H3, H4, H5. repeat split.
Qed.

Lemma nonDecreasing_cons x l :
  nonDecreasing (x :: l) = true ->
  nonDecreasing l = true /\ (forall y rest, l = y :: rest -> x <= y).
Proof.
  destruct l as [|y rest]; cbn [nonDecreasing]; intros H.
  - split; [reflexivity|]. intros; discriminate.
  - apply andb_true_iff in H. destruct H as [H1 H2]. split; [exact H2|].
    intros y' rest' E. inversion E; subst. lia.
Qed.

Lemma last_cons_default {A : Type} (l : list A) : forall x d,
  last (x :: l) d = last l x.
Proof.
  induction l as [|y l IH]; intros x d; [reflexivity|].
  change (last (x :: y :: l) d) with (last (y :: l) d).
  now rewrite !IH.
Qed.

Lemma Tracker_run_inv calls : forall tr t,
  0 <= Tracker.windowMs tr ->
  nonDecreasing (t :: map callTimestamp calls) = true ->
  BufferInv (Tracker.windowMs tr) t (Tracker.buffer tr) ->
  BufferInv (Tracker.windowMs tr) (last (map callTimestamp calls) t)
            (Tracker.buffer (Tracker.run (recordCalls calls) tr)).
Proof.
  induction calls as [|[[clock c] ts] rest IH]; intros tr t Hw Hn Hi; [exact Hi|].
  change (Tracker.run (recordCalls ((clock, c, ts) :: rest)) tr)
    with (Tracker.run (recordCalls rest) (Tracker.recordTokens c ts clock tr)).
  cbn [map] in *. change (callTimestamp (clock, c, ts)) with (orClock ts clock) in *.
  apply nonDecreasing_cons in Hn. destruct Hn as [Hn Hle].
  specialize (Hle _ _ eq_refl).
  pose proof (Tracker_record_inv c ts clock tr t Hw Hle Hi) as Hi'.
  specialize (IH (Tracker.recordTokens c ts clock tr) (orClock ts clock)).
  cbn [Tracker.windowMs Tracker.recordTokens Tracker.pruneBuffer] in IH.
  specialize (IH Hw Hn Hi').
  rewrite last_cons_default. exact IH.
Qed.

(** X8. When the timestamps of the [recordTokens] calls never decrease, the
    buffer is kept in timestamp order and, after every call, holds only
    entries of the window that ends at the latest timestamp: pruning has
    dropped every expired entry.  Both revisions. *)
Theorem buffer_sorted_within_window :
  forall (options : TPSTrackerOptions) (clock0 : Z) (calls : list RecordCall),
    nonDecreasing (map callTimestamp calls) = true ->
    let latest := last (map callTimestamp calls) 0 in
    let tr := Tracker.run (recordCalls calls) (Tracker.createTracker options clock0) in
    let tre := TrackerEwma.run (recordCalls calls)
                 (TrackerEwma.createTracker options clock0) in
    nonDecreasing (map timestamp (Tracker.buffer tr)) = true
    /\ withinWindow (Tracker.getWindowMs tr) latest (Tracker.buffer tr) = true
    /\ nonDecreasing (map timestamp (TrackerEwma.buffer tre)) = true
    /\ withinWindow (TrackerEwma.getWindowMs tre) latest (TrackerEwma.buffer tre) = true.
Proof.
  intros options clock0 calls Hn latest tr tre.
  destruct (tracker_same_state options clock0 (recordCalls calls))
    as (_ & _ & Hb & _ & Hw).
  fold tr tre in Hb, Hw.
  unfold TrackerEwma.getWindowMs. rewrite <- Hb, <- Hw.
  assert (H : BufferInv (Tracker.windowMs tr) latest (Tracker.buffer tr)).
  { pose proof (resolveWindowMs_pos options) as Hp.
    destruct calls as [|c0 rest].
    - split; cbn; constructor.
    - unfold latest. cbn [map]. rewrite last_cons_default.
      pose proof (Tracker_run_inv (c0 :: rest) (Tracker.createTracker options clock0)
                    (callTimestamp c0)) as Hr.
      cbn [map] in Hr. rewrite last_cons_default in Hr.
      unfold tr. rewrite Tracker_run_window.
      apply Hr.
      + cbn. lia.
      + cbn [nonDecreasing]. rewrite Z.leb_refl. exact Hn.
      + split; cbn; constructor. }
  destruct H as [Hs Hf].
  assert (Hsb : nonDecreasing (map timestamp (Tracker.buffer tr)) = true).
  { clear -Hs. induction (map timestamp (Tracker.buffer tr)) as [|x l IH]; [reflexivity|].
    apply StronglySorted_inv in Hs. destruct Hs as [Hs Hx].
    cbn [nonDecreasing]. destruct l as [|y l']; [reflexivity|].
    inversion Hx; subst. apply andb_true_iff. split; [lia|now apply IH]. }
  assert (Hwb : withinWindow (Tracker.windowMs tr) latest (Tracker.buffer tr) = true).
  { unfold withinWindow. apply forallb_forall. rewrite Forall_forall in Hf.
    intros e He. specialize (Hf e He). apply andb_true_iff. split; lia. }
  repeat split; assumption.
Qed.

Lemma buffer_sorted_within_window_witness :
  nonDecreasing
    (map timestamp
       (Tracker.buffer (Tracker.run (recordCalls threeCalls)
                          (Tracker.createTracker defaultOptions 0)))) = true
  /\ withinWindow 1000 1500
       (TrackerEwma.buffer (TrackerEwma.run (recordCalls threeCalls)
                              (TrackerEwma.createTracker defaultOptions 0))) = true.
Proof.
  destruct (buffer_sorted_within_window defaultOptions 0 threeCalls eq_refl)
    as (H1 & _ & _ & H4).
  split; [exact H1 | exact H4].
Defined.

(* ================================================================== *)
(** * Trackers: rates in closed form and their bounds *)
(* ================================================================== *)

Lemma fold_min_shift a x l :
  fold_right Z.min (Z.min a x) l = Z.min x (fold_right Z.min a l).
Proof. induction l as [|y l IH]; simpl; lia. Qed.

Lemma fold_max_shift a x l :
  fold_right Z.max (Z.max a x) l = Z.max x (fold_right Z.max a l).
Proof. induction l as [|y l IH]; simpl; lia. Qed.

Lemma windowStep_live cutoff (l : list BufferEntry) : forall acc,
  forallb (notExpired cutoff) l = true ->
  fold_left (windowStep cutoff) l acc
  = mkAcc (tokensInWindow acc + sumOfCounts l)
          (fold_right Z.min (oldestTimestamp acc) (map timestamp l))
          (fold_right Z.max (newestTimestamp acc) (map timestamp l)).
Proof.
  induction l as [|e l IH]; intros acc H.
  - destruct acc. unfold sumOfCounts. cbn. f_equal. lia.
  - cbn [forallb] in H. apply andb_true_iff in H. destruct H as [He Hl].
    cbn [fold_left]. rewrite (IH _ Hl).
    unfold windowStep. unfold notExpired in He. rewrite He.
    cbn [tokensInWindow oldestTimestamp newestTimestamp map fold_right].
    unfold sumOfCounts. cbn [map fold_right].
    f_equal.
    + lia.
    + destruct (timestamp e <? oldestTimestamp acc) eqn:E.
      * replace (timestamp e) with (Z.min (oldestTimestamp acc) (timestamp e)) at 1 by lia.
        rewrite fold_min_shift. reflexivity.
      * replace (oldestTimestamp acc)
          with (Z.min (oldestTimestamp acc) (timestamp e)) at 1 by lia.
        rewrite fold_min_shift. reflexivity.
    + destruct (newestTimestamp acc <? timestamp e) eqn:E.
      * replace (timestamp e) with (Z.max (newestTimestamp acc) (timestamp e)) at 1 by lia.
        rewrite fold_max_shift. reflexivity.
      * replace (newestTimestamp acc)
          with (Z.max (newestTimestamp acc) (timestamp e)) at 1 by lia.
        rewrite fold_max_shift. reflexivity.
Qed.

Lemma filter_all_live cutoff b : forallb (notExpired cutoff) (filter (notExpired cutoff) b) = true.
Proof.
  apply forallb_forall. intros x Hx. apply filter_In in Hx. tauto.
Qed.

(** The loop of [getInstantTPS] / [calculateRawTPS] in closed form. *)
Lemma windowRate_closed_form :
  forall (windowMs : Z) (buffer : list BufferEntry) (now : Z),
    let live := liveEntries windowMs now buffer in
    windowRate windowMs buffer now
    = if sumOfCounts live =? 0 then 0%R
      else (IZR (sumOfCounts live)
            / Rmax (IZR (newestOf live - oldestOf now live) / 1000) (1 / 10))%R.
Proof.
  intros w b now live.
  rewrite expired_entries_do_not_count. fold (liveEntries w now b). fold live.
  unfold windowRate.
  rewrite (windowStep_live (now - w) live) by apply filter_all_live.
  cbn [tokensInWindow oldestTimestamp newestTimestamp]. rewrite Z.add_0_l.
  destruct live as [|e l] eqn:E; [reflexivity|].
  reflexivity.
Qed.

(** X3. The instantaneous rate in closed form: the tokens of the entries
    that are not older than the window, divided by the time between the
    oldest of them (or [now], if earlier) and the newest (or 0, if later),
    in seconds and at least 0.1; it is 0 when those tokens add up to 0.
    Expired entries that pruning has not removed yet play no part.  Both
    revisions. *)
Theorem instant_rate_closed_form :
  forall (now : Z) (tr : Tracker.t) (tre : TrackerEwma.t),
    Tracker.getInstantTPS now tr
    = rateOver now (liveEntries (Tracker.windowMs tr) now (Tracker.buffer tr))
    /\ TrackerEwma.getInstantTPS now tre
       = rateOver now (liveEntries (TrackerEwma.windowMs tre) now (TrackerEwma.buffer tre)).
Proof.
  intros now tr tre.
  unfold Tracker.getInstantTPS, TrackerEwma.getInstantTPS, TrackerEwma.calculateRawTPS.
  split; apply windowRate_closed_form.
Qed.


















(** A4 reset *)
Lemma Tracker_step_sessionId tr call :
  Tracker.sessionId (Tracker.step tr call) = Tracker.sessionId tr.
Proof. destruct call as [clock []]; reflexivity. Qed.

Lemma Tracker_run_sessionId calls : forall tr,
  Tracker.sessionId (Tracker.run calls tr) = Tracker.sessionId tr.
Proof.
  induction calls as [|c rest IH]; intros tr; [reflexivity|].
  unfold Tracker.run in *. cbn [fold_left]. now rewrite IH, Tracker_step_sessionId.
Qed.

Lemma TrackerEwma_step_sessionId tr call :
  TrackerEwma.sessionId (TrackerEwma.step tr call) = TrackerEwma.sessionId tr.
Proof. destruct call as [clock []]; reflexivity. Qed.

Lemma TrackerEwma_run_sessionId calls : forall tr,
  TrackerEwma.sessionId (TrackerEwma.run calls tr) = TrackerEwma.sessionId tr.
Proof.
  induction calls as [|c rest IH]; intros tr; [reflexivity|].
  unfold TrackerEwma.run in *. cbn [fold_left]. now rewrite IH, TrackerEwma_step_sessionId.
Qed.

(** X2. [reset()] makes a tracker as good as new.  Whatever calls a tracker
    has seen since it was created, after [reset()] at time [clock] it is
    in the state of a tracker created with the same options at [clock]:
    no tokens, no buffered entries, no smoothed value, the same session id
    and window; so every later sequence of calls leads to the same state
    and the same readings.  Both revisions. *)
Theorem reset_is_as_good_as_new :
  forall (options : TPSTrackerOptions) (clock0 clock : Z)
         (calls later : list (Z * TrackerOp)),
    Tracker.run later
      (Tracker.reset clock (Tracker.run calls (Tracker.createTracker options clock0)))
    = Tracker.run later (Tracker.createTracker options clock)
    /\ TrackerEwma.run later
         (TrackerEwma.reset clock
            (TrackerEwma.run calls (TrackerEwma.createTracker options clock0)))
       = TrackerEwma.run later (TrackerEwma.createTracker options clock).
Proof.
  intros options clock0 clock calls later. split; f_equal.
  - unfold Tracker.reset. rewrite Tracker_run_sessionId, Tracker_run_window. reflexivity.
  - unfold TrackerEwma.reset.
    rewrite TrackerEwma_run_sessionId, TrackerEwma_run_window. reflexivity.
Qed.

Lemma validStartIndex_single cutoff e :
  cutoff <= timestamp e -> Tracker.validStartIndex cutoff [e] = 0%nat.
Proof.
  intros H. unfold Tracker.validStartIndex. cbn.
  destruct (timestamp e <? cutoff) eqn:E; [lia|reflexivity].
Qed.

Lemma windowRate_single w c ts now :
  0 <= ts -> ts <= now <= ts + w ->
  windowRate w [mkEntry ts c] now = (10 * IZR c)%R.
Proof.
  intros H0 Hn. rewrite windowRate_closed_form. cbv zeta.
  unfold liveEntries, notExpired. cbn [filter timestamp].
  destruct (now - w <=? ts) eqn:E1; [|lia].
  unfold sumOfCounts, newestOf, oldestOf. cbn [map fold_right count timestamp].
  rewrite Z.add_0_r, Z.max_l, Z.min_l by lia.
  replace (ts - ts) with 0 by lia.
  destruct (c =? 0) eqn:E4.
  - apply Z.eqb_eq in E4. subst c. lra.
  - rewrite Rmax_right by lra. field.
Qed.

Lemma windowRate_single_late w c ts now :
  ts + w < now -> windowRate w [mkEntry ts c] now = 0%R.
Proof.
  intros Hn. rewrite windowRate_closed_form. cbv zeta.
  unfold liveEntries, notExpired. cbn [filter timestamp].
  destruct (now - w <=? ts) eqn:E1; [lia|]. reflexivity.
Qed.

Lemma Tracker_first_record options clock0 c ts clock :
  Tracker.buffer (Tracker.recordTokens c ts clock (Tracker.createTracker options clock0))
  = [mkEntry (orClock ts clock) c].
Proof.
  pose proof (resolveWindowMs_pos options) as Hw.
  unfold Tracker.recordTokens, Tracker.pruneBuffer, Tracker.createTracker.
  cbn [Tracker.buffer Tracker.windowMs app].
  rewrite validStartIndex_single by (cbn; lia). reflexivity.
Qed.

(** X1. A single chunk reads as ten times its count.  After the first
    [recordTokens(count, ts)] on a fresh tracker (ts >= 0) the window
    spans 0 ms, the 0.1 s floor applies, and the smoothed rate is
    10 x count; the instantaneous rate is 10 x count as long as the chunk
    is in the window and 0 once it has left it. *)
Theorem single_chunk_reads_ten_times_count :
  forall (options : TPSTrackerOptions) (clock0 count ts clock now : Z),
    0 <= ts ->
    let tr := Tracker.recordTokens count (Some ts) clock
                (Tracker.createTracker options clock0) in
    let tre := TrackerEwma.recordTokens count (Some ts) clock
                 (TrackerEwma.createTracker options clock0) in
    TrackerEwma.getSmoothedTPS now tre = (10 * IZR count)%R
    /\ (ts <= now <= ts + resolveWindowMs options ->
        Tracker.getInstantTPS now tr = (10 * IZR count)%R
        /\ TrackerEwma.getInstantTPS now tre = (10 * IZR count)%R)
    /\ (ts + resolveWindowMs options < now ->
        Tracker.getInstantTPS now tr = 0%R
        /\ TrackerEwma.getInstantTPS now tre = 0%R).
Proof.
  intros options clock0 c ts clock now H0 tr tre.
  pose proof (resolveWindowMs_pos options) as Hw.
  assert (Hb : Tracker.buffer tr = [mkEntry ts c])
    by apply (Tracker_first_record options clock0 c (Some ts) clock).
  assert (Hbe : TrackerEwma.buffer tre = [mkEntry ts c]).
  { unfold tre. rewrite TrackerEwma_record_buffer.
    apply (Tracker_first_record options clock0 c (Some ts) clock). }
  assert (Hwe : TrackerEwma.windowMs tre = resolveWindowMs options) by reflexivity.
  assert (Hwt : Tracker.windowMs tr = resolveWindowMs options) by reflexivity.
  split; [|split].
  - unfold TrackerEwma.getSmoothedTPS.
    assert (Hh : TrackerEwma.hasSmoothedValue tre = true) by reflexivity.
    rewrite Hh. unfold tre. rewrite TrackerEwma_record_bootstrap by reflexivity.
    fold tre. unfold TrackerEwma.calculateRawTPS. rewrite Hbe, Hwe.
    cbn [orClock]. apply windowRate_single; lia.
  - intros Hn. unfold Tracker.getInstantTPS, TrackerEwma.getInstantTPS,
      TrackerEwma.calculateRawTPS. rewrite Hb, Hbe, Hwe, Hwt.
    split; apply windowRate_single; lia.
  - intros Hn. unfold Tracker.getInstantTPS, TrackerEwma.getInstantTPS,
      TrackerEwma.calculateRawTPS. rewrite Hb, Hbe, Hwe, Hwt.
    split; apply windowRate_single_late; lia.
Qed.

Lemma single_chunk_reads_ten_times_count_witness :
  TrackerEwma.getSmoothedTPS 5000
    (TrackerEwma.recordTokens 7 (Some 1000) 1000
       (TrackerEwma.createTracker defaultOptions 0)) = (10 * IZR 7)%R
  /\ Tracker.getInstantTPS 1500
       (Tracker.recordTokens 7 (Some 1000) 1000 (Tracker.createTracker defaultOptions 0))
     = (10 * IZR 7)%R
  /\ Tracker.getInstantTPS 2001
       (Tracker.recordTokens 7 (Some 1000) 1000 (Tracker.createTracker defaultOptions 0))
     = 0%R.
Proof.
  destruct (single_chunk_reads_ten_times_count defaultOptions 0 7 1000 1000 5000
              ltac:(lia)) as (H1 & _ & _).
  destruct (single_chunk_reads_ten_times_count defaultOptions 0 7 1000 1000 1500
              ltac:(lia)) as (_ & H2 & _).
  destruct (single_chunk_reads_ten_times_count defaultOptions 0 7 1000 1000 2001
              ltac:(lia)) as (_ & _ & H3).
  split; [exact H1|]. split.
  - apply H2. vm_compute. split; discriminate.
  - apply H3. vm_compute. reflexivity.
Defined.

(* ================================================================== *)
(** * Token counter *)
(* ================================================================== *)

Lemma ceilDiv_bounds a d : 0 < d -> d * TokenCounter.ceilDiv a d - d < a <= d * TokenCounter.ceilDiv a d.
Proof.
  intros Hd. unfold TokenCounter.ceilDiv.
  pose proof (Z.div_mod (a + d - 1) d ltac:(lia)) as H.
  pose proof (Z.mod_pos_bound (a + d - 1) d Hd) as Hm. lia.
Qed.

Lemma ceilDiv_unique a d n : 0 < d -> d * n - d < a <= d * n -> TokenCounter.ceilDiv a d = n.
Proof.
  intros Hd Hn. pose proof (ceilDiv_bounds a d Hd) as H.
  set (m := TokenCounter.ceilDiv a d) in *. nia.
Qed.

Lemma countByChars_ceil text d :
  0 < d -> TokenCounter.countByChars text d
           = TokenCounter.ceilDiv (Z.of_nat (String.length text)) d.
Proof.
  intros Hd. unfold TokenCounter.countByChars.
  destruct (String.length text) as [|n] eqn:E; cbn [Nat.eqb]; [|reflexivity].
  symmetry. apply ceilDiv_unique; lia.
Qed.

Lemma length_append a b :
  String.length (a ++ b) = (String.length a + String.length b)%nat.
Proof. induction a as [|c a IH]; cbn; [reflexivity|now rewrite IH]. Qed.

Lemma countByChars_append a b d :
  0 < d ->
  TokenCounter.countByChars (a ++ b) d
  <= TokenCounter.countByChars a d + TokenCounter.countByChars b d
  <= TokenCounter.countByChars (a ++ b) d + 1.
Proof.
  intros Hd. rewrite !countByChars_ceil by exact Hd. rewrite length_append.
  rewrite Nat2Z.inj_add.
  pose proof (ceilDiv_bounds (Z.of_nat (String.length a)) d Hd).
  pose proof (ceilDiv_bounds (Z.of_nat (String.length b)) d Hd).
  pose proof (ceilDiv_bounds (Z.of_nat (String.length a) + Z.of_nat (String.length b)) d Hd).
  nia.
Qed.

Lemma countWordsFrom_flag text :
  TokenCounter.countWordsFrom true text <= TokenCounter.countWordsFrom false text
  <= TokenCounter.countWordsFrom true text + 1.
Proof.
  destruct text as [|c rest]; cbn [TokenCounter.countWordsFrom]; [lia|].
  destruct (TokenCounter.isSpace c); lia.
Qed.

Lemma countWordsFrom_nonneg text : forall iw, 0 <= TokenCounter.countWordsFrom iw text.
Proof.
  induction text as [|c rest IH]; intros iw; cbn [TokenCounter.countWordsFrom]; [lia|].
  destruct (TokenCounter.isSpace c); [apply IH|].
  specialize (IH true). destruct iw; lia.
Qed.

Lemma countWordsFrom_append a b : forall iw,
  TokenCounter.countWordsFrom iw (a ++ b)
  <= TokenCounter.countWordsFrom iw a + TokenCounter.countWordsFrom false b.
Proof.
  induction a as [|c a IH]; intros iw; cbn [TokenCounter.countWordsFrom String.append].
  - pose proof (countWordsFrom_flag b). destruct iw; lia.
  - destruct (TokenCounter.isSpace c); [apply IH|]. specialize (IH true). lia.
Qed.

Lemma countByWords_words text :
  TokenCounter.countByWords text
  = TokenCounter.ceilDiv (TokenCounter.countWordsFrom false text * 4) 3.
Proof.
  unfold TokenCounter.countByWords.
  destruct text as [|c rest]; [reflexivity|]. cbn [String.length Nat.eqb].
  cbv zeta. destruct (_ =? 0) eqn:E; [|reflexivity].
  apply Z.eqb_eq in E. rewrite E. reflexivity.
Qed.

Lemma countByWords_append a b :
  TokenCounter.countByWords (a ++ b)
  <= TokenCounter.countByWords a + TokenCounter.countByWords b.
Proof.
  rewrite !countByWords_words.
  pose proof (countWordsFrom_append a b false).
  pose proof (countWordsFrom_nonneg a false). pose proof (countWordsFrom_nonneg b false).
  pose proof (countWordsFrom_nonneg (a ++ b) false).
  pose proof (ceilDiv_bounds (TokenCounter.countWordsFrom false a * 4) 3 ltac:(lia)).
  pose proof (ceilDiv_bounds (TokenCounter.countWordsFrom false b * 4) 3 ltac:(lia)).
  pose proof (ceilDiv_bounds (TokenCounter.countWordsFrom false (a ++ b) * 4) 3 ltac:(lia)).
  lia.
Qed.

Lemma createTokenizer_append algorithm a b :
  TokenCounter.createTokenizer algorithm (a ++ b)
  <= TokenCounter.createTokenizer algorithm a + TokenCounter.createTokenizer algorithm b.
Proof.
  destruct algorithm; cbn [TokenCounter.createTokenizer].
  - apply countByChars_append. reflexivity.
  - apply countByWords_append.
  - apply countByChars_append. reflexivity.
Qed.

Lemma createTokenizer_nonneg algorithm text :
  0 <= TokenCounter.createTokenizer algorithm text.
Proof.
  destruct algorithm; cbn [TokenCounter.createTokenizer].
  - rewrite countByChars_ceil by reflexivity.
    pose proof (ceilDiv_bounds (Z.of_nat (String.length text)) Constants.CHARS_DIV_4 eq_refl).
    unfold Constants.CHARS_DIV_4 in *. lia.
  - rewrite countByWords_words. pose proof (countWordsFrom_nonneg text false).
    pose proof (ceilDiv_bounds (TokenCounter.countWordsFrom false text * 4) 3 ltac:(lia)).
    lia.
  - rewrite countByChars_ceil by reflexivity.
    pose proof (ceilDiv_bounds (Z.of_nat (String.length text)) Constants.CHARS_DIV_3 eq_refl).
    unfold Constants.CHARS_DIV_3 in *. lia.
Qed.

(** X10. The two character-based counters return the least number of
    groups of [divisor] characters (4 for "heuristic", 3 for "code") that
    cover the text: divisor x (n - 1) < length <= divisor x n.  The count
    is never negative, and it is 0 for the empty text only. *)
Theorem char_count_is_least_cover :
  forall (algorithm : TokenCounter.TokenizerAlgorithm) (divisor : Z) (text : string),
    charDivisor algorithm = Some divisor ->
    let n := TokenCounter.createTokenizer algorithm text in
    let len := Z.of_nat (String.length text) in
    0 <= n /\ divisor * (n - 1) < len <= divisor * n /\ (n = 0 <-> text = "").
Proof.
  intros algorithm d text Hd n len.
  assert (Hn : n = TokenCounter.ceilDiv len d /\ 0 < d).
  { unfold n. destruct algorithm; inversion Hd; subst d;
      cbn [TokenCounter.createTokenizer]; split; try reflexivity;
      apply countByChars_ceil; reflexivity. }
  destruct Hn as [Hn Hpos]. pose proof (ceilDiv_bounds len d Hpos) as Hb.
  rewrite <- Hn in Hb.
  assert (0 <= len) by (unfold len; lia).
  split; [nia|]. split; [lia|]. split.
  - intros H0. destruct text; [reflexivity|]. unfold len in *. cbn in Hb. nia.
  - intros ->. unfold len in *. cbn in Hb. nia.
Qed.

Lemma char_count_is_least_cover_witness :
  let n := TokenCounter.createTokenizer TokenCounter.heuristic "Hello, world!" in
  0 <= n /\ 4 * (n - 1) < 13 <= 4 * n /\ (n = 0 <-> "Hello, world!" = "").
Proof.
  exact (char_count_is_least_cover TokenCounter.heuristic 4 "Hello, world!" eq_refl).
Defined.

Lemma joinChunks_cons c chunks : joinChunks (c :: chunks) = (c ++ joinChunks chunks)%string.
Proof. reflexivity. Qed.

(** X11. Counting a text chunk by chunk, as the plugin does with the
    deltas of a stream, never gives less than counting the whole text at
    once, with any of the three algorithms; with the character-based ones
    it gives at most one token more per chunk. *)
Theorem chunked_count_overestimates :
  forall (algorithm : TokenCounter.TokenizerAlgorithm) (chunks : list string),
    TokenCounter.createTokenizer algorithm (joinChunks chunks)
    <= countChunks algorithm chunks
    /\ (algorithm <> TokenCounter.word ->
        countChunks algorithm chunks
        <= TokenCounter.createTokenizer algorithm (joinChunks chunks)
           + Z.of_nat (List.length chunks)).
Proof.
  intros algorithm chunks. split.
  - induction chunks as [|c rest IH].
    + cbn. destruct algorithm; cbn; lia.
    + rewrite joinChunks_cons. unfold countChunks in *. cbn [map fold_right].
      pose proof (createTokenizer_append algorithm c (joinChunks rest)). lia.
  - intros Hw. induction chunks as [|c rest IH].
    + cbn. destruct algorithm; cbn; lia.
    + rewrite joinChunks_cons. unfold countChunks in *. cbn [map fold_right List.length].
      assert (TokenCounter.createTokenizer algorithm c
              + TokenCounter.createTokenizer algorithm (joinChunks rest)
              <= TokenCounter.createTokenizer algorithm (c ++ joinChunks rest)%string + 1).
      { destruct algorithm; [|congruence|]; cbn [TokenCounter.createTokenizer];
          apply countByChars_append; reflexivity. }
      lia.
Qed.

Lemma chunked_count_overestimates_witness :
  countChunks TokenCounter.code ["ab"; "cd"; "e"]
  <= TokenCounter.createTokenizer TokenCounter.code (joinChunks ["ab"; "cd"; "e"])
     + Z.of_nat (List.length ["ab"; "cd"; "e"]).
Proof.
  apply (chunked_count_overestimates TokenCounter.code ["ab"; "cd"; "e"]).
  discriminate.
Defined.




(* ================================================================== *)
(** * Configuration loading *)
(* ================================================================== *)

Lemma clamp_bounds value lo hi :
  (lo <= hi)%Q -> (lo <= ConfigFile.clamp value lo hi <= hi)%Q.
Proof.
  intros H. unfold ConfigFile.clamp. split.
  - apply Qminmax.Q.le_max_l.
  - apply Qminmax.Q.max_lub; [exact H|]. apply Qminmax.Q.le_min_l.
Qed.

Lemma clamp_inside value lo hi :
  (lo <= value <= hi)%Q -> (ConfigFile.clamp value lo hi == value)%Q.
Proof.
  intros [H1 H2]. unfold ConfigFile.clamp.
  rewrite Qminmax.Q.min_r by exact H2. now rewrite Qminmax.Q.max_r.
Qed.

Lemma clampOrDefault_bounds value lo hi d :
  (lo <= hi)%Q -> (lo <= d <= hi)%Q ->
  (lo <= ConfigFile.clampOrDefault value lo hi d <= hi)%Q.
Proof.
  intros H Hd. unfold ConfigFile.clampOrDefault.
  destruct (ConfigFile.isNumber value); [now apply clamp_bounds|exact Hd].
Qed.

Lemma oneOfOrDefault_allowed value allowed d :
  In d allowed -> In (ConfigFile.oneOfOrDefault value allowed d) allowed.
Proof.
  intros Hd. unfold ConfigFile.oneOfOrDefault.
  destruct (ConfigFile.isString value) as [s|]; [|exact Hd].
  destruct (ConfigFile.includes allowed s) eqn:E; [|exact Hd].
  unfold ConfigFile.includes in E. apply existsb_exists in E.
  destruct E as (x & Hx & Heq). apply String.eqb_eq in Heq. now subst.
Qed.

Lemma mergeConfig_withinBounds partial :
  ConfigFile.withinBounds (ConfigFile.mergeConfig partial ConfigFile.defaultConfig).
Proof.
  unfold ConfigFile.withinBounds, ConfigFile.mergeConfig.
  cbn [ConfigFile.updateIntervalMs ConfigFile.rollingWindowMs ConfigFile.minVisibleTPS
       ConfigFile.slowTpsThreshold ConfigFile.fastTpsThreshold ConfigFile.format
       ConfigFile.fallbackTokenHeuristic ConfigFile.defaultConfig].
  split; [apply clampOrDefault_bounds; [|split]; vm_compute; discriminate|].
  split; [apply clampOrDefault_bounds; [|split]; vm_compute; discriminate|].
  split; [apply clampOrDefault_bounds; [|split]; vm_compute; discriminate|].
  pose proof (clampOrDefault_bounds (ConfigFile.p_slowTpsThreshold partial) 0 10000
                ConfigFile.DEFAULT_SLOW_TPS_THRESHOLD
                ltac:(vm_compute; discriminate) ltac:(split; vm_compute; discriminate)) as Hs.
  pose proof (clampOrDefault_bounds (ConfigFile.p_fastTpsThreshold partial) 0 10000
                ConfigFile.DEFAULT_FAST_TPS_THRESHOLD
                ltac:(vm_compute; discriminate) ltac:(split; vm_compute; discriminate)) as Hf.
  set (slow := ConfigFile.clampOrDefault (ConfigFile.p_slowTpsThreshold partial) _ _ _) in *.
  set (fast := ConfigFile.clampOrDefault (ConfigFile.p_fastTpsThreshold partial) _ _ _) in *.
  destruct (QArith_base.Qle_bool fast slow) eqn:E.
  - split; [vm_compute; discriminate|]. split; [reflexivity|].
    split; [vm_compute; discriminate|].
    split; apply oneOfOrDefault_allowed; cbn; tauto.
  - split; [apply Hs|]. split.
    + apply QArith_base.Qnot_le_lt. intros Hle.
      apply QArith_base.Qle_bool_iff in Hle. congruence.
    + split; [apply Hf|]. split; apply oneOfOrDefault_allowed; cbn; tauto.
Qed.

(** X13. Whatever the two configuration files and the environment hold,
    and whatever the host's parsers return, the configuration that
    [loadConfigSync] resolves is within bounds: update interval in
    [10, 5000], rolling window in [100, 30000], minimum visible rate in
    [0, 10000], 0 <= slow threshold < fast threshold <= 10000, and a known
    format and token heuristic. *)
Theorem loaded_config_within_bounds :
  forall (existsSync : string -> bool) (readFileSync : string -> option string)
         (jsonParse : string -> option ConfigFile.Parsed)
         (parseInt parseFloat : string -> ConfigFile.JsNumber)
         (projectConfigPath globalConfigPath : string) (env : ConfigFile.Env),
    ConfigFile.withinBounds
      (ConfigFile.loadConfigSync existsSync readFileSync jsonParse parseInt parseFloat
                                 projectConfigPath globalConfigPath env).
Proof. intros. apply mergeConfig_withinBounds. Qed.

Lemma over_undefined_l b : ConfigFile.over ConfigFile.JsUndefined b = b.
Proof. destruct b; reflexivity. Qed.

Lemma over_defined a b : b <> ConfigFile.JsUndefined -> ConfigFile.over a b = b.
Proof. destruct b; intros H; try reflexivity. congruence. Qed.

(** X14. A flag set in the environment wins over both files, and it is
    true only for the exact text "true": with [TPS_METER_ENABLED] set to
    anything else ("1", "TRUE", "yes") the plugin is disabled, whatever
    the files say. *)
Theorem env_flag_overrides_files :
  forall (existsSync : string -> bool) (readFileSync : string -> option string)
         (jsonParse : string -> option ConfigFile.Parsed)
         (parseInt parseFloat : string -> ConfigFile.JsNumber)
         (projectConfigPath globalConfigPath : string) (env : ConfigFile.Env)
         (value : string),
    ConfigFile.TPS_METER_ENABLED env = Some value ->
    ConfigFile.enabled
      (ConfigFile.loadConfigSync existsSync readFileSync jsonParse parseInt parseFloat
                                 projectConfigPath globalConfigPath env)
    = String.eqb value "true".
Proof.
  intros until value. intros H.
  unfold ConfigFile.loadConfigSync, ConfigFile.mergeConfig, ConfigFile.mergedSources.
  cbn [ConfigFile.enabled ConfigFile.spread ConfigFile.p_enabled ConfigFile.loadEnvConfig].
  rewrite H. reflexivity.
Qed.

(** X15. A number set in the environment wins over both files even when it
    is not acceptable: if [TPS_METER_ROLLING_WINDOW_MS] parses to a finite
    number, the rolling window is that number clamped to [100, 30000] when
    it is not negative, and the default when it is negative; the files'
    values are not consulted. *)
Theorem env_number_overrides_files :
  forall (existsSync : string -> bool) (readFileSync : string -> option string)
         (jsonParse : string -> option ConfigFile.Parsed)
         (parseInt parseFloat : string -> ConfigFile.JsNumber)
         (projectConfigPath globalConfigPath : string) (env : ConfigFile.Env)
         (value : string) (q : QArith_base.Q),
    ConfigFile.TPS_METER_ROLLING_WINDOW_MS env = Some value ->
    parseInt value = ConfigFile.Finite q ->
    ConfigFile.rollingWindowMs
      (ConfigFile.loadConfigSync existsSync readFileSync jsonParse parseInt parseFloat
                                 projectConfigPath globalConfigPath env)
    = if QArith_base.Qle_bool 0 q then ConfigFile.clamp q 100 30000
      else ConfigFile.rollingWindowMs ConfigFile.defaultConfig.
Proof.
  intros until q. intros H Hp.
  unfold ConfigFile.loadConfigSync, ConfigFile.mergeConfig, ConfigFile.mergedSources.
  cbn [ConfigFile.rollingWindowMs ConfigFile.spread ConfigFile.p_rollingWindowMs
       ConfigFile.loadEnvConfig].
  rewrite H. unfold ConfigFile.envNumber. rewrite Hp.
  cbn [ConfigFile.over]. unfold ConfigFile.clampOrDefault. cbn [ConfigFile.isNumber].
  destruct (QArith_base.Qle_bool 0 q); reflexivity.
Qed.

(** X16. The global file wins over the project file key by key, valid or
    not: when the environment does not set the rolling window and the
    global file has the key, the result is the global value clamped to
    [100, 30000] if it is a non-negative finite number, and the default
    otherwise (a string, null, a negative number); the project file's
    value for the key is masked either way. *)
Theorem global_file_masks_project_file :
  forall (existsSync : string -> bool) (readFileSync : string -> option string)
         (jsonParse : string -> option ConfigFile.Parsed)
         (parseInt parseFloat : string -> ConfigFile.JsNumber)
         (projectConfigPath globalConfigPath : string) (env : ConfigFile.Env)
         (globalConfig : ConfigFile.PartialConfig),
    ConfigFile.TPS_METER_ROLLING_WINDOW_MS env = None ->
    ConfigFile.loadConfigFile existsSync readFileSync jsonParse globalConfigPath
    = Some globalConfig ->
    ConfigFile.p_rollingWindowMs globalConfig <> ConfigFile.JsUndefined ->
    ConfigFile.rollingWindowMs
      (ConfigFile.loadConfigSync existsSync readFileSync jsonParse parseInt parseFloat
                                 projectConfigPath globalConfigPath env)
    = match ConfigFile.isNumber (ConfigFile.p_rollingWindowMs globalConfig) with
      | Some q => ConfigFile.clamp q 100 30000
      | None => ConfigFile.rollingWindowMs ConfigFile.defaultConfig
      end.
Proof.
  intros until globalConfig. intros He Hg Hd.
  unfold ConfigFile.loadConfigSync, ConfigFile.mergeConfig, ConfigFile.mergedSources.
  rewrite Hg.
  cbn [ConfigFile.rollingWindowMs ConfigFile.spread ConfigFile.p_rollingWindowMs
       ConfigFile.loadEnvConfig].
  rewrite He. cbn [ConfigFile.envNumber ConfigFile.over].
  rewrite (over_defined _ _ Hd). reflexivity.
Qed.

Lemma env_flag_overrides_files_witness :
  ConfigFile.enabled
    (ConfigFile.loadConfigSync globalOnlyExists readAny parseStringWindow
       parseMinusFive parseMinusFive "project.json" "global.json" enabledOne)
  = false.
Proof.
  apply (env_flag_overrides_files globalOnlyExists readAny parseStringWindow
           parseMinusFive parseMinusFive "project.json" "global.json" enabledOne "1").
  reflexivity.
Defined.

Lemma env_number_overrides_files_witness :
  ConfigFile.rollingWindowMs
    (ConfigFile.loadConfigSync globalOnlyExists readAny parseStringWindow
       parseMinusFive parseMinusFive "project.json" "global.json" enabledOne)
  = ConfigFile.rollingWindowMs ConfigFile.defaultConfig.
Proof.
  apply (env_number_overrides_files globalOnlyExists readAny parseStringWindow
           parseMinusFive parseMinusFive "project.json" "global.json" enabledOne
           "-5" (-5 # 1)); reflexivity.
Defined.

Lemma global_file_masks_project_file_witness :
  ConfigFile.rollingWindowMs
    (ConfigFile.loadConfigSync globalOnlyExists readAny parseStringWindow
       parseMinusFive parseMinusFive "project.json" "global.json" noEnv)
  = ConfigFile.rollingWindowMs ConfigFile.defaultConfig.
Proof.
  apply (global_file_masks_project_file globalOnlyExists readAny parseStringWindow
           parseMinusFive parseMinusFive "project.json" "global.json" noEnv
           stringWindow); [reflexivity|reflexivity|discriminate].
Defined.

Lemma clampOrDefault_inside q lo hi d :
  (0 <= lo)%Q -> (lo <= q <= hi)%Q ->
  (ConfigFile.clampOrDefault (ConfigFile.JsNum (ConfigFile.Finite q)) lo hi d == q)%Q.
Proof.
  intros H0 Hq. unfold ConfigFile.clampOrDefault. cbn [ConfigFile.isNumber].
  assert (Hle : Qle_bool 0 q = true).
  { apply Qle_bool_iff. apply Qle_trans with lo; tauto. }
  rewrite Hle. now apply clamp_inside.
Qed.

Lemma oneOfOrDefault_inside s allowed d :
  In s allowed -> ConfigFile.oneOfOrDefault (ConfigFile.JsString s) allowed d = s.
Proof.
  intros H. unfold ConfigFile.oneOfOrDefault. cbn [ConfigFile.isString].
  assert (E : ConfigFile.includes allowed s = true).
  { unfold ConfigFile.includes. apply existsb_exists. exists s. split; [exact H|].
    apply String.eqb_refl. }
  now rewrite E.
Qed.

(** X17. Validation leaves a configuration that is within bounds as it is:
    [mergeConfig] applied to it returns the same values, whatever the
    defaults are. *)
Theorem valid_config_passes_unchanged :
  forall (c defaults : ConfigFile.Config),
    ConfigFile.withinBounds c ->
    ConfigFile.sameConfig (ConfigFile.mergeConfig (ConfigFile.asPartial c) defaults) c.
Proof.
  intros c defaults (Hu & Hr & Hm & Hs0 & Hsf & Hf & Hfmt & Hh).
  assert (Hs : (0 <= ConfigFile.slowTpsThreshold c <= 10000)%Q).
  { split; [exact Hs0|]. apply Qle_trans with (ConfigFile.fastTpsThreshold c);
      [now apply Qlt_le_weak|exact Hf]. }
  assert (Hf' : (0 <= ConfigFile.fastTpsThreshold c <= 10000)%Q).
  { split; [|exact Hf]. apply Qle_trans with (ConfigFile.slowTpsThreshold c);
      [exact Hs0|now apply Qlt_le_weak]. }
  pose proof (clampOrDefault_inside (ConfigFile.slowTpsThreshold c) 0 10000
                (ConfigFile.slowTpsThreshold defaults) ltac:(vm_compute; discriminate) Hs)
    as Es.
  pose proof (clampOrDefault_inside (ConfigFile.fastTpsThreshold c) 0 10000
                (ConfigFile.fastTpsThreshold defaults) ltac:(vm_compute; discriminate) Hf')
    as Ef.
  unfold ConfigFile.sameConfig, ConfigFile.mergeConfig.
  cbn [ConfigFile.asPartial ConfigFile.p_enabled ConfigFile.p_updateIntervalMs
       ConfigFile.p_rollingWindowMs ConfigFile.p_showAverage ConfigFile.p_showInstant
       ConfigFile.p_showTotalTokens ConfigFile.p_showElapsed ConfigFile.p_format
       ConfigFile.p_minVisibleTPS ConfigFile.p_fallbackTokenHeuristic
       ConfigFile.p_enableColorCoding ConfigFile.p_slowTpsThreshold
       ConfigFile.p_fastTpsThreshold
       ConfigFile.enabled ConfigFile.updateIntervalMs ConfigFile.rollingWindowMs
       ConfigFile.showAverage ConfigFile.showInstant ConfigFile.showTotalTokens
       ConfigFile.showElapsed ConfigFile.format ConfigFile.minVisibleTPS
       ConfigFile.fallbackTokenHeuristic ConfigFile.enableColorCoding
       ConfigFile.slowTpsThreshold ConfigFile.fastTpsThreshold
       ConfigFile.orDefaultBool ConfigFile.isBoolean].
  set (slow := ConfigFile.clampOrDefault
                 (ConfigFile.JsNum (ConfigFile.Finite (ConfigFile.slowTpsThreshold c))) _ _ _)
    in *.
  set (fast := ConfigFile.clampOrDefault
                 (ConfigFile.JsNum (ConfigFile.Finite (ConfigFile.fastTpsThreshold c))) _ _ _)
    in *.
  assert (E : Qle_bool fast slow = false).
  { destruct (Qle_bool fast slow) eqn:E; [|reflexivity].
    apply Qle_bool_iff in E. rewrite Es, Ef in E.
    exfalso. exact (Qlt_not_le _ _ Hsf E). }
  rewrite E.
  split; [reflexivity|].
  split; [apply clampOrDefault_inside; [vm_compute; discriminate|exact Hu]|].
  split; [apply clampOrDefault_inside; [vm_compute; discriminate|exact Hr]|].
  do 4 (split; [reflexivity|]).
  split; [now apply oneOfOrDefault_inside|].
  split; [apply clampOrDefault_inside; [vm_compute; discriminate|exact Hm]|].
  split; [now apply oneOfOrDefault_inside|].
  split; [reflexivity|]. split; assumption.
Qed.

Lemma valid_config_passes_unchanged_witness :
  ConfigFile.sameConfig
    (ConfigFile.mergeConfig (ConfigFile.asPartial ConfigFile.defaultConfig)
                            ConfigFile.defaultConfig)
    ConfigFile.defaultConfig.
Proof.
  apply (valid_config_passes_unchanged ConfigFile.defaultConfig ConfigFile.defaultConfig).
  unfold ConfigFile.withinBounds.
  repeat split; try (vm_compute; discriminate); try reflexivity.
  - vm_compute. left. reflexivity.
  - vm_compute. left. reflexivity.
Defined.

(* ================================================================== *)
(** * UI manager: throttling and coalescing *)
(* ================================================================== *)

Section UiTraces.

Variable formatDisplay : UI.UiConfig -> UI.DisplayState -> string.
Variable client : UI.OpenCodeClient.

(** A flush leaves the timer, the time of the last flush and the
    configuration alone; it moves the pending state to the displayed one. *)
Lemma flushPendingUpdate_state now w :
  exists w',
    UI.flushPendingUpdate formatDisplay client now w = (Normal tt, w')
    /\ UI.uiConfig (UI.ui w') = UI.uiConfig (UI.ui w)
    /\ UI.flushTimer (UI.ui w') = UI.flushTimer (UI.ui w)
    /\ UI.lastFlushAt (UI.ui w') = UI.lastFlushAt (UI.ui w)
    /\ UI.pendingState (UI.ui w') = None
    /\ UI.lastDisplayedState (UI.ui w')
       = match UI.pendingState (UI.ui w) with
         | Some p => Some p
         | None => UI.lastDisplayedState (UI.ui w)
         end.
Proof.
  unfold UI.flushPendingUpdate, bind, get.
  destruct (UI.pendingState (UI.ui w)) as [p|] eqn:E.
  - destruct (display_chain client now (formatDisplay (UI.uiConfig (UI.ui w)) p)
                false (UI.instantTps p) w) as (a & u & Hd & _ & _ & Hu & _).
    rewrite Hd. unfold UI.setPending, modify. eexists. split; [reflexivity|].
    cbn [UI.ui UI.uiConfig UI.flushTimer UI.lastFlushAt UI.pendingState
         UI.lastDisplayedState snd].
    subst u. destruct (someReturned client a); cbn; repeat split; reflexivity.
  - exists w. rewrite E. repeat split; reflexivity.
Qed.

Lemma display_state now message isFinal tps w :
  exists w',
    UI.display client now message isFinal tps w = (Normal tt, w')
    /\ UI.uiConfig (UI.ui w') = UI.uiConfig (UI.ui w)
    /\ UI.flushTimer (UI.ui w') = UI.flushTimer (UI.ui w)
    /\ UI.lastFlushAt (UI.ui w') = UI.lastFlushAt (UI.ui w)
    /\ UI.pendingState (UI.ui w') = UI.pendingState (UI.ui w)
    /\ UI.lastDisplayedState (UI.ui w') = UI.lastDisplayedState (UI.ui w).
Proof.
  destruct (display_chain client now message isFinal tps w)
    as (a & u & Hd & _ & _ & Hu & _).
  rewrite Hd. eexists. split; [reflexivity|]. cbn [UI.ui]. subst u.
  destruct (someReturned client a); cbn; repeat split; reflexivity.
Qed.

Lemma uiStep_throttle w call :
  UiThrottleInv (UI.ui w) -> UiThrottleInv (UI.ui (uiStep formatDisplay client w call)).
Proof.
  intros Hi. unfold uiStep, uiCall. destruct call as [now op]. cbn [fst snd].
  destruct op.
  - unfold UI.updateDisplay, UI.setPending, UI.scheduleFlush, bind, get, modify.
    cbn [snd UI.ui UI.flushTimer]. unfold UiThrottleInv in *.
    destruct (UI.flushTimer (UI.ui w)) as [due|] eqn:E; cbn [UI.ui UI.flushTimer
      UI.lastFlushAt UI.uiConfig]; [exact Hi|].
    destruct (UI.lastFlushAt (UI.ui w) =? 0) eqn:E0; lia.
  - unfold UI.showFinalStats, bind.
    destruct (flushPendingUpdate_state now w) as (w1 & -> & Hc & Ht & Hl & _).
    unfold modify, get.
    match goal with |- context [UI.display ?c ?n ?m ?f ?t ?x] =>
      destruct (display_state n m f t x) as (w2 & -> & Hc2 & Ht2 & Hl2 & _) end.
    cbn [snd UI.ui UI.uiConfig UI.flushTimer UI.lastFlushAt] in *.
    unfold UiThrottleInv in *. rewrite Hc2, Ht2, Hl2, Hc, Ht, Hl. exact Hi.
  - unfold UI.clear, bind, modify.
    match goal with |- context [UI.flushPendingUpdate _ ?c ?n ?x] =>
      destruct (flushPendingUpdate_state n x) as (w1 & -> & Hc & Ht & Hl & _) end.
    unfold UI.setPending, modify. cbn [snd UI.ui UI.flushTimer] in *.
    unfold UiThrottleInv. cbn [UI.flushTimer]. rewrite Ht. exact I.
  - unfold UI.setUpdateInterval, modify. cbn [snd UI.ui].
    unfold UiThrottleInv. cbn [UI.flushTimer UI.lastFlushAt].
    destruct (UI.flushTimer (UI.ui w)); [left; reflexivity|exact I].
  - unfold UI.flushTimerFired, bind, modify.
    match goal with |- context [UI.flushPendingUpdate _ ?c ?n ?x] =>
      destruct (flushPendingUpdate_state n x) as (w1 & -> & Hc & Ht & Hl & _) end.
    cbn [snd UI.ui UI.flushTimer] in *.
    unfold UiThrottleInv. rewrite Ht. exact I.
Qed.

Lemma uiRun_throttle calls : forall w,
  UiThrottleInv (UI.ui w) -> UiThrottleInv (UI.ui (uiRun formatDisplay client calls w)).
Proof.
  induction calls as [|call rest IH]; intros w Hi; [exact Hi|].
  cbn [uiRun fold_left]. apply IH. now apply uiStep_throttle.
Qed.

Lemma timerRespected_app calls1 calls2 : forall w,
  timerRespected formatDisplay client (calls1 ++ calls2) w
  = timerRespected formatDisplay client calls1 w
    && timerRespected formatDisplay client calls2 (uiRun formatDisplay client calls1 w).
Proof.
  induction calls1 as [|call rest IH]; intros w; [reflexivity|].
  cbn [app timerRespected uiRun fold_left]. rewrite IH. unfold uiRun.
  now rewrite andb_assoc.
Qed.

End UiTraces.

(** X18. Timer flushes are at least an update interval apart.  In any
    sequence of operations on a new UI manager in which the flush timer
    runs only while armed and not before it is due, when the timer fires
    at [now] either no flush has happened since the manager was created or
    the interval was last set, or the previous timer flush was at least
    [updateIntervalMs] earlier. *)
Theorem timer_flushes_are_an_interval_apart :
  forall (formatDisplay : UI.UiConfig -> UI.DisplayState -> string)
         (client : UI.OpenCodeClient) (config : UI.UiConfig)
         (calls : list (Z * UiOp)) (now : Z),
    timerRespected formatDisplay client (calls ++ [(now, FlushTimerOp)]) (newUi config)
    = true ->
    let w := uiRun formatDisplay client calls (newUi config) in
    UI.lastFlushAt (UI.ui w) = 0
    \/ UI.lastFlushAt (UI.ui w) + UI.updateIntervalMs (UI.uiConfig (UI.ui w)) <= now.
Proof.
  intros fmt client config calls now H w.
  rewrite timerRespected_app in H. apply andb_true_iff in H. destruct H as [_ H].
  fold w in H. cbn [timerRespected snd fst] in H.
  assert (Hi : UiThrottleInv (UI.ui w)).
  { apply uiRun_throttle. exact I. }
  unfold UiThrottleInv in Hi.
  destruct (UI.flushTimer (UI.ui w)) as [due|]; [|discriminate].
  rewrite andb_true_r in H. apply Z.leb_le in H. lia.
Qed.

Lemma timer_flushes_are_an_interval_apart_witness :
  UI.lastFlushAt (UI.ui (uiRun plainFormat throwingClient throttledCalls
                           (newUi defaultUiConfig))) = 0
  \/ UI.lastFlushAt (UI.ui (uiRun plainFormat throwingClient throttledCalls
                              (newUi defaultUiConfig)))
     + UI.updateIntervalMs
         (UI.uiConfig (UI.ui (uiRun plainFormat throwingClient throttledCalls
                                (newUi defaultUiConfig))))
     <= 1050.
Proof.
  apply (timer_flushes_are_an_interval_apart plainFormat throwingClient defaultUiConfig
           throttledCalls 1050).
  vm_compute. reflexivity.
Defined.

Lemma uiStep_update_twice fmt client w t1 i1 a1 n1 e1 t2 i2 a2 n2 e2 :
  uiStep fmt client (uiStep fmt client w (t1, UpdateDisplayOp i1 a1 n1 e1))
         (t2, UpdateDisplayOp i2 a2 n2 e2)
  = uiStep fmt client w (t1, UpdateDisplayOp i2 a2 n2 e2).
Proof.
  unfold uiStep, uiCall. cbn [fst snd].
  unfold UI.updateDisplay, UI.setPending, UI.scheduleFlush, bind, get, modify.
  cbn [snd UI.ui UI.flushTimer UI.calls UI.lastDisplayedState].
  destruct (UI.flushTimer (UI.ui w)) as [due|] eqn:E;
    cbn [UI.ui UI.flushTimer UI.calls UI.lastDisplayedState UI.uiConfig UI.lastFlushAt
         UI.lastToastAt UI.lastToastMessage UI.pendingState]; reflexivity.
Qed.

Lemma uiStep_update_calls fmt client w t i a n e :
  UI.calls (uiStep fmt client w (t, UpdateDisplayOp i a n e)) = UI.calls w.
Proof.
  unfold uiStep, uiCall. cbn [fst snd].
  unfold UI.updateDisplay, UI.setPending, UI.scheduleFlush, bind, get, modify.
  cbn [snd UI.ui UI.flushTimer UI.calls].
  destruct (UI.flushTimer (UI.ui w)); reflexivity.
Qed.

Lemma last_default_snd {A B : Type} (l : list (A * B)) (a c : A) (b : B) :
  snd (last l (a, b)) = snd (last l (c, b)).
Proof.
  destruct l as [|x l]; [reflexivity|]. now rewrite !last_cons_default.
Qed.

(** X19. Updates coalesce.  A run of [updateDisplay] calls leaves the
    manager where a single call would: the one made at the time of the
    first call with the values of the last.  Only the latest values stay
    pending, the timer keeps the due time it got at the first call, and no
    sink is called. *)
Theorem updates_coalesce :
  forall (formatDisplay : UI.UiConfig -> UI.DisplayState -> string)
         (client : UI.OpenCodeClient) (w : UI.World)
         (first : Z * UiOp) (rest : list (Z * UiOp)),
    forallb isUpdate (first :: rest) = true ->
    let w' := uiRun formatDisplay client (first :: rest) w in
    w' = uiStep formatDisplay client w (fst first, snd (last rest first))
    /\ UI.calls w' = UI.calls w.
Proof.
  intros fmt client w first rest. revert first.
  induction rest as [|second rest IH]; intros first H.
  - cbn [uiRun fold_left last]. destruct first as [t op]. cbn [fst snd]. split; [reflexivity|].
    destruct op; try discriminate. apply uiStep_update_calls.
  - cbn [forallb] in H. apply andb_true_iff in H. destruct H as [H1 H2].
    destruct first as [t1 op1]. destruct op1; try discriminate.
    destruct second as [t2 op2]. pose proof H2 as H2'. cbn [forallb] in H2'.
    apply andb_true_iff in H2'. destruct H2' as [H3 _].
    destruct op2; try discriminate.
    cbv zeta.
    change (uiRun fmt client
              ((t1, UpdateDisplayOp instantTps avgTps totalTokens elapsedMs)
               :: (t2, UpdateDisplayOp instantTps0 avgTps0 totalTokens0 elapsedMs0) :: rest) w)
      with (fold_left (uiStep fmt client) rest
              (uiStep fmt client
                 (uiStep fmt client w
                    (t1, UpdateDisplayOp instantTps avgTps totalTokens elapsedMs))
                 (t2, UpdateDisplayOp instantTps0 avgTps0 totalTokens0 elapsedMs0))).
    rewrite uiStep_update_twice.
    specialize (IH (t1, UpdateDisplayOp instantTps0 avgTps0 totalTokens0 elapsedMs0)).
    cbn [forallb] in IH. cbv zeta in IH.
    assert (Hrest : forallb isUpdate rest = true).
    { cbn [forallb] in H2. apply andb_true_iff in H2. tauto. }
    specialize (IH ltac:(rewrite Hrest; reflexivity)).
    cbn [uiRun fold_left fst] in IH. destruct IH as [IH1 IH2].
    split; [|exact IH2].
    rewrite IH1. cbn [fst]. rewrite last_cons_default.
    now rewrite (last_default_snd rest t1 t2).
Qed.

Lemma updates_coalesce_witness :
  UI.calls (uiRun plainFormat throwingClient
              [ (1010, UpdateDisplayOp 2 2 20 110); (1020, UpdateDisplayOp 3 3 30 120) ]
              shownWorld)
  = UI.calls shownWorld.
Proof.
  apply (updates_coalesce plainFormat throwingClient shownWorld
           (1010, UpdateDisplayOp 2 2 20 110) [ (1020, UpdateDisplayOp 3 3 30 120) ]).
  reflexivity.
Defined.

(** X20. A flush consumes the pending update whether or not it was shown.
    After the timer callback, [showFinalStats] or [clear], nothing is
    pending, whatever the flood guard decided and whatever the sinks did;
    the timer callback and [showFinalStats] record the consumed update as
    the last displayed one, [clear] forgets it; the timer is disarmed by
    its callback and by [clear], and [lastFlushAt] is moved by the timer
    callback alone. *)
Theorem flush_consumes_pending_update :
  forall (formatDisplay : UI.UiConfig -> UI.DisplayState -> string)
         (client : UI.OpenCodeClient) (now total elapsed : Z) (avg : R) (w : UI.World),
    let consumed :=
      match UI.pendingState (UI.ui w) with
      | Some p => Some p
      | None => UI.lastDisplayedState (UI.ui w)
      end in
    let fired := snd (UI.flushTimerFired formatDisplay client now w) in
    let final := snd (UI.showFinalStats formatDisplay client now total avg elapsed w) in
    let cleared := snd (UI.clear formatDisplay client now w) in
    (UI.pendingState (UI.ui fired) = None
     /\ UI.lastDisplayedState (UI.ui fired) = consumed
     /\ UI.flushTimer (UI.ui fired) = None
     /\ UI.lastFlushAt (UI.ui fired) = now)
    /\ (UI.pendingState (UI.ui final) = None
        /\ UI.lastDisplayedState (UI.ui final) = consumed
        /\ UI.flushTimer (UI.ui final) = UI.flushTimer (UI.ui w)
        /\ UI.lastFlushAt (UI.ui final) = UI.lastFlushAt (UI.ui w))
    /\ (UI.pendingState (UI.ui cleared) = None
        /\ UI.lastDisplayedState (UI.ui cleared) = None
        /\ UI.flushTimer (UI.ui cleared) = None
        /\ UI.lastFlushAt (UI.ui cleared) = UI.lastFlushAt (UI.ui w)).
Proof.
  intros fmt client now total elapsed avg w. cbv zeta. split; [|split].
  - unfold UI.flushTimerFired, bind, modify.
    match goal with |- context [UI.flushPendingUpdate _ ?c ?n ?x] =>
      destruct (flushPendingUpdate_state fmt c n x) as (w1 & -> & Hc & Ht & Hl & Hp & Hd) end.
    cbn [snd UI.ui UI.flushTimer UI.lastFlushAt UI.pendingState UI.lastDisplayedState] in *.
    repeat split; assumption.
  - unfold UI.showFinalStats, bind.
    destruct (flushPendingUpdate_state fmt client now w)
      as (w1 & -> & Hc & Ht & Hl & Hp & Hd).
    unfold modify, get.
    match goal with |- context [UI.display ?c ?n ?m ?f ?t ?x] =>
      destruct (display_state c n m f t x) as (w2 & -> & Hc2 & Ht2 & Hl2 & Hp2 & Hd2) end.
    cbn [snd UI.ui UI.flushTimer UI.lastFlushAt UI.pendingState UI.lastDisplayedState] in *.
    rewrite Hp2, Hd2, Ht2, Hl2. repeat split; assumption.
  - unfold UI.clear, bind, modify.
    match goal with |- context [UI.flushPendingUpdate _ ?c ?n ?x] =>
      destruct (flushPendingUpdate_state fmt c n x) as (w1 & -> & Hc & Ht & Hl & Hp & Hd) end.
    unfold UI.setPending, modify.
    cbn [snd UI.ui UI.flushTimer UI.lastFlushAt UI.pendingState UI.lastDisplayedState] in *.
    repeat split; assumption.
Qed.

(* ================================================================== *)
(** * Plugin: the calls made on the UI manager *)
(* ================================================================== *)

Lemma Rltb_false x y : UI.Rltb x y = false -> (y <= x)%R.
Proof. unfold UI.Rltb. destruct (Rlt_dec x y); [discriminate|]. intros _. lra. Qed.

Lemma Rltb_true x y : UI.Rltb x y = true -> (x < y)%R.
Proof. unfold UI.Rltb. destruct (Rlt_dec x y); [auto|discriminate]. Qed.

Lemma insertByRate_perm x l : Permutation (Plugin.insertByRate x l) (x :: l).
Proof.
  induction l as [|y rest IH]; cbn; [reflexivity|].
  destruct (UI.Rltb _ _); [|reflexivity].
  rewrite IH. apply perm_swap.
Qed.

Lemma insertByRate_sorted x l :
  StronglySorted fasterFirst l -> StronglySorted fasterFirst (Plugin.insertByRate x l).
Proof.
  induction 1 as [|y rest Hs IH Hall]; cbn.
  - constructor; constructor.
  - destruct (UI.Rltb _ _) eqn:E.
    + constructor; [exact IH|].
      apply Rltb_true in E.
      assert (Hp := insertByRate_perm x rest).
      apply Forall_forall. intros z Hz.
      apply (Permutation_in _ Hp) in Hz. destruct Hz as [<-|Hz].
      * unfold fasterFirst. lra.
      * rewrite Forall_forall in Hall. now apply Hall.
    + apply Rltb_false in E. constructor; [now constructor|].
      constructor; [exact E|].
      apply Forall_forall. intros z Hz. rewrite Forall_forall in Hall.
      specialize (Hall z Hz). unfold fasterFirst in *. lra.
Qed.

Lemma sortByRate_sorted l : StronglySorted fasterFirst (Plugin.sortByRate l).
Proof.
  induction l as [|x rest IH]; cbn; [constructor|]. now apply insertByRate_sorted.
Qed.

Lemma sortByRate_perm l : Permutation (Plugin.sortByRate l) l.
Proof.
  induction l as [|x rest IH]; cbn; [reflexivity|].
  rewrite insertByRate_perm. now constructor.
Qed.

(** X21. The agents of a display call are listed fastest first:
    [sortByRate] returns a rearrangement of its argument in descending
    order of [instantTps], and so [getAllActiveAgentsGlobally] returns a
    list in that order. *)
Theorem agents_listed_fastest_first :
  forall (config : Plugin.Config) (now : Z) (s : Plugin.State)
         (l : list Plugin.AgentDisplayState),
    StronglySorted fasterFirst (Plugin.sortByRate l)
    /\ Permutation (Plugin.sortByRate l) l
    /\ StronglySorted fasterFirst (Plugin.getAllActiveAgentsGlobally config now s).
Proof.
  intros config now s l. split; [apply sortByRate_sorted|].
  split; [apply sortByRate_perm|]. unfold Plugin.getAllActiveAgentsGlobally.
  apply sortByRate_sorted.
Qed.

Section PluginOutputs.

Import Plugin.
Variable config : Config.

Lemma displayCalls_shape g now ss s c :
  In c (displayCalls config g now ss s) ->
  match c with
  | UpdateDisplay i a t e agents =>
    (minVisibleTPS config <= i)%R \/ agentsOnlyCall c
  | _ => False
  end.
Proof.
  unfold displayCalls. cbv zeta.
  destruct g; destruct (isPrimarySessionActive config now s); cbn [andb];
    try destruct (Rleb _ _) eqn:E; try destruct (0 <? _) eqn:E0; cbn;
    intros H; repeat destruct H as [H|H]; try contradiction; subst c.
  all: try (left; unfold Rleb in E; destruct (Rle_dec _ _); [assumption|discriminate]).
  all: right; cbn; repeat split; try reflexivity;
    intros Hn; rewrite Hn in E0; discriminate.
Qed.

Lemma finalStatsCalls_shape info mt r c call :
  In call (finalStatsCalls info mt r c) ->
  match call with
  | ShowFinalStats t a e =>
    0 < t /\ Constants.MIN_TPS_ELAPSED_MS <= e /\ a = (IZR t / (IZR e / 1000))%R
    /\ hasValidFinish info = true
  | _ => False
  end.
Proof.
  unfold finalStatsCalls.
  destruct (completedAt info); [|intros []].
  destruct (info_time info); [|intros []].
  cbv zeta.
  match goal with |- context [hasValidFinish info && (0 <? ?t) && (_ <=? ?e)] =>
    destruct (hasValidFinish info) eqn:Ef; destruct (0 <? t) eqn:Et;
    destruct (Constants.MIN_TPS_ELAPSED_MS <=? e) eqn:Ee end;
    cbn [andb]; intros H; try contradiction.
  destruct H as [<-|[]]. unfold Constants.MIN_TPS_ELAPSED_MS in *.
  split; [lia|]. split; [lia|]. split; [|reflexivity].
  match goal with |- context [0 <? ?e] => destruct (0 <? e) eqn:E1 end; [reflexivity|lia].
Qed.

Lemma step_calls now e s c : In c (snd (step config now e s)) -> callOk config c.
Proof.
  destruct e as [part delta|info|sid| |sid]; cbn [step]; intros H.
  - unfold handleMessagePartUpdated in H.
    destruct part as [part|]; [|destruct H].
    destruct (negb (Constants.has _ _)); [destruct H|].
    destruct (resolveDelta _ _ _ _) as [d cache].
    destruct (negb (truthy d)); [destruct H|].
    destruct (negb (isAssistant _)); [destruct H|].
    unfold recordPart in H.
    destruct (getOrCreateSessionState config _ now _) as [s2 ss0].
    destruct (getOrCreateMessageTrackerState _ _ _ _ _ _ _) as [s3 mt].
    match type of H with context [Constants.MIN_TPS_ELAPSED_MS <=? ?e] =>
      destruct (Constants.MIN_TPS_ELAPSED_MS <=? e) end; cbn [snd] in H; [|destruct H].
    apply displayCalls_shape in H. destruct c; try contradiction. exact H.
  - unfold handleMessageUpdated in H. destruct info as [info|]; [|destruct H].
    destruct (info_role info); try (destruct H).
    destruct (getOrCreateMessageTrackerState _ _ _ _ _ _ _) as [s3 mt].
    destruct (completedAt info) eqn:E; cbn [snd] in H;
      apply finalStatsCalls_shape in H; destruct c; try contradiction; cbn; tauto.
  - unfold handleSessionIdle in H. cbv zeta in H.
    match type of H with context [if ?b then _ else _] => destruct b end;
      cbn in H; [|destruct H]. destruct H as [<-|[]]. exact I.
  - destruct H.
  - destruct (JsMap.has sid _); [|destruct H].
    unfold displayTimerCallback in H. cbv zeta in H.
    destruct (JsMap.get sid _) as [ss|]; [|destruct H].
    destruct (aggregateFirstTokenAt ss) as [f|]; [|destruct H].
    destruct (f =? 0); [destruct H|].
    destruct (_ <? _); [destruct H|]. cbn [snd] in H.
    apply displayCalls_shape in H. destruct c; try contradiction. exact H.
Qed.

Lemma run_calls events : forall s c, In c (snd (run config events s)) -> callOk config c.
Proof.
  induction events as [|[now e] rest IH]; intros s c H; [destruct H|].
  cbn [run] in H.
  pose proof (step_calls now e s) as Hs.
  destruct (step config now e s) as [s1 calls1].
  specialize (IH s1).
  destruct (run config rest s1) as [s2 calls2]. cbn [snd] in *.
  apply in_app_or in H. destruct H as [H|H]; [now apply Hs|now apply IH].
Qed.

End PluginOutputs.

(** X22. Final statistics are shown only when they mean something: every
    [showFinalStats] call the plugin makes, in any run of events from any
    state, carries a positive token total, an elapsed time of at least
    250 ms, and as its average the total over the elapsed seconds. *)
Theorem final_stats_only_when_meaningful :
  forall (config : Plugin.Config) (events : list (Z * Plugin.Event)) (s : Plugin.State)
         (totalTokens elapsedMs : Z) (avgTps : R),
    In (Plugin.ShowFinalStats totalTokens avgTps elapsedMs) (uiCallsOf config events s) ->
    0 < totalTokens
    /\ Constants.MIN_TPS_ELAPSED_MS <= elapsedMs
    /\ avgTps = (IZR totalTokens / (IZR elapsedMs / 1000))%R.
Proof.
  intros config events s t e a H. apply run_calls in H. exact H.
Qed.

(** X23. Every [updateDisplay] call the plugin makes, in any run of events
    from any state, either carries a smoothed rate that is not below
    [minVisibleTPS], or is the agents-only call: zero rates, zero total,
    zero elapsed time and a non-empty list of agents. *)
Theorem display_respects_min_visible :
  forall (config : Plugin.Config) (events : list (Z * Plugin.Event)) (s : Plugin.State)
         (instantTps avgTps : R) (totalTokens elapsedMs : Z)
         (agents : list Plugin.AgentDisplayState),
    In (Plugin.UpdateDisplay instantTps avgTps totalTokens elapsedMs agents)
       (uiCallsOf config events s) ->
    (Plugin.minVisibleTPS config <= instantTps)%R
    \/ (instantTps = 0%R /\ avgTps = 0%R /\ totalTokens = 0 /\ elapsedMs = 0
        /\ agents <> []).
Proof.
  intros config events s i a t e agents H. apply run_calls in H. exact H.
Qed.

Lemma final_stats_only_when_meaningful_witness :
  0 < 30 /\ Constants.MIN_TPS_ELAPSED_MS <= 3000
  /\ (IZR 30 / (IZR 3000 / 1000))%R = (IZR 30 / (IZR 3000 / 1000))%R.
Proof.
  apply (final_stats_only_when_meaningful defaultConfig
           [(5000, Plugin.MessageUpdated (Some completedInfo))] Plugin.initial
           30 3000 (IZR 30 / (IZR 3000 / 1000))%R).
  unfold uiCallsOf. lazy -[IZR Rdiv]. left. reflexivity.
Defined.

Lemma display_respects_min_visible_witness :
  exists agents : list Plugin.AgentDisplayState,
    (Plugin.minVisibleTPS defaultConfig <= 0)%R
    \/ (0%R = 0%R /\ 0%R = 0%R /\ 0 = 0 /\ 0 = 0 /\ agents <> []).
Proof.
  eexists.
  apply (display_respects_min_visible defaultConfig subagentStreams Plugin.initial
           0%R 0%R 0 0).
  unfold uiCallsOf.
  lazy -[IZR Rdiv Rmult Rplus Rminus Ropp Rinv exp ln Rmax Rmin Plugin.Rleb UI.Rltb].
  left. reflexivity.
Defined.

Section PluginCompletion.

Import Plugin.
Variable config : Config.

Lemma deleteWhere_Forall {V : Type} (p : string -> V -> bool) (m : JsMap.t V) :
  Forall (fun kv => p (fst kv) (snd kv) = false) (JsMap.deleteWhere p m).
Proof.
  unfold JsMap.deleteWhere. apply Forall_forall. intros kv H.
  apply filter_In in H. destruct H as [_ H]. now apply negb_true_iff in H.
Qed.

Lemma getOrCreateMessageTrackerState_session sid mid pid md now s :
  exists ss,
    JsMap.get sid (sessionTrackers (fst (getOrCreateMessageTrackerState config sid mid pid
                                           md now s))) = Some ss.
Proof.
  unfold getOrCreateMessageTrackerState.
  destruct (getOrCreateSessionState config sid now s) as [s1 ss]. cbv zeta. cbn [fst].
  unfold setSessionTrackers. cbn [sessionTrackers].
  eexists. apply JsMap_get_set_eq.
Qed.

Lemma removeMessageTrackerState_post sid mid now s ss0 :
  JsMap.get sid (sessionTrackers s) = Some ss0 ->
  exists ss,
    JsMap.get sid (sessionTrackers (removeMessageTrackerState sid mid now s)) = Some ss
    /\ Forall (fun kv => mt_messageId (snd kv) <> mid) (messageTrackers ss)
    /\ (messageTrackers ss = [] ->
        TrackerEwma.getTotalTokens (aggregate ss) = 0
        /\ TrackerEwma.getBufferSize (aggregate ss) = 0
        /\ aggregateFirstTokenAt ss = None).
Proof.
  intros H. unfold removeMessageTrackerState. rewrite H.
  unfold setSessionTrackers. cbn [sessionTrackers]. eexists.
  split; [apply JsMap_get_set_eq|].
  set (trackers := JsMap.deleteWhere _ _).
  assert (Hf : Forall (fun kv => mt_messageId (snd kv) <> mid) trackers).
  { pose proof (deleteWhere_Forall (fun (_ : string) st => String.eqb (mt_messageId st) mid)
                  (messageTrackers ss0)) as Hd.
    fold trackers in Hd. eapply Forall_impl; [|exact Hd].
    cbn. intros kv Hkv Heq. rewrite Heq, String.eqb_refl in Hkv. discriminate. }
  unfold resetIfEmpty, setMessageTrackers, setAggregate, JsMap.size.
  cbn [messageTrackers aggregate aggregateFirstTokenAt].
  destruct (Z.of_nat (List.length trackers) =? 0) eqn:E;
    cbn [messageTrackers aggregate aggregateFirstTokenAt].
  - split; [exact Hf|]. intros _. repeat split.
  - split; [exact Hf|]. intros Hn. rewrite Hn in E. discriminate.
Qed.

End PluginCompletion.

(** X24. When a [message.updated] event reports an assistant message as
    completed, no stream of that message is left in its session
    afterwards; and if the session is left without any stream, its
    aggregate tracker has been reset (total 0, empty buffer, no first-token
    time). *)
Theorem completed_message_leaves_no_stream :
  forall (config : Plugin.Config) (info : Plugin.MessageInfo) (now : Z) (s : Plugin.State),
    Plugin.info_role info = Plugin.assistant ->
    Plugin.completedAt info <> None ->
    exists ss,
      JsMap.get (Plugin.info_sessionID info)
                (Plugin.sessionTrackers
                   (fst (Plugin.handleMessageUpdated config (Some info) now s)))
      = Some ss
      /\ Forall (fun kv => Plugin.mt_messageId (snd kv) <> Plugin.info_id info)
                (Plugin.messageTrackers ss)
      /\ (Plugin.messageTrackers ss = [] ->
          TrackerEwma.getTotalTokens (Plugin.aggregate ss) = 0
          /\ TrackerEwma.getBufferSize (Plugin.aggregate ss) = 0
          /\ Plugin.aggregateFirstTokenAt ss = None).
Proof.
  intros config info now s Hr Hc. unfold Plugin.handleMessageUpdated. rewrite Hr.
  cbv zeta.
  match goal with |- context [Plugin.getOrCreateMessageTrackerState ?c ?a ?b ?p ?m ?n ?x] =>
    pose proof (getOrCreateMessageTrackerState_session c a b p m n x) as Hs;
    destruct (Plugin.getOrCreateMessageTrackerState c a b p m n x) as [s3 mt] end.
  cbn [fst] in Hs. destruct Hs as (ss0 & Hs).
  destruct (Plugin.completedAt info) as [c|]; [|congruence]. cbn [fst].
  apply removeMessageTrackerState_post with ss0. exact Hs.
Qed.

Lemma completed_message_leaves_no_stream_witness :
  exists ss,
    JsMap.get "ses_A"
              (Plugin.sessionTrackers
                 (fst (Plugin.handleMessageUpdated defaultConfig (Some completedInfo) 5000
                         sessionAStreaming)))
    = Some ss
    /\ Forall (fun kv => Plugin.mt_messageId (snd kv) <> "m1") (Plugin.messageTrackers ss)
    /\ (Plugin.messageTrackers ss = [] ->
        TrackerEwma.getTotalTokens (Plugin.aggregate ss) = 0
        /\ TrackerEwma.getBufferSize (Plugin.aggregate ss) = 0
        /\ Plugin.aggregateFirstTokenAt ss = None).
Proof.
  apply (completed_message_leaves_no_stream defaultConfig completedInfo 5000
           sessionAStreaming); [reflexivity|discriminate].
Defined.

(* ================================================================== *)
(** * Plugin: reachable states *)
(* ================================================================== *)

Lemma uniqueKeys_empty {V : Type} : uniqueKeys (@JsMap.empty V).
Proof. constructor. Qed.

Lemma keys_set_In {V : Type} k (v : V) m x :
  In x (JsMap.keys (JsMap.set k v m)) -> x = k \/ In x (JsMap.keys m).
Proof.
  induction m as [|[k' v'] rest IH]; cbn.
  - intros [H|[]]; auto.
  - destruct (String.eqb k k') eqn:E; cbn.
    + intros [H|H]; auto.
    + intros [H|H]; auto. destruct (IH H); auto.
Qed.

Lemma uniqueKeys_set {V : Type} k (v : V) m :
  uniqueKeys m -> uniqueKeys (JsMap.set k v m).
Proof.
  unfold uniqueKeys. induction m as [|[k' v'] rest IH]; cbn; intros H.
  - constructor; [intros []|constructor].
  - inversion H as [|? ? Hn Hr]; subst.
    destruct (String.eqb k k') eqn:E; cbn.
    + constructor; assumption.
    + constructor; [|now apply IH].
      intros Hin. apply keys_set_In in Hin. destruct Hin as [->|Hin]; [|contradiction].
      rewrite String.eqb_refl in E. discriminate.
Qed.

Lemma keys_delete_In {V : Type} k (m : JsMap.t V) x :
  In x (JsMap.keys (JsMap.delete k m)) -> In x (JsMap.keys m).
Proof.
  induction m as [|[k' v'] rest IH]; cbn; [auto|].
  destruct (String.eqb k k'); cbn; [auto|]. intros [H|H]; auto.
Qed.

Lemma uniqueKeys_delete {V : Type} k (m : JsMap.t V) :
  uniqueKeys m -> uniqueKeys (JsMap.delete k m).
Proof.
  unfold uniqueKeys. induction m as [|[k' v'] rest IH]; cbn; intros H; [constructor|].
  inversion H as [|? ? Hn Hr]; subst.
  destruct (String.eqb k k'); cbn; [assumption|].
  constructor; [|now apply IH]. intros Hin. now apply keys_delete_In in Hin.
Qed.

Lemma get_None_keys {V : Type} k (m : JsMap.t V) :
  ~ In k (JsMap.keys m) -> JsMap.get k m = None.
Proof.
  induction m as [|[k' v'] rest IH]; cbn; [reflexivity|]. intros H.
  destruct (String.eqb k k') eqn:E.
  - apply String.eqb_eq in E. subst. tauto.
  - apply IH. tauto.
Qed.

(** After [delete], the key is absent. *)
Lemma get_delete_eq {V : Type} k (m : JsMap.t V) :
  uniqueKeys m -> JsMap.get k (JsMap.delete k m) = None.
Proof.
  unfold uniqueKeys. induction m as [|[k' v'] rest IH]; cbn; intros H; [reflexivity|].
  inversion H as [|? ? Hn Hr]; subst.
  destruct (String.eqb k k') eqn:E; cbn.
  - apply String.eqb_eq in E. subst. now apply get_None_keys.
  - rewrite E. now apply IH.
Qed.

Lemma get_delete_ne {V : Type} k k' (m : JsMap.t V) :
  k <> k' -> JsMap.get k' (JsMap.delete k m) = JsMap.get k' m.
Proof.
  intros Hne. induction m as [|[k0 v0] rest IH]; cbn; [reflexivity|].
  destruct (String.eqb k k0) eqn:E; cbn.
  - apply String.eqb_eq in E. subst.
    destruct (String.eqb k' k0) eqn:E'; [|reflexivity].
    apply String.eqb_eq in E'. congruence.
  - destruct (String.eqb k' k0); [reflexivity|exact IH].
Qed.

Lemma innerUnique_set {V : Type} k (v : JsMap.t V) m :
  innerUnique m -> uniqueKeys v -> innerUnique (JsMap.set k v m).
Proof.
  unfold innerUnique. induction m as [|[k' v'] rest IH]; cbn; intros H Hv.
  - constructor; [exact Hv|constructor].
  - inversion H; subst. destruct (String.eqb k k'); constructor; auto.
Qed.

Lemma innerUnique_delete {V : Type} k (m : JsMap.t (JsMap.t V)) :
  innerUnique m -> innerUnique (JsMap.delete k m).
Proof.
  unfold innerUnique. induction m as [|[k' v'] rest IH]; cbn; intros H; [constructor|].
  inversion H; subst. destruct (String.eqb k k'); [assumption|]. constructor; auto.
Qed.

Lemma innerUnique_get {V : Type} k (m : JsMap.t (JsMap.t V)) v :
  innerUnique m -> JsMap.get k m = Some v -> uniqueKeys v.
Proof.
  unfold innerUnique. induction m as [|[k' v'] rest IH]; cbn; intros H Hg; [discriminate|].
  inversion H; subst. destruct (String.eqb k k'); [|auto].
  injection Hg as <-. assumption.
Qed.

Lemma uniqueKeys_updateInner {V : Type} sid f (m : JsMap.t (JsMap.t V)) :
  uniqueKeys m -> uniqueKeys (Plugin.updateInner sid f m).
Proof.
  intros H. unfold Plugin.updateInner. destruct (JsMap.get sid m); [|exact H].
  now apply uniqueKeys_set.
Qed.

Lemma innerUnique_updateInner {V : Type} sid f (m : JsMap.t (JsMap.t V)) :
  (forall c, uniqueKeys c -> uniqueKeys (f c)) ->
  innerUnique m -> innerUnique (Plugin.updateInner sid f m).
Proof.
  intros Hf H. unfold Plugin.updateInner. destruct (JsMap.get sid m) eqn:E; [|exact H].
  apply innerUnique_set; [exact H|]. apply Hf. eapply innerUnique_get; eauto.
Qed.

Lemma innerUnique_updateInner_delete {V : Type} sid k (m : JsMap.t (JsMap.t V)) :
  innerUnique m -> innerUnique (Plugin.updateInner sid (JsMap.delete k) m).
Proof.
  apply innerUnique_updateInner. intros c. apply uniqueKeys_delete.
Qed.

Create HintDb wf.
#[local] Hint Resolve uniqueKeys_empty uniqueKeys_set uniqueKeys_delete
  innerUnique_set innerUnique_delete uniqueKeys_updateInner
  innerUnique_updateInner_delete : wf.

Ltac wf_hyps :=
  repeat match goal with
         | H : WellFormed _ |- _ =>
           let A := fresh in let B := fresh in let C := fresh in let D := fresh in
           let E := fresh in let F := fresh in let G := fresh in
           destruct H as (A & B & C & D & E & F & G)
         end.

Ltac wf_split :=
  wf_hyps; unfold WellFormed;
  cbn [Plugin.sessionTrackers Plugin.partTextCache
    Plugin.messageTokenCache Plugin.messageRoleCache Plugin.sessionAgentNameCache
    Plugin.pendingDisplayTimers Plugin.setSessionTrackers Plugin.setPartTextCache
    Plugin.setMessageTokenCache Plugin.setMessageRoleCache
    Plugin.setSessionAgentNameCache Plugin.setPrimarySessionId
    Plugin.setPendingDisplayTimers Plugin.setLastCleanupTime] in *;
  repeat split; auto 6 with wf.

Section PluginWellFormed.

Import Plugin.
Variable config : Config.

Lemma wf_initial : WellFormed initial.
Proof. unfold initial. wf_split; constructor. Qed.

Lemma wf_getOrCreateSessionState sid now s :
  WellFormed s -> WellFormed (fst (getOrCreateSessionState config sid now s)).
Proof.
  intros H. unfold getOrCreateSessionState.
  destruct (JsMap.get sid _); cbn [fst]; [exact H|]. wf_split.
Qed.

Lemma wf_getOrCreateMessageTrackerState sid mid pid md now s :
  WellFormed s ->
  WellFormed (fst (getOrCreateMessageTrackerState config sid mid pid md now s)).
Proof.
  intros H. unfold getOrCreateMessageTrackerState.
  pose proof (wf_getOrCreateSessionState sid now s H) as H1.
  destruct (getOrCreateSessionState config sid now s) as [s1 ss]. cbn [fst] in *.
  cbv zeta. wf_split.
Qed.

Lemma wf_deleteStaleKey sid s key : WellFormed s -> WellFormed (deleteStaleKey sid s key).
Proof.
  intros H. unfold deleteStaleKey.
  destruct (JsMap.get sid _) as [ss|]; [|exact H].
  destruct (JsMap.get key _) as [mt|]; [|exact H]. cbv zeta. wf_split.
Qed.

Lemma wf_fold {A : Type} (f : State -> A -> State) l :
  (forall s a, WellFormed s -> WellFormed (f s a)) ->
  forall s, WellFormed s -> WellFormed (fold_left f l s).
Proof.
  intros Hf. induction l as [|a rest IH]; intros s H; [exact H|].
  cbn. apply IH. now apply Hf.
Qed.

Lemma wf_cleanupSession now s sid : WellFormed s -> WellFormed (cleanupSession now s sid).
Proof.
  intros H. unfold cleanupSession.
  destruct (JsMap.get sid _) as [ss|]; [|exact H]. cbv zeta.
  match goal with |- context [fold_left ?f ?l ?x] =>
    pose proof (wf_fold f l (wf_deleteStaleKey sid) x H) as H1;
    set (s1 := fold_left f l x) in * end.
  destruct (JsMap.get sid (sessionTrackers s1)); [|exact H1]. wf_split.
Qed.

Lemma wf_cleanupStaleMessages now s :
  WellFormed s -> WellFormed (cleanupStaleMessages now s).
Proof.
  intros H. unfold cleanupStaleMessages. destruct (_ <? _); [exact H|].
  apply wf_fold; [intros; now apply wf_cleanupSession|]. wf_split.
Qed.

Lemma wf_removeMessageTrackerState sid mid now s :
  WellFormed s -> WellFormed (removeMessageTrackerState sid mid now s).
Proof.
  intros H. unfold removeMessageTrackerState.
  destruct (JsMap.get sid _) as [ss|]; [|exact H]. cbv zeta. wf_split.
Qed.

Lemma wf_recordPart sid part delta now s :
  WellFormed s -> WellFormed (fst (recordPart config sid part delta now s)).
Proof.
  intros H. unfold recordPart.
  pose proof (wf_getOrCreateSessionState sid now s H) as H2.
  destruct (getOrCreateSessionState config sid now s) as [s2 ss0]. cbn [fst] in H2.
  match goal with |- context [getOrCreateMessageTrackerState ?c ?a ?b ?p ?m ?n ?x] =>
    pose proof (wf_getOrCreateMessageTrackerState a b p m n x H2) as H3;
    destruct (getOrCreateMessageTrackerState c a b p m n x) as [s3 mt] end.
  cbn [fst] in H3.
  pose proof (wf_cleanupStaleMessages now s3 H3) as H4.
  set (s4 := cleanupStaleMessages now s3) in *.
  cbv zeta.
  set (ss := match JsMap.get sid (sessionTrackers s4) with Some x => x | None => ss0 end).
  unfold clearDisplayTimer, scheduleDisplayTimer.
  repeat match goal with
         | |- context [if ?b then _ else _] =>
           lazymatch b with
           | context [if _ then _ else _] => fail
           | _ => destruct b
           end
         | |- context [match primarySessionId ?x with _ => _ end] =>
           destruct (primarySessionId x)
         end;
    cbn [fst andb]; wf_split.
Qed.

Lemma wf_setPartTextCache c s :
  WellFormed s -> uniqueKeys c -> WellFormed (setPartTextCache c s).
Proof. intros H Hc. wf_split. Qed.

Lemma uniqueKeys_resolveDelta sid part delta cache :
  uniqueKeys cache -> uniqueKeys (snd (resolveDelta sid part delta cache)).
Proof.
  intros H. unfold resolveDelta. cbv zeta.
  destruct (_ && _); cbn [snd]; [|exact H]. now apply uniqueKeys_set.
Qed.

Lemma wf_handleMessagePartUpdated part delta now s :
  WellFormed s -> WellFormed (fst (handleMessagePartUpdated config part delta now s)).
Proof.
  intros H. unfold handleMessagePartUpdated.
  destruct part as [part|]; [|exact H].
  destruct (negb (Constants.has _ _)); [exact H|]. cbv zeta.
  pose proof (uniqueKeys_resolveDelta (partSessionId part) part delta (partTextCache s)
                ltac:(destruct H as (_ & H & _); exact H)) as Hc.
  destruct (resolveDelta _ _ _ _) as [d c]. cbn [snd] in Hc.
  pose proof (wf_setPartTextCache c s H Hc) as H1.
  destruct (negb (truthy d)); [exact H1|].
  destruct (negb (isAssistant _)); [exact H1|].
  now apply wf_recordPart.
Qed.

Lemma wf_handleMessageUpdated info now s :
  WellFormed s -> WellFormed (fst (handleMessageUpdated config info now s)).
Proof.
  intros H. unfold handleMessageUpdated. destruct info as [info|]; [|exact H].
  cbv zeta.
  set (roleCache := match JsMap.get (info_sessionID info) (messageRoleCache s) with
                    | Some c => c | None => JsMap.empty end).
  assert (Hrc : uniqueKeys roleCache).
  { unfold roleCache. destruct (JsMap.get _ _) eqn:E; [|constructor].
    destruct H as (_ & _ & _ & _ & Hi & _). eapply innerUnique_get; eauto. }
  set (s1 := setMessageRoleCache _ s).
  assert (H1 : WellFormed s1) by (unfold s1; wf_split).
  set (s2 := match info_agent info with
             | Some (AgentString name) => _
             | _ => s1 end).
  assert (H2 : WellFormed s2).
  { unfold s2. destruct (info_agent info) as [[a|name]|]; try exact H1.
    destruct (String.eqb name ""); [exact H1|]. wf_split. }
  destruct (info_role info); try exact H2.
  match goal with |- context [getOrCreateMessageTrackerState ?c ?a ?b ?p ?m ?n ?x] =>
    assert (Hx : WellFormed x) by wf_split;
    pose proof (wf_getOrCreateMessageTrackerState a b p m n x Hx) as H3;
    destruct (getOrCreateMessageTrackerState c a b p m n x) as [s3 mt] end.
  cbn [fst] in H3.
  destruct (completedAt info); cbn [fst].
  - apply wf_removeMessageTrackerState. wf_split.
  - wf_split.
Qed.

Lemma wf_displayTimerCallback sid now s :
  WellFormed s -> WellFormed (fst (displayTimerCallback config sid now s)).
Proof.
  intros H. unfold displayTimerCallback. cbv zeta.
  destruct (JsMap.get sid _) as [ss|]; [|cbn [fst]; wf_split].
  destruct (aggregateFirstTokenAt ss) as [f|]; [|cbn [fst]; wf_split].
  destruct (f =? 0); [cbn [fst]; wf_split|].
  destruct (_ <? _); cbn [fst]; wf_split.
Qed.

Lemma wf_handleSessionIdle sid s :
  WellFormed s -> WellFormed (fst (handleSessionIdle sid s)).
Proof.
  intros H. unfold handleSessionIdle, clearDisplayTimer, cleanup. cbv zeta.
  match goal with |- context [if ?b then _ else _] => destruct b end; cbn [fst];
    wf_split; constructor.
Qed.

Lemma wf_step now e s : WellFormed s -> WellFormed (fst (step config now e s)).
Proof.
  intros H. destruct e as [part delta|info|sid| |sid]; cbn [step].
  - now apply wf_handleMessagePartUpdated.
  - now apply wf_handleMessageUpdated.
  - now apply wf_handleSessionIdle.
  - exact H.
  - destruct (JsMap.has sid _); [|exact H]. now apply wf_displayTimerCallback.
Qed.

Lemma wf_run events : forall s, WellFormed s -> WellFormed (fst (run config events s)).
Proof.
  induction events as [|[now e] rest IH]; intros s H; [exact H|].
  cbn [run].
  pose proof (wf_step now e s H) as H1.
  destruct (step config now e s) as [s1 calls1]. cbn [fst] in H1.
  specialize (IH s1 H1). destruct (run config rest s1) as [s2 calls2]. exact IH.
Qed.

End PluginWellFormed.

Lemma wf_stateAfter config events : WellFormed (stateAfter config events).
Proof. apply wf_run. apply wf_initial. Qed.

(** X25. In any state the plugin can reach, [session.idle] forgets the
    session: afterwards the plugin holds no trackers, no part texts, no
    token counts, no roles, no agent name and no display timer for it.
    The trackers of the other sessions are as they were, as long as at
    least one session remains tracked. *)
Theorem idle_session_is_forgotten :
  forall (config : Plugin.Config) (events : list (Z * Plugin.Event))
         (sessionID : option string),
    let s := stateAfter config events in
    let sessionId := Plugin.orDefault sessionID "default" in
    let s' := fst (Plugin.handleSessionIdle sessionID s) in
    forgotten sessionId s'
    /\ (forall other : string,
          other <> sessionId ->
          Plugin.sessionTrackers s' <> JsMap.empty ->
          JsMap.get other (Plugin.sessionTrackers s')
          = JsMap.get other (Plugin.sessionTrackers s)).
Proof.
  intros config events sessionID s sessionId s'.
  pose proof (wf_stateAfter config events) as H. fold s in H.
  destruct H as (H1 & H2 & H3 & H4 & H5 & H6 & H7).
  unfold s', Plugin.handleSessionIdle, Plugin.clearDisplayTimer, Plugin.cleanup.
  cbv zeta. fold sessionId.
  cbn [Plugin.sessionTrackers Plugin.partTextCache Plugin.messageTokenCache
       Plugin.messageRoleCache Plugin.sessionAgentNameCache Plugin.pendingDisplayTimers
       Plugin.setPendingDisplayTimers Plugin.primarySessionId Plugin.lastCleanupTime].
  destruct (JsMap.size (JsMap.delete sessionId (Plugin.sessionTrackers s)) =? 0) eqn:E;
    cbn [fst Plugin.sessionTrackers Plugin.partTextCache Plugin.messageTokenCache
         Plugin.messageRoleCache Plugin.sessionAgentNameCache Plugin.pendingDisplayTimers].
  - split; [repeat split|]. intros other _ Hne. now destruct Hne.
  - split.
    + unfold forgotten.
      cbn [Plugin.sessionTrackers Plugin.partTextCache Plugin.messageTokenCache
           Plugin.messageRoleCache Plugin.sessionAgentNameCache
           Plugin.pendingDisplayTimers].
      repeat split; now apply get_delete_eq.
    + intros other Hne _. apply get_delete_ne. congruence.
Qed.

Section PluginLateParts.

Import Plugin.
Variable config : Config.

Lemma roles_getOrCreateMessageTrackerState sid mid pid md now s :
  messageRoleCache (fst (getOrCreateMessageTrackerState config sid mid pid md now s))
  = messageRoleCache s.
Proof.
  unfold getOrCreateMessageTrackerState, getOrCreateSessionState.
  destruct (JsMap.get sid (sessionTrackers s)); reflexivity.
Qed.

Lemma roles_removeMessageTrackerState sid mid now s :
  messageRoleCache (removeMessageTrackerState sid mid now s) = messageRoleCache s.
Proof.
  unfold removeMessageTrackerState. destruct (JsMap.get sid _); reflexivity.
Qed.

(** Once an assistant message is completed, its role is no longer cached. *)
Lemma completed_role_forgotten info now s :
  WellFormed s ->
  info_role info = assistant ->
  completedAt info <> None ->
  cachedRole (info_sessionID info) (info_id info)
             (fst (handleMessageUpdated config (Some info) now s)) = None.
Proof.
  intros H Hr Hc. unfold handleMessageUpdated. rewrite Hr. cbv zeta.
  set (roleCache := match JsMap.get (info_sessionID info) (messageRoleCache s) with
                    | Some c => c | None => JsMap.empty end).
  assert (Hrc : uniqueKeys roleCache).
  { unfold roleCache. destruct (JsMap.get _ _) eqn:E; [|constructor].
    destruct H as (_ & _ & _ & _ & Hi & _). eapply innerUnique_get; eauto. }
  match goal with |- context [getOrCreateMessageTrackerState ?c ?a ?b ?p ?m ?n ?x] =>
    pose proof (roles_getOrCreateMessageTrackerState a b p m n x) as Hroles;
    destruct (getOrCreateMessageTrackerState c a b p m n x) as [s3 mt] end.
  cbn [fst] in Hroles.
  destruct (completedAt info) as [c|]; [|congruence]. cbn [fst].
  unfold cachedRole. rewrite roles_removeMessageTrackerState.
  cbn [messageRoleCache setMessageRoleCache setMessageTokenCache setPartTextCache].
  rewrite Hroles.
  assert (Hfin : forall m : JsMap.t (JsMap.t Role),
             match JsMap.get (info_sessionID info)
                     (updateInner (info_sessionID info) (JsMap.delete (info_id info))
                        (JsMap.set (info_sessionID info)
                           (JsMap.set (info_id info) assistant roleCache) m)) with
             | Some c => JsMap.get (info_id info) c
             | None => None
             end = None).
  { intros m. unfold updateInner. rewrite JsMap_get_set_eq, JsMap_get_set_eq.
    apply get_delete_eq. now apply uniqueKeys_set. }
  destruct (info_agent info) as [[a|name]|]; try apply Hfin.
  destruct (String.eqb name ""); apply Hfin.
Qed.

End PluginLateParts.

Section PluginClosedMessages.

Import Plugin.
Variable config : Config.
Variables sid mid : string.

Lemma closed_same_roles s s' :
  messageRoleCache s' = messageRoleCache s ->
  closedMessage sid mid s -> closedMessage sid mid s'.
Proof. unfold closedMessage, cachedRole. now intros ->. Qed.

(** Deleting a role from a session's cache opens no message. *)
Lemma closed_delete_role sid' mid' s :
  innerUnique (messageRoleCache s) ->
  closedMessage sid mid s ->
  closedMessage sid mid
    (setMessageRoleCache (updateInner sid' (JsMap.delete mid') (messageRoleCache s)) s).
Proof.
  intros Hi. unfold closedMessage, cachedRole, updateInner.
  cbn [messageRoleCache setMessageRoleCache].
  destruct (JsMap.get sid' (messageRoleCache s)) as [inner|] eqn:E; [|exact (fun H => H)].
  destruct (String.eqb sid sid') eqn:Es.
  - apply String.eqb_eq in Es. subst sid'. rewrite JsMap_get_set_eq, E.
    destruct (String.eqb mid' mid) eqn:Em.
    + apply String.eqb_eq in Em. subst mid'. intros _.
      rewrite get_delete_eq; [reflexivity|]. eapply innerUnique_get; eauto.
    + apply String.eqb_neq in Em. now rewrite get_delete_ne.
  - apply String.eqb_neq in Es. now rewrite JsMap_get_set_ne.
Qed.

Lemma closed_deleteStaleKey sid' s key :
  WellFormed s -> closedMessage sid mid s ->
  closedMessage sid mid (deleteStaleKey sid' s key).
Proof.
  intros H Hc. unfold deleteStaleKey.
  destruct (JsMap.get sid' _) as [ss|]; [|exact Hc].
  destruct (JsMap.get key _) as [mt|]; [|exact Hc]. cbv zeta.
  match goal with |- closedMessage _ _ (setPartTextCache _ (setMessageRoleCache ?m ?x)) =>
    apply (closed_same_roles (setMessageRoleCache m x)); [reflexivity|] end.
  match goal with |- closedMessage _ _ (setMessageRoleCache (updateInner ?a ?f (messageRoleCache ?x)) ?x) =>
    apply (closed_delete_role a (mt_messageId mt) x) end.
  - destruct H as (_ & _ & _ & _ & Hi & _). exact Hi.
  - revert Hc. apply closed_same_roles. reflexivity.
Qed.

Lemma closed_fold {A : Type} (f : State -> A -> State) l :
  (forall s a, WellFormed s -> WellFormed (f s a)) ->
  (forall s a, WellFormed s -> closedMessage sid mid s -> closedMessage sid mid (f s a)) ->
  forall s, WellFormed s -> closedMessage sid mid s ->
            closedMessage sid mid (fold_left f l s).
Proof.
  intros Hw Hf. induction l as [|a rest IH]; intros s H Hc; [exact Hc|].
  cbn. apply IH; [now apply Hw|now apply Hf].
Qed.

Lemma closed_cleanupSession now s sid' :
  WellFormed s -> closedMessage sid mid s ->
  closedMessage sid mid (cleanupSession now s sid').
Proof.
  intros H Hc. unfold cleanupSession.
  destruct (JsMap.get sid' _) as [ss|]; [|exact Hc]. cbv zeta.
  match goal with |- context [fold_left ?f ?l ?x] =>
    pose proof (closed_fold f l (wf_deleteStaleKey sid')
                  (closed_deleteStaleKey sid') x H Hc) as H1;
    set (s1 := fold_left f l x) in * end.
  destruct (JsMap.get sid' (sessionTrackers s1)); [|exact H1].
  revert H1. apply closed_same_roles. reflexivity.
Qed.

Lemma closed_cleanupStaleMessages now s :
  WellFormed s -> closedMessage sid mid s ->
  closedMessage sid mid (cleanupStaleMessages now s).
Proof.
  intros H Hc. unfold cleanupStaleMessages. destruct (_ <? _); [exact Hc|].
  apply closed_fold.
  - intros; now apply wf_cleanupSession.
  - intros; now apply closed_cleanupSession.
  - revert H. clear. intros H. wf_split.
  - revert Hc. apply closed_same_roles. reflexivity.
Qed.

Lemma roles_getOrCreateSessionState sid' now s :
  messageRoleCache (fst (getOrCreateSessionState config sid' now s)) = messageRoleCache s.
Proof.
  unfold getOrCreateSessionState. destruct (JsMap.get sid' (sessionTrackers s)); reflexivity.
Qed.

Lemma closed_recordPart sid' part delta now s :
  WellFormed s -> closedMessage sid mid s ->
  closedMessage sid mid (fst (recordPart config sid' part delta now s)).
Proof.
  intros H Hc. unfold recordPart.
  pose proof (wf_getOrCreateSessionState config sid' now s H) as H2.
  pose proof (roles_getOrCreateSessionState sid' now s) as R2.
  destruct (getOrCreateSessionState config sid' now s) as [s2 ss0]. cbn [fst] in H2, R2.
  match goal with |- context [getOrCreateMessageTrackerState ?c ?a ?b ?p ?m ?n ?x] =>
    pose proof (wf_getOrCreateMessageTrackerState c a b p m n x H2) as H3;
    pose proof (roles_getOrCreateMessageTrackerState c a b p m n x) as R3;
    destruct (getOrCreateMessageTrackerState c a b p m n x) as [s3 mt] end.
  cbn [fst] in H3, R3.
  assert (Hc3 : closedMessage sid mid s3)
    by (revert Hc; apply closed_same_roles; congruence).
  pose proof (closed_cleanupStaleMessages now s3 H3 Hc3) as Hc4.
  set (s4 := cleanupStaleMessages now s3) in *.
  cbv zeta.
  set (ss := match JsMap.get sid' (sessionTrackers s4) with Some x => x | None => ss0 end).
  unfold clearDisplayTimer, scheduleDisplayTimer.
  repeat match goal with
         | |- context [if ?b then _ else _] =>
           lazymatch b with
           | context [if _ then _ else _] => fail
           | _ => destruct b
           end
         | |- context [match primarySessionId ?x with _ => _ end] =>
           destruct (primarySessionId x)
         end;
    cbn [fst andb]; (revert Hc4; apply closed_same_roles; reflexivity).
Qed.

Lemma closed_handleMessagePartUpdated part delta now s :
  WellFormed s -> closedMessage sid mid s ->
  closedMessage sid mid (fst (handleMessagePartUpdated config part delta now s)).
Proof.
  intros H Hc. unfold handleMessagePartUpdated.
  destruct part as [part|]; [|exact Hc].
  destruct (negb (Constants.has _ _)); [exact Hc|]. cbv zeta.
  pose proof (uniqueKeys_resolveDelta (partSessionId part) part delta (partTextCache s)
                ltac:(destruct H as (_ & H & _); exact H)) as Hu.
  destruct (resolveDelta _ _ _ _) as [d c]. cbn [snd] in Hu.
  pose proof (wf_setPartTextCache c s H Hu) as H1.
  assert (Hc1 : closedMessage sid mid (setPartTextCache c s))
    by (revert Hc; apply closed_same_roles; reflexivity).
  destruct (negb (truthy d)); [exact Hc1|].
  destruct (negb (isAssistant _)); [exact Hc1|].
  now apply closed_recordPart.
Qed.

(** The role cache after [message.updated]. *)
Lemma roles_handleMessageUpdated info now s :
  messageRoleCache (fst (handleMessageUpdated config (Some info) now s))
  = let cached :=
      JsMap.set (info_sessionID info)
        (JsMap.set (info_id info) (info_role info)
           match JsMap.get (info_sessionID info) (messageRoleCache s) with
           | Some c => c
           | None => JsMap.empty
           end)
        (messageRoleCache s) in
    if isAssistant (Some (info_role info))
       && match completedAt info with Some _ => true | None => false end
    then updateInner (info_sessionID info) (JsMap.delete (info_id info)) cached
    else cached.
Proof.
  unfold handleMessageUpdated. cbv zeta.
  set (roleCache := match JsMap.get (info_sessionID info) (messageRoleCache s) with
                    | Some c => c | None => JsMap.empty end).
  set (s1 := setMessageRoleCache _ s).
  set (s2 := match info_agent info with
             | Some (AgentString name) => _
             | _ => s1 end).
  assert (R2 : messageRoleCache s2 = messageRoleCache s1).
  { unfold s2. destruct (info_agent info) as [[a|name]|]; try reflexivity.
    destruct (String.eqb name ""); reflexivity. }
  destruct (info_role info); cbn [isAssistant andb fst]; try exact R2.
  match goal with |- context [getOrCreateMessageTrackerState ?c ?a ?b ?p ?m ?n ?x] =>
    pose proof (roles_getOrCreateMessageTrackerState c a b p m n x) as R3;
    destruct (getOrCreateMessageTrackerState c a b p m n x) as [s3 mt] end.
  cbn [fst messageRoleCache setMessageTokenCache] in R3.
  destruct (completedAt info); cbn [fst].
  - rewrite roles_removeMessageTrackerState.
    cbn [messageRoleCache setMessageRoleCache setMessageTokenCache setPartTextCache].
    rewrite R3, R2. reflexivity.
  - cbn [messageRoleCache setMessageRoleCache setMessageTokenCache setPartTextCache].
    rewrite R3, R2. reflexivity.
Qed.

Lemma closed_handleMessageUpdated info now s :
  WellFormed s ->
  reopens sid mid (now, MessageUpdated info) = false ->
  closedMessage sid mid s ->
  closedMessage sid mid (fst (handleMessageUpdated config info now s)).
Proof.
  intros H Hre Hc. destruct info as [info|]; [|exact Hc].
  unfold reopens in Hre. cbn [snd] in Hre.
  destruct H as (_ & _ & _ & Hu & Hi & _).
  set (roleCache := match JsMap.get (info_sessionID info) (messageRoleCache s) with
                    | Some c => c | None => JsMap.empty end).
  assert (Hrc : uniqueKeys roleCache).
  { unfold roleCache. destruct (JsMap.get _ _) eqn:E; [|constructor].
    eapply innerUnique_get; eauto. }
  set (cached := JsMap.set (info_sessionID info)
                   (JsMap.set (info_id info) (info_role info) roleCache)
                   (messageRoleCache s)).
  assert (Hset : (info_sessionID info = sid /\ info_id info = mid
                  /\ isAssistant (Some (info_role info)) = true
                  /\ completedAt info <> None)
                 \/ closedMessage sid mid (setMessageRoleCache cached s)).
  { unfold closedMessage, cachedRole in *. cbn [messageRoleCache setMessageRoleCache].
    unfold cached.
    destruct (String.eqb (info_sessionID info) sid) eqn:Es.
    - apply String.eqb_eq in Es. rewrite <- Es in *. rewrite JsMap_get_set_eq.
      destruct (String.eqb (info_id info) mid) eqn:Em.
      + apply String.eqb_eq in Em. rewrite <- Em in *. rewrite JsMap_get_set_eq.
        cbn [andb] in Hre.
        destruct (isAssistant (Some (info_role info))) eqn:Ea; [left|right; reflexivity].
        repeat split; try reflexivity.
        destruct (completedAt info); [discriminate|cbn in Hre; discriminate Hre].
      + right. apply String.eqb_neq in Em.
        rewrite JsMap_get_set_ne by congruence.
        unfold roleCache. destruct (JsMap.get (info_sessionID info) (messageRoleCache s));
          [exact Hc|reflexivity].
    - right. apply String.eqb_neq in Es. rewrite JsMap_get_set_ne by congruence. exact Hc. }
  assert (Hci : innerUnique cached)
    by (unfold cached; apply innerUnique_set; [exact Hi|now apply uniqueKeys_set]).
  unfold closedMessage, cachedRole. rewrite roles_handleMessageUpdated. cbv zeta.
  fold roleCache. fold cached.
  destruct Hset as [(Hs & Hm & Ha & Hco) | Hcl].
  - rewrite Ha. destruct (completedAt info); [|congruence]. cbn [andb].
    subst sid mid. unfold updateInner, cached. rewrite JsMap_get_set_eq, JsMap_get_set_eq.
    rewrite get_delete_eq; [reflexivity|now apply uniqueKeys_set].
  - destruct (isAssistant (Some (info_role info)) && _).
    + apply (closed_delete_role (info_sessionID info) (info_id info)
               (setMessageRoleCache cached s) Hci Hcl).
    + exact Hcl.
Qed.

Lemma closed_handleSessionIdle sid' s :
  WellFormed s -> closedMessage sid mid s ->
  closedMessage sid mid (fst (handleSessionIdle sid' s)).
Proof.
  intros H Hc. destruct H as (_ & _ & _ & Hu & _).
  unfold handleSessionIdle, clearDisplayTimer, cleanup. cbv zeta.
  match goal with |- context [if ?b then _ else _] => destruct b end; cbn [fst];
    [reflexivity|].
  unfold closedMessage, cachedRole in *.
  cbn [messageRoleCache setPendingDisplayTimers].
  destruct (String.eqb (orDefault sid' "default") sid) eqn:Es.
  - apply String.eqb_eq in Es. rewrite Es. now rewrite get_delete_eq.
  - apply String.eqb_neq in Es. now rewrite get_delete_ne.
Qed.

Lemma closed_displayTimerCallback sid' now s :
  closedMessage sid mid s ->
  closedMessage sid mid (fst (displayTimerCallback config sid' now s)).
Proof.
  intros Hc. unfold displayTimerCallback. cbv zeta.
  destruct (JsMap.get sid' _) as [ss|]; [|exact Hc].
  destruct (aggregateFirstTokenAt ss) as [f|]; [|exact Hc].
  destruct (f =? 0); [exact Hc|].
  destruct (_ <? _); exact Hc.
Qed.

Lemma closed_step now e s :
  WellFormed s ->
  reopens sid mid (now, e) = false ->
  closedMessage sid mid s ->
  closedMessage sid mid (fst (step config now e s)).
Proof.
  intros H Hre Hc. destruct e as [part delta|info|sid'| |sid']; cbn [step].
  - now apply closed_handleMessagePartUpdated.
  - now apply closed_handleMessageUpdated.
  - now apply closed_handleSessionIdle.
  - exact Hc.
  - destruct (JsMap.has sid' _); [|exact Hc]. now apply closed_displayTimerCallback.
Qed.

Lemma closed_run events : forall s,
  WellFormed s ->
  existsb (reopens sid mid) events = false ->
  closedMessage sid mid s ->
  closedMessage sid mid (fst (run config events s)).
Proof.
  induction events as [|[now e] rest IH]; intros s H Hre Hc; [exact Hc|].
  cbn [existsb] in Hre. apply orb_false_elim in Hre as [Hre1 Hre2].
  cbn [run].
  pose proof (wf_step config now e s H) as H1.
  pose proof (closed_step now e s H Hre1 Hc) as Hc1.
  destruct (step config now e s) as [s1 calls1]. cbn [fst] in H1, Hc1.
  specialize (IH s1 H1 Hre2 Hc1). destruct (run config rest s1) as [s2 calls2]. exact IH.
Qed.

End PluginClosedMessages.

(** X26. Parts that arrive after the completion of their message are not
    counted.  In any state the plugin can reach, once [message.updated]
    has reported an assistant message as completed, and whatever events
    follow, as long as no [message.updated] reports that message again as
    an assistant message without a completion time, a
    [message.part.updated] event for that message makes no UI call and
    leaves the trackers, the token counts, the primary session and the
    display timers as they are. *)
Theorem parts_after_completion_are_not_counted :
  forall (config : Plugin.Config) (events : list (Z * Plugin.Event))
         (info : Plugin.MessageInfo) (now : Z) (between : list (Z * Plugin.Event))
         (part : Plugin.Part) (delta : option string) (later : Z),
    Plugin.info_role info = Plugin.assistant ->
    Plugin.completedAt info <> None ->
    Plugin.partSessionId part = Plugin.info_sessionID info ->
    Plugin.part_messageID part = Plugin.info_id info ->
    existsb (reopens (Plugin.info_sessionID info) (Plugin.info_id info)) between = false ->
    let completed := fst (Plugin.handleMessageUpdated config (Some info) now
                            (stateAfter config events)) in
    let s := fst (Plugin.run config between completed) in
    let r := Plugin.handleMessagePartUpdated config (Some part) delta later s in
    snd r = []
    /\ Plugin.sessionTrackers (fst r) = Plugin.sessionTrackers s
    /\ Plugin.messageTokenCache (fst r) = Plugin.messageTokenCache s
    /\ Plugin.primarySessionId (fst r) = Plugin.primarySessionId s
    /\ Plugin.pendingDisplayTimers (fst r) = Plugin.pendingDisplayTimers s.
Proof.
  intros config events info now between part delta later Hr Hc Hs Hm Hb completed s r.
  assert (Hw : WellFormed completed)
    by (apply wf_handleMessageUpdated, wf_stateAfter).
  assert (Hclosed : closedMessage (Plugin.info_sessionID info) (Plugin.info_id info)
                      completed).
  { unfold closedMessage, completed.
    now rewrite (completed_role_forgotten config info now (stateAfter config events)
                   (wf_stateAfter config events) Hr Hc). }
  pose proof (closed_run config _ _ between completed Hw Hb Hclosed) as Hrole.
  fold s in Hrole. unfold closedMessage in Hrole.
  unfold r, Plugin.handleMessagePartUpdated.
  destruct (negb (Constants.has _ _)); [repeat split|]. cbv zeta.
  destruct (Plugin.resolveDelta _ _ _ _) as [d c].
  destruct (negb (Plugin.truthy d)); [repeat split|].
  rewrite cachedRole_setPartTextCache, Hs, Hm, Hrole. cbn. repeat split.
Qed.

Lemma parts_after_completion_are_not_counted_witness :
  snd (Plugin.handleMessagePartUpdated defaultConfig (Some grownPart) None 5100
         (fst (Plugin.run defaultConfig afterCompletion
                 (fst (Plugin.handleMessageUpdated defaultConfig (Some completedInfo) 5000
                         (stateAfter defaultConfig (firstn 2 twoSessions))))))) = [].
Proof.
  apply (parts_after_completion_are_not_counted defaultConfig (firstn 2 twoSessions)
           completedInfo 5000 afterCompletion grownPart None 5100);
    [reflexivity|discriminate|reflexivity|reflexivity|reflexivity].
Defined.

(* ================================================================== *)
(** * Plugin: the sweep of stale streams and token accounting *)
(* ================================================================== *)

Lemma Forall_values_set {V : Type} (Q : V -> Prop) k (v : V) m :
  Forall (fun kv => Q (snd kv)) m -> Q v -> Forall (fun kv => Q (snd kv)) (JsMap.set k v m).
Proof.
  induction m as [|[k' v'] rest IH]; cbn; intros H Hv.
  - constructor; [exact Hv|constructor].
  - inversion H; subst. destruct (String.eqb k k'); constructor; auto.
Qed.

Lemma Forall_values_delete {V : Type} (Q : V -> Prop) k (m : JsMap.t V) :
  Forall (fun kv => Q (snd kv)) m -> Forall (fun kv => Q (snd kv)) (JsMap.delete k m).
Proof.
  induction m as [|[k' v'] rest IH]; cbn; intros H; [constructor|].
  inversion H; subst. destruct (String.eqb k k'); [assumption|]. constructor; auto.
Qed.

Lemma Forall_values_get {V : Type} (Q : V -> Prop) k (m : JsMap.t V) v :
  Forall (fun kv => Q (snd kv)) m -> JsMap.get k m = Some v -> Q v.
Proof.
  induction m as [|[k' v'] rest IH]; cbn; intros H Hg; [discriminate|].
  inversion H; subst. destruct (String.eqb k k'); [|auto].
  injection Hg as <-. assumption.
Qed.

Lemma uniqueKeys_filter {V : Type} (p : string * V -> bool) (m : JsMap.t V) :
  uniqueKeys m -> uniqueKeys (filter p m).
Proof.
  unfold uniqueKeys, JsMap.keys. induction m as [|[k v] rest IH]; cbn; intros H; [constructor|].
  inversion H as [|? ? Hn Hr]; subst.
  destruct (p (k, v)); cbn; [|now apply IH].
  constructor; [|now apply IH]. intros Hin. apply Hn.
  apply in_map_iff in Hin. destruct Hin as (x & Hx & Hf).
  apply filter_In in Hf. apply in_map_iff. exists x. tauto.
Qed.

Lemma goodStreams_empty : goodStreams [].
Proof. split; constructor. Qed.

Lemma goodStreams_set key t m :
  goodStreams m -> Plugin.mt_key t = key -> goodStreams (JsMap.set key t m).
Proof.
  intros [Hu Hk] Ht. split; [now apply uniqueKeys_set|].
  clear Hu. induction m as [|[k' v'] rest IH]; cbn.
  - constructor; [exact Ht|constructor].
  - inversion Hk; subst. destruct (String.eqb (Plugin.mt_key t) k') eqn:E.
    + apply String.eqb_eq in E. constructor; assumption.
    + constructor; auto.
Qed.

Lemma goodStreams_delete key m : goodStreams m -> goodStreams (JsMap.delete key m).
Proof.
  intros [Hu Hk]. split; [now apply uniqueKeys_delete|].
  clear Hu. induction m as [|[k' v'] rest IH]; cbn; [constructor|].
  inversion Hk; subst. destruct (String.eqb key k'); [assumption|]. constructor; auto.
Qed.

Lemma goodStreams_filter p m : goodStreams m -> goodStreams (filter p m).
Proof.
  intros [Hu Hk]. split; [now apply uniqueKeys_filter|].
  apply Forall_forall. intros kv Hin. apply filter_In in Hin.
  rewrite Forall_forall in Hk. now apply Hk.
Qed.

Lemma goodStreams_get key m t :
  goodStreams m -> JsMap.get key m = Some t -> Plugin.mt_key t = key.
Proof.
  intros [_ Hk]. induction m as [|[k' v'] rest IH]; cbn; [discriminate|].
  inversion Hk; subst. destruct (String.eqb key k') eqn:E; [|auto].
  intros Hg. injection Hg as <-. apply String.eqb_eq in E. cbn in *. congruence.
Qed.

Lemma mergeMetadata_key md t0 : Plugin.mt_key (Plugin.mergeMetadata md t0) = Plugin.mt_key t0.
Proof.
  unfold Plugin.mergeMetadata.
  destruct (Plugin.agentTruthy _); destruct (Plugin.truthy (Plugin.meta_agentId md));
    destruct (Plugin.truthy (Plugin.meta_agentType md)); reflexivity.
Qed.

Section PluginStreams.

Import Plugin.
Variable config : Config.

Lemma su_set sid ss s :
  streamsUnique s -> goodStreams (messageTrackers ss) ->
  streamsUnique (setSessionTrackers (JsMap.set sid ss (sessionTrackers s)) s).
Proof.
  intros H Hs. unfold streamsUnique. cbn [sessionTrackers setSessionTrackers].
  now apply (Forall_values_set (fun x => goodStreams (messageTrackers x))).
Qed.

Lemma su_get sid ss s :
  streamsUnique s -> JsMap.get sid (sessionTrackers s) = Some ss ->
  goodStreams (messageTrackers ss).
Proof.
  intros H Hg.
  exact (Forall_values_get (fun x => goodStreams (messageTrackers x)) sid _ ss H Hg).
Qed.

Lemma su_same s s' :
  sessionTrackers s' = sessionTrackers s -> streamsUnique s -> streamsUnique s'.
Proof. unfold streamsUnique. now intros ->. Qed.

Lemma su_getOrCreateSessionState sid now s :
  streamsUnique s ->
  streamsUnique (fst (getOrCreateSessionState config sid now s))
  /\ goodStreams (messageTrackers (snd (getOrCreateSessionState config sid now s))).
Proof.
  intros H. unfold getOrCreateSessionState.
  destruct (JsMap.get sid _) as [ss|] eqn:E; cbn [fst snd].
  - split; [exact H|]. eapply su_get; eauto.
  - split; [|apply goodStreams_empty]. apply su_set; [exact H|apply goodStreams_empty].
Qed.

Lemma su_getOrCreateMessageTrackerState sid mid pid md now s :
  streamsUnique s ->
  streamsUnique (fst (getOrCreateMessageTrackerState config sid mid pid md now s)).
Proof.
  intros H. unfold getOrCreateMessageTrackerState.
  destruct (su_getOrCreateSessionState sid now s H) as [H1 H2].
  destruct (getOrCreateSessionState config sid now s) as [s1 ss]. cbn [fst snd] in *.
  cbv zeta. cbn [fst]. apply su_set; [exact H1|].
  cbn [messageTrackers setMessageTrackers]. apply goodStreams_set; [exact H2|].
  rewrite mergeMetadata_key.
  destruct (JsMap.get _ (messageTrackers ss)) as [t|] eqn:E; [|reflexivity].
  assert (Hk : mt_key t = buildTrackerKey sid mid pid md)
    by (eapply goodStreams_get; eauto).
  destruct (String.eqb (mt_label t) _); exact Hk.
Qed.

Lemma su_deleteStaleKey sid s key : streamsUnique s -> streamsUnique (deleteStaleKey sid s key).
Proof.
  intros H. unfold deleteStaleKey.
  destruct (JsMap.get sid _) as [ss|] eqn:E; [|exact H].
  destruct (JsMap.get key _) as [mt|]; [|exact H]. cbv zeta.
  unfold streamsUnique.
  cbn [sessionTrackers setPartTextCache setMessageRoleCache setMessageTokenCache
       setSessionTrackers].
  apply (Forall_values_set (fun x => goodStreams (messageTrackers x))); [exact H|].
  cbn [messageTrackers setMessageTrackers]. apply goodStreams_delete. eapply su_get; eauto.
Qed.

Lemma su_fold {A : Type} (f : State -> A -> State) l :
  (forall s a, streamsUnique s -> streamsUnique (f s a)) ->
  forall s, streamsUnique s -> streamsUnique (fold_left f l s).
Proof.
  intros Hf. induction l as [|a rest IH]; intros s H; [exact H|].
  cbn. apply IH. now apply Hf.
Qed.

Lemma resetIfEmpty_trackers now ss : messageTrackers (resetIfEmpty now ss) = messageTrackers ss.
Proof. unfold resetIfEmpty. destruct (_ =? 0); reflexivity. Qed.

Lemma su_cleanupSession now s sid : streamsUnique s -> streamsUnique (cleanupSession now s sid).
Proof.
  intros H. unfold cleanupSession.
  destruct (JsMap.get sid _) as [ss|]; [|exact H]. cbv zeta.
  match goal with |- context [fold_left ?f ?l ?x] =>
    pose proof (su_fold f l (su_deleteStaleKey sid) x H) as H1;
    set (s1 := fold_left f l x) in * end.
  destruct (JsMap.get sid (sessionTrackers s1)) as [ss1|] eqn:E; [|exact H1].
  apply su_set; [exact H1|]. rewrite resetIfEmpty_trackers. eapply su_get; eauto.
Qed.

Lemma su_cleanupStaleMessages now s :
  streamsUnique s -> streamsUnique (cleanupStaleMessages now s).
Proof.
  intros H. unfold cleanupStaleMessages. destruct (_ <? _); [exact H|].
  apply su_fold; [intros; now apply su_cleanupSession|]. exact H.
Qed.

Lemma su_removeMessageTrackerState sid mid now s :
  streamsUnique s -> streamsUnique (removeMessageTrackerState sid mid now s).
Proof.
  intros H. unfold removeMessageTrackerState.
  destruct (JsMap.get sid _) as [ss|] eqn:E; [|exact H]. cbv zeta.
  apply su_set; [exact H|]. rewrite resetIfEmpty_trackers.
  cbn [messageTrackers setMessageTrackers]. unfold JsMap.deleteWhere.
  apply goodStreams_filter. eapply su_get; eauto.
Qed.

Lemma su_recordPart sid part delta now s :
  streamsUnique s -> streamsUnique (fst (recordPart config sid part delta now s)).
Proof.
  intros H. unfold recordPart.
  destruct (su_getOrCreateSessionState sid now s H) as [H2 Hss0].
  destruct (getOrCreateSessionState config sid now s) as [s2 ss0]. cbn [fst snd] in *.
  match goal with |- context [getOrCreateMessageTrackerState ?c ?a ?b ?p ?m ?n ?x] =>
    pose proof (su_getOrCreateMessageTrackerState a b p m n x H2) as H3;
    destruct (getOrCreateMessageTrackerState c a b p m n x) as [s3 mt] end.
  cbn [fst] in H3.
  pose proof (su_cleanupStaleMessages now s3 H3) as H4.
  set (s4 := cleanupStaleMessages now s3) in *.
  cbv zeta.
  set (ss := match JsMap.get sid (sessionTrackers s4) with Some x => x | None => ss0 end).
  assert (Hss : goodStreams (messageTrackers ss)).
  { unfold ss. destruct (JsMap.get sid (sessionTrackers s4)) eqn:E; [|exact Hss0].
    eapply su_get; eauto. }
  set (trackers' := if JsMap.has (mt_key mt) (messageTrackers ss) then _ else _).
  assert (Ht : goodStreams trackers').
  { unfold trackers'. destruct (JsMap.has _ _); [|exact Hss].
    apply goodStreams_set; [exact Hss|reflexivity]. }
  clearbody trackers'.
  set (s5 := if truthyNum (aggregateFirstTokenAt ss) then s4
             else scheduleDisplayTimer sid now s4).
  assert (H5 : streamsUnique s5).
  { unfold s5. destruct (truthyNum _); [exact H4|]. exact H4. }
  clearbody s5.
  set (s6 := if _ && _ && _ then setPrimarySessionId (Some sid) s5 else s5).
  assert (H6 : streamsUnique s6).
  { unfold s6. destruct (_ && _ && _); exact H5. }
  clearbody s6.
  match goal with |- context [Constants.MIN_TPS_ELAPSED_MS <=? ?e] =>
    destruct (Constants.MIN_TPS_ELAPSED_MS <=? e) end; cbn [fst];
    unfold streamsUnique, clearDisplayTimer;
    cbn [sessionTrackers setPendingDisplayTimers setMessageTokenCache setSessionTrackers];
    (apply (Forall_values_set (fun x => goodStreams (messageTrackers x))); [exact H6|]);
    exact Ht.
Qed.

Lemma su_handleMessagePartUpdated part delta now s :
  streamsUnique s -> streamsUnique (fst (handleMessagePartUpdated config part delta now s)).
Proof.
  intros H. unfold handleMessagePartUpdated.
  destruct part as [part|]; [|exact H].
  destruct (negb (Constants.has _ _)); [exact H|]. cbv zeta.
  destruct (resolveDelta _ _ _ _) as [d c].
  destruct (negb (truthy d)); [exact H|].
  destruct (negb (isAssistant _)); [exact H|].
  apply su_recordPart. exact H.
Qed.

Lemma su_handleMessageUpdated info now s :
  streamsUnique s -> streamsUnique (fst (handleMessageUpdated config info now s)).
Proof.
  intros H. unfold handleMessageUpdated. destruct info as [info|]; [|exact H].
  cbv zeta.
  set (s1 := setMessageRoleCache _ s).
  assert (H1 : streamsUnique s1) by exact H.
  clearbody s1.
  set (s2 := match info_agent info with
             | Some (AgentString name) => _
             | _ => s1 end).
  assert (H2 : streamsUnique s2).
  { unfold s2. destruct (info_agent info) as [[a|name]|]; try exact H1.
    destruct (String.eqb name ""); exact H1. }
  clearbody s2.
  destruct (info_role info); try exact H2.
  match goal with |- context [getOrCreateMessageTrackerState ?c ?a ?b ?p ?m ?n ?x] =>
    assert (Hx : streamsUnique x) by exact H2;
    pose proof (su_getOrCreateMessageTrackerState a b p m n x Hx) as H3;
    destruct (getOrCreateMessageTrackerState c a b p m n x) as [s3 mt] end.
  cbn [fst] in H3.
  destruct (completedAt info); cbn [fst].
  - apply su_removeMessageTrackerState. exact H3.
  - exact H3.
Qed.

Lemma su_handleSessionIdle sid s :
  streamsUnique s -> streamsUnique (fst (handleSessionIdle sid s)).
Proof.
  intros H. unfold handleSessionIdle, clearDisplayTimer, cleanup. cbv zeta.
  match goal with |- context [if ?b then _ else _] => destruct b end; cbn [fst].
  - constructor.
  - unfold streamsUnique. cbn [sessionTrackers setPendingDisplayTimers].
    now apply (Forall_values_delete (fun x => goodStreams (messageTrackers x))).
Qed.

Lemma su_displayTimerCallback sid now s :
  streamsUnique s -> streamsUnique (fst (displayTimerCallback config sid now s)).
Proof.
  intros H. unfold displayTimerCallback. cbv zeta.
  destruct (JsMap.get sid _) as [ss|]; [|exact H].
  destruct (aggregateFirstTokenAt ss) as [f|]; [|exact H].
  destruct (f =? 0); [exact H|].
  destruct (_ <? _); exact H.
Qed.

Lemma su_step now e s : streamsUnique s -> streamsUnique (fst (step config now e s)).
Proof.
  intros H. destruct e as [part delta|info|sid| |sid]; cbn [step].
  - now apply su_handleMessagePartUpdated.
  - now apply su_handleMessageUpdated.
  - now apply su_handleSessionIdle.
  - exact H.
  - destruct (JsMap.has sid _); [|exact H]. now apply su_displayTimerCallback.
Qed.

Lemma su_run events : forall s, streamsUnique s -> streamsUnique (fst (run config events s)).
Proof.
  induction events as [|[now e] rest IH]; intros s H; [exact H|].
  cbn [run].
  pose proof (su_step now e s H) as H1.
  destruct (step config now e s) as [s1 calls1]. cbn [fst] in H1.
  specialize (IH s1 H1). destruct (run config rest s1) as [s2 calls2]. exact IH.
Qed.

Lemma su_stateAfter events : streamsUnique (stateAfter config events).
Proof. apply su_run. constructor. Qed.

End PluginStreams.

Lemma delete_absent {V : Type} k (m : JsMap.t V) : JsMap.get k m = None -> JsMap.delete k m = m.
Proof.
  induction m as [|[k' v'] rest IH]; cbn; [reflexivity|].
  destruct (String.eqb k k'); [discriminate|]. intros H. now rewrite IH.
Qed.

Lemma fold_delete_skip {V : Type} k (v : V) rest ks :
  ~ In k ks ->
  fold_left (fun acc key => JsMap.delete key acc) ks ((k, v) :: rest)
  = (k, v) :: fold_left (fun acc key => JsMap.delete key acc) ks rest.
Proof.
  revert rest. induction ks as [|k0 ks IH]; intros rest H; [reflexivity|].
  cbn [fold_left JsMap.delete].
  destruct (String.eqb k0 k) eqn:E.
  - apply String.eqb_eq in E. subst. exfalso. apply H. now left.
  - apply IH. intros Hin. apply H. now right.
Qed.

(** Deleting, key by key, the entries collected by a test leaves the
    entries that fail the test. *)
Lemma fold_delete_filter {V : Type} (p : string * V -> bool) (m : JsMap.t V) :
  uniqueKeys m ->
  fold_left (fun acc key => JsMap.delete key acc) (JsMap.keys (filter p m)) m
  = filter (fun kv => negb (p kv)) m.
Proof.
  unfold uniqueKeys, JsMap.keys. induction m as [|[k v] rest IH]; intros H; [reflexivity|].
  cbn [map fst] in H. inversion H as [|? ? Hn Hr]; subst.
  cbn [filter]. destruct (p (k, v)) eqn:E; cbn [negb map fst fold_left JsMap.delete].
  - rewrite String.eqb_refl. now apply IH.
  - rewrite fold_delete_skip.
    + f_equal. now apply IH.
    + intros Hin. apply Hn. apply in_map_iff in Hin. destruct Hin as (x & Hx & Hf).
      apply filter_In in Hf. apply in_map_iff. exists x. tauto.
Qed.

Section PluginSweep.

Import Plugin.

Lemma deleteStaleKey_session sid s key ss :
  JsMap.get sid (sessionTrackers s) = Some ss ->
  JsMap.get sid (sessionTrackers (deleteStaleKey sid s key))
  = Some (setMessageTrackers (JsMap.delete key (messageTrackers ss)) ss).
Proof.
  intros H. unfold deleteStaleKey. rewrite H.
  destruct (JsMap.get key (messageTrackers ss)) as [mt|] eqn:E.
  - cbv zeta. cbn [sessionTrackers setPartTextCache setMessageRoleCache
                   setMessageTokenCache setSessionTrackers].
    apply JsMap_get_set_eq.
  - rewrite H, (delete_absent _ _ E). now destruct ss.
Qed.

Lemma deleteStaleKey_other sid sid' s key :
  sid' <> sid ->
  JsMap.get sid' (sessionTrackers (deleteStaleKey sid s key))
  = JsMap.get sid' (sessionTrackers s).
Proof.
  intros Hne. unfold deleteStaleKey.
  destruct (JsMap.get sid (sessionTrackers s)) as [ss|]; [|reflexivity].
  destruct (JsMap.get key (messageTrackers ss)) as [mt|]; [|reflexivity].
  cbv zeta. cbn [sessionTrackers setPartTextCache setMessageRoleCache
                 setMessageTokenCache setSessionTrackers].
  now apply JsMap_get_set_ne.
Qed.

Lemma fold_deleteStaleKey_session sid ks : forall s ss,
  JsMap.get sid (sessionTrackers s) = Some ss ->
  JsMap.get sid (sessionTrackers (fold_left (deleteStaleKey sid) ks s))
  = Some (setMessageTrackers
            (fold_left (fun acc key => JsMap.delete key acc) ks (messageTrackers ss)) ss).
Proof.
  induction ks as [|k ks IH]; intros s ss H; cbn [fold_left].
  - rewrite H. now destruct ss.
  - rewrite (IH _ _ (deleteStaleKey_session sid s k ss H)). reflexivity.
Qed.

Lemma fold_deleteStaleKey_other sid sid' ks : forall s,
  sid' <> sid ->
  JsMap.get sid' (sessionTrackers (fold_left (deleteStaleKey sid) ks s))
  = JsMap.get sid' (sessionTrackers s).
Proof.
  induction ks as [|k ks IH]; intros s Hne; cbn [fold_left]; [reflexivity|].
  rewrite IH by exact Hne. now apply deleteStaleKey_other.
Qed.

(** The session after its sweep. *)
Lemma cleanupSession_session now s sid ss :
  uniqueKeys (messageTrackers ss) ->
  JsMap.get sid (sessionTrackers s) = Some ss ->
  JsMap.get sid (sessionTrackers (cleanupSession now s sid))
  = Some (resetIfEmpty now
            (setMessageTrackers (filter (fresh now) (messageTrackers ss)) ss)).
Proof.
  intros Hu H. unfold cleanupSession. rewrite H. cbv zeta.
  rewrite (fold_deleteStaleKey_session sid _ s ss H).
  cbn [sessionTrackers setSessionTrackers]. rewrite JsMap_get_set_eq.
  rewrite (fold_delete_filter (fun kv => isStale now (snd kv)) (messageTrackers ss) Hu).
  reflexivity.
Qed.

Lemma cleanupSession_other now s sid sid' :
  sid' <> sid ->
  JsMap.get sid' (sessionTrackers (cleanupSession now s sid))
  = JsMap.get sid' (sessionTrackers s).
Proof.
  intros Hne. unfold cleanupSession.
  destruct (JsMap.get sid (sessionTrackers s)) as [ss|]; [|reflexivity]. cbv zeta.
  match goal with |- context [fold_left ?f ?l ?x] =>
    pose proof (fold_deleteStaleKey_other sid sid' l x Hne) as Ho;
    set (s1 := fold_left f l x) in * end.
  destruct (JsMap.get sid (sessionTrackers s1)); [|exact Ho].
  cbn [sessionTrackers setSessionTrackers]. rewrite JsMap_get_set_ne by exact Hne. exact Ho.
Qed.

Lemma filter_fresh_twice now (m : JsMap.t MessageTrackerState) :
  filter (fresh now) (filter (fresh now) m) = filter (fresh now) m.
Proof.
  induction m as [|kv rest IH]; [reflexivity|]. cbn [filter].
  destruct (fresh now kv) eqn:E; [|exact IH]. cbn [filter]. rewrite E. now rewrite IH.
Qed.

Lemma resetIfEmpty_emptyMeansReset now ss : emptyMeansReset (resetIfEmpty now ss).
Proof.
  unfold emptyMeansReset, resetIfEmpty, JsMap.size.
  destruct (Z.of_nat (List.length (messageTrackers ss)) =? 0) eqn:E.
  - intros _. repeat split.
  - intros Hn. rewrite Hn in E. discriminate.
Qed.

Lemma sweep_sessions now l : forall s sid ss,
  streamsUnique s ->
  JsMap.get sid (sessionTrackers s) = Some ss ->
  exists ss',
    JsMap.get sid (sessionTrackers (fold_left (cleanupSession now) l s)) = Some ss'
    /\ messageTrackers ss'
       = (if existsb (String.eqb sid) l then filter (fresh now) (messageTrackers ss)
          else messageTrackers ss)
    /\ (existsb (String.eqb sid) l = true \/ emptyMeansReset ss -> emptyMeansReset ss').
Proof.
  induction l as [|k l IH]; intros s sid ss Hu H.
  - exists ss. cbn. split; [exact H|]. split; [reflexivity|]. intros [?|?]; [discriminate|auto].
  - cbn [fold_left existsb].
    pose proof (su_cleanupSession now s k Hu) as Hu1.
    destruct (String.eqb sid k) eqn:E.
    + apply String.eqb_eq in E. subst k.
      pose proof (cleanupSession_session now s sid ss (proj1 (su_get sid ss s Hu H)) H)
        as H1.
      destruct (IH _ _ _ Hu1 H1) as (ss' & Hg & Ht & Hr).
      exists ss'. split; [exact Hg|]. cbn [orb]. split.
      * rewrite Ht, resetIfEmpty_trackers. cbn [messageTrackers setMessageTrackers].
        destruct (existsb _ l); [apply filter_fresh_twice|reflexivity].
      * intros _. apply Hr. right. apply resetIfEmpty_emptyMeansReset.
    + assert (Hne : sid <> k) by (intros ->; rewrite String.eqb_refl in E; discriminate).
      pose proof (cleanupSession_other now s k sid Hne) as H1. rewrite H in H1.
      destruct (IH _ _ _ Hu1 H1) as (ss' & Hg & Ht & Hr).
      exists ss'. split; [exact Hg|]. cbn [orb]. split; [exact Ht|exact Hr].
Qed.

Lemma get_Some_keys {V : Type} k (m : JsMap.t V) v :
  JsMap.get k m = Some v -> existsb (String.eqb k) (JsMap.keys m) = true.
Proof.
  induction m as [|[k' v'] rest IH]; cbn; [discriminate|].
  destruct (String.eqb k k'); [reflexivity|]. exact IH.
Qed.

End PluginSweep.

(** X27. The sweep removes exactly the stale streams.  In any state the
    plugin can reach, when a sweep is due (30 s after the last one), every
    tracked session keeps, in order, its streams that are not stale (never
    updated, or updated within the last 5 minutes) and loses the others;
    a session left without streams has its aggregate tracker reset. *)
Theorem stale_streams_are_swept :
  forall (config : Plugin.Config) (events : list (Z * Plugin.Event)) (now : Z)
         (sessionId : string) (ss : Plugin.SessionTrackingState),
    let s := stateAfter config events in
    Constants.CLEANUP_INTERVAL_MS <= now - Plugin.lastCleanupTime s ->
    JsMap.get sessionId (Plugin.sessionTrackers s) = Some ss ->
    exists ss',
      JsMap.get sessionId (Plugin.sessionTrackers (Plugin.cleanupStaleMessages now s))
      = Some ss'
      /\ Plugin.messageTrackers ss' = filter (fresh now) (Plugin.messageTrackers ss)
      /\ Forall (fun kv => Plugin.isStale now (snd kv) = false) (Plugin.messageTrackers ss')
      /\ (Plugin.messageTrackers ss' = [] ->
          TrackerEwma.getTotalTokens (Plugin.aggregate ss') = 0
          /\ TrackerEwma.getBufferSize (Plugin.aggregate ss') = 0
          /\ Plugin.aggregateFirstTokenAt ss' = None).
Proof.
  intros config events now sid ss s Hdue Hg.
  unfold Plugin.cleanupStaleMessages.
  destruct (now - Plugin.lastCleanupTime s <? Constants.CLEANUP_INTERVAL_MS) eqn:E; [lia|].
  destruct (sweep_sessions now (JsMap.keys (Plugin.sessionTrackers s))
              (Plugin.setLastCleanupTime now s) sid ss
              (su_stateAfter config events) Hg) as (ss' & Hg' & Ht & Hr).
  rewrite (get_Some_keys _ _ _ Hg) in Ht, Hr.
  exists ss'. split; [exact Hg'|]. split; [exact Ht|]. split.
  - rewrite Ht. apply Forall_forall. intros kv Hin. apply filter_In in Hin.
    destruct Hin as [_ Hf]. unfold fresh in Hf. now apply negb_true_iff in Hf.
  - apply Hr. now left.
Qed.

Lemma stale_streams_are_swept_witness :
  exists ss',
    JsMap.get "ses_A"
      (Plugin.sessionTrackers
         (Plugin.cleanupStaleMessages 400000
            (stateAfter defaultConfig (firstn 2 twoSessions)))) = Some ss'
    /\ Plugin.messageTrackers ss'
       = filter (fresh 400000) (Plugin.messageTrackers sessionAState)
    /\ Forall (fun kv => Plugin.isStale 400000 (snd kv) = false)
              (Plugin.messageTrackers ss')
    /\ (Plugin.messageTrackers ss' = [] ->
        TrackerEwma.getTotalTokens (Plugin.aggregate ss') = 0
        /\ TrackerEwma.getBufferSize (Plugin.aggregate ss') = 0
        /\ Plugin.aggregateFirstTokenAt ss' = None).
Proof.
  apply (stale_streams_are_swept defaultConfig (firstn 2 twoSessions) 400000 "ses_A"
           sessionAState).
  - vm_compute. discriminate.
  - vm_compute. reflexivity.
Defined.

Section PluginAccounting.

Import Plugin.
Variable config : Config.

Lemma mergeMetadata_tracker md t0 : mt_tracker (mergeMetadata md t0) = mt_tracker t0.
Proof.
  unfold mergeMetadata.
  destruct (agentTruthy _); destruct (truthy (meta_agentId md));
    destruct (truthy (meta_agentType md)); reflexivity.
Qed.

(** The session and the stream that [getOrCreateMessageTrackerState] leaves
    in the registry. *)
Lemma getOrCreateMessageTrackerState_totals sid mid pid md now s :
  streamsUnique s ->
  let r := getOrCreateMessageTrackerState config sid mid pid md now s in
  let key := buildTrackerKey sid mid pid md in
  exists ss,
    JsMap.get sid (sessionTrackers (fst r)) = Some ss
    /\ TrackerEwma.getTotalTokens (aggregate ss) = aggregateTotal sid s
    /\ JsMap.get key (messageTrackers ss) = Some (snd r)
    /\ mt_key (snd r) = key
    /\ TrackerEwma.getTotalTokens (mt_tracker (snd r)) = streamTotal sid key s
    /\ lastCleanupTime (fst r) = lastCleanupTime s
    /\ messageTokenCache (fst r) = messageTokenCache s.
Proof.
  intros Hu. cbv zeta. unfold getOrCreateMessageTrackerState, getOrCreateSessionState,
    aggregateTotal, streamTotal.
  destruct (JsMap.get sid (sessionTrackers s)) as [ss|] eqn:E; cbv zeta; cbn [fst snd].
  - eexists. cbn [sessionTrackers setSessionTrackers].
    split; [apply JsMap_get_set_eq|]. cbn [aggregate setMessageTrackers messageTrackers].
    split; [reflexivity|]. split; [apply JsMap_get_set_eq|].
    rewrite mergeMetadata_key, mergeMetadata_tracker.
    destruct (JsMap.get _ (messageTrackers ss)) as [t|] eqn:Et.
    + assert (Hk : mt_key t = buildTrackerKey sid mid pid md).
      { eapply goodStreams_get; [|exact Et]. eapply su_get; eauto. }
      destruct (String.eqb (mt_label t) _); repeat split; exact Hk.
    + repeat split.
  - eexists. cbn [sessionTrackers setSessionTrackers].
    split; [apply JsMap_get_set_eq|]. cbn [aggregate setMessageTrackers messageTrackers].
    split; [reflexivity|]. split; [apply JsMap_get_set_eq|].
    rewrite mergeMetadata_key, mergeMetadata_tracker. repeat split.
Qed.

Lemma recordPart_totals sid part delta now s :
  streamsUnique s ->
  now - lastCleanupTime s < Constants.CLEANUP_INTERVAL_MS ->
  let s' := fst (recordPart config sid part delta now s) in
  let key := buildTrackerKey sid (part_messageID part) (Some (part_id part))
                             (partMetadata part) in
  aggregateTotal sid s' = aggregateTotal sid s + tokenizerCount config delta
  /\ streamTotal sid key s' = streamTotal sid key s + tokenizerCount config delta.
Proof.
  intros Hu Hsweep. cbv zeta. unfold recordPart.
  pose proof (su_getOrCreateSessionState config sid now s Hu) as [Hu2 _].
  assert (Hagg2 : aggregateTotal sid (fst (getOrCreateSessionState config sid now s))
                  = aggregateTotal sid s
                  /\ forall k, streamTotal sid k (fst (getOrCreateSessionState config sid now s))
                               = streamTotal sid k s).
  { unfold getOrCreateSessionState, aggregateTotal, streamTotal.
    destruct (JsMap.get sid (sessionTrackers s)) eqn:E; cbn [fst]; [now rewrite E|].
    cbn [sessionTrackers setSessionTrackers]. rewrite JsMap_get_set_eq. split; reflexivity. }
  pose proof (caches_getOrCreateSessionState config sid now s) as (_ & _ & A3).
  destruct (getOrCreateSessionState config sid now s) as [s2 ss0]. cbn [fst] in *.
  destruct Hagg2 as [Hagg2 Hstr2].
  destruct (getOrCreateMessageTrackerState_totals sid (part_messageID part)
              (Some (part_id part)) (partMetadata part) now s2 Hu2)
    as (ss & Hg & Hagg & Hgk & Hkey & Hstr & Hlc & _).
  destruct (getOrCreateMessageTrackerState config sid (part_messageID part)
              (Some (part_id part)) (partMetadata part) now s2) as [s3 mt].
  cbn [fst snd] in *.
  assert (Hc : cleanupStaleMessages now s3 = s3).
  { unfold cleanupStaleMessages. rewrite Hlc, A3.
    apply Z.ltb_lt in Hsweep. now rewrite Hsweep. }
  rewrite Hc, Hg.
  assert (Hhas : JsMap.has (mt_key mt) (messageTrackers ss) = true).
  { unfold JsMap.has. rewrite Hkey, Hgk. reflexivity. }
  rewrite Hhas.
  set (s5 := if truthyNum (aggregateFirstTokenAt ss) then s3
             else scheduleDisplayTimer sid now s3).
  clearbody s5.
  set (s6 := if _ && _ && _ then setPrimarySessionId (Some sid) s5 else s5).
  clearbody s6.
  match goal with |- context [Constants.MIN_TPS_ELAPSED_MS <=? ?e] =>
    destruct (Constants.MIN_TPS_ELAPSED_MS <=? e) end; cbn [fst];
    unfold aggregateTotal, streamTotal, clearDisplayTimer;
    cbn [sessionTrackers setPendingDisplayTimers setMessageTokenCache setSessionTrackers];
    rewrite !JsMap_get_set_eq; cbn [aggregate messageTrackers];
    rewrite Hkey, JsMap_get_set_eq; cbn [mt_tracker withActivity];
    rewrite !TrackerEwma_record_total;
    fold (aggregateTotal sid s) in Hagg2; fold (aggregateTotal sid s2) in Hagg;
    (split; [rewrite Hagg, Hagg2; reflexivity | rewrite Hstr, Hstr2; reflexivity]).
Qed.

End PluginAccounting.

(** X28. A counted chunk is added everywhere alike.  In any state the
    plugin can reach, with no sweep due, a countable part of an assistant
    message whose delta resolves to a non-empty text adds the tokenizer's
    count of that text to the total of the session's aggregate tracker, to
    the total of the part's stream, and to the tokens cached for the
    message. *)
Theorem counted_chunk_is_added_everywhere :
  forall (config : Plugin.Config) (events : list (Z * Plugin.Event))
         (part : Plugin.Part) (delta : option string) (now : Z) (d : string),
    let s := stateAfter config events in
    let sessionId := Plugin.partSessionId part in
    Constants.has Constants.COUNTABLE_PART_TYPES (Plugin.part_type part) = true ->
    Plugin.cachedRole sessionId (Plugin.part_messageID part) s = Some Plugin.assistant ->
    now - Plugin.lastCleanupTime s < Constants.CLEANUP_INTERVAL_MS ->
    fst (Plugin.resolveDelta sessionId part delta (Plugin.partTextCache s)) = Some d ->
    d <> "" ->
    let s' := fst (Plugin.handleMessagePartUpdated config (Some part) delta now s) in
    let n := Plugin.tokenizerCount config d in
    aggregateTotal sessionId s' = aggregateTotal sessionId s + n
    /\ streamTotal sessionId (partStreamKey part) s'
       = streamTotal sessionId (partStreamKey part) s + n
    /\ cachedTokens sessionId (Plugin.part_messageID part) s'
       = cachedTokens sessionId (Plugin.part_messageID part) s + n.
Proof.
  intros config events part delta now d s sid Hc Hr Hs Hd Hne s' n.
  split; [|split].
  3: { exact (proj1 (handler_counts_resolved_delta config part delta now s d Hc Hr Hs Hd Hne)). }
  all: unfold s', Plugin.handleMessagePartUpdated; rewrite Hc; cbn [negb];
    fold sid; destruct (Plugin.resolveDelta sid part delta (Plugin.partTextCache s))
      as [d' c]; cbn [fst snd] in *; subst d';
    assert (Ht : Plugin.truthy (Some d) = true)
      by (cbn; apply negb_true_iff, String.eqb_neq; exact Hne);
    rewrite Ht, cachedRole_setPartTextCache; fold sid; rewrite Hr;
    cbn [negb Plugin.isAssistant];
    assert (Ho : Plugin.orDefault (Some d) "" = d)
      by (unfold Plugin.orDefault; apply String.eqb_neq in Hne; now rewrite Hne);
    rewrite Ho;
    destruct (recordPart_totals config sid part d now (Plugin.setPartTextCache c s)
                (su_stateAfter config events) Hs) as [H1 H2].
  - exact H1.
  - exact H2.
Qed.

Lemma counted_chunk_is_added_everywhere_witness :
  aggregateTotal "ses_A"
    (fst (Plugin.handleMessagePartUpdated defaultConfig (Some grownPart) None 1500
            (stateAfter defaultConfig (firstn 2 twoSessions))))
  = aggregateTotal "ses_A" (stateAfter defaultConfig (firstn 2 twoSessions))
    + Plugin.tokenizerCount defaultConfig " world"
  /\ streamTotal "ses_A" (partStreamKey grownPart)
       (fst (Plugin.handleMessagePartUpdated defaultConfig (Some grownPart) None 1500
               (stateAfter defaultConfig (firstn 2 twoSessions))))
     = streamTotal "ses_A" (partStreamKey grownPart)
         (stateAfter defaultConfig (firstn 2 twoSessions))
       + Plugin.tokenizerCount defaultConfig " world"
  /\ cachedTokens "ses_A" "m1"
       (fst (Plugin.handleMessagePartUpdated defaultConfig (Some grownPart) None 1500
               (stateAfter defaultConfig (firstn 2 twoSessions))))
     = cachedTokens "ses_A" "m1" (stateAfter defaultConfig (firstn 2 twoSessions))
       + Plugin.tokenizerCount defaultConfig " world".
Proof.
  apply (counted_chunk_is_added_everywhere defaultConfig (firstn 2 twoSessions)
           grownPart None 1500 " world").
  - reflexivity.
  - vm_compute. reflexivity.
  - vm_compute. reflexivity.
  - vm_compute. reflexivity.
  - discriminate.
Defined.

(* ================================================================== *)
(** * Unusable configuration files; the agents that are listed *)
(* ================================================================== *)

Lemma unusableFile_loadConfigFile existsSync readFileSync jsonParse filePath :
  unusableFile existsSync readFileSync jsonParse filePath = true ->
  ConfigFile.loadConfigFile existsSync readFileSync jsonParse filePath = None.
Proof.
  unfold unusableFile, ConfigFile.loadConfigFile.
  destruct (existsSync filePath); cbn [negb orb]; [|reflexivity].
  destruct (readFileSync filePath) as [content|]; [|reflexivity].
  destruct (jsonParse content) as [[keys| |]|]; try reflexivity. discriminate.
Qed.

Lemma spread_empty_l p : ConfigFile.spread ConfigFile.emptyPartial p = p.
Proof.
  destruct p. unfold ConfigFile.spread, ConfigFile.emptyPartial.
  cbn. now rewrite !over_undefined_l.
Qed.

(** X29. A configuration file that cannot be used is ignored without an
    error: when neither file is usable (missing, unreadable, not JSON, or
    JSON that is not an object), [loadConfigSync] returns what the
    environment alone gives over the defaults, and the defaults themselves
    when the environment sets nothing. *)
Theorem unusable_files_are_ignored :
  forall (existsSync : string -> bool) (readFileSync : string -> option string)
         (jsonParse : string -> option ConfigFile.Parsed)
         (parseInt parseFloat : string -> ConfigFile.JsNumber)
         (projectConfigPath globalConfigPath : string) (env : ConfigFile.Env),
    unusableFile existsSync readFileSync jsonParse projectConfigPath = true ->
    unusableFile existsSync readFileSync jsonParse globalConfigPath = true ->
    ConfigFile.loadConfigSync existsSync readFileSync jsonParse parseInt parseFloat
                              projectConfigPath globalConfigPath env
    = ConfigFile.mergeConfig (ConfigFile.loadEnvConfig parseInt parseFloat env)
                             ConfigFile.defaultConfig
    /\ (env = noEnv ->
        ConfigFile.loadConfigSync existsSync readFileSync jsonParse parseInt parseFloat
                                  projectConfigPath globalConfigPath env
        = ConfigFile.defaultConfig).
Proof.
  intros until env. intros Hp Hg.
  assert (E : ConfigFile.loadConfigSync existsSync readFileSync jsonParse parseInt
                parseFloat projectConfigPath globalConfigPath env
              = ConfigFile.mergeConfig (ConfigFile.loadEnvConfig parseInt parseFloat env)
                                       ConfigFile.defaultConfig).
  { unfold ConfigFile.loadConfigSync, ConfigFile.mergedSources.
    rewrite (unusableFile_loadConfigFile _ _ _ _ Hp),
      (unusableFile_loadConfigFile _ _ _ _ Hg).
    cbv zeta. now rewrite spread_empty_l. }
  split; [exact E|]. intros ->. rewrite E. reflexivity.
Qed.

Lemma unusable_files_are_ignored_witness :
  ConfigFile.loadConfigSync everyFileExists readAny parseFails parseMinusFive
                            parseMinusFive "project.json" "global.json" noEnv
  = ConfigFile.defaultConfig.
Proof.
  apply (unusable_files_are_ignored everyFileExists readAny parseFails parseMinusFive
           parseMinusFive "project.json" "global.json" noEnv);
    reflexivity.
Defined.

(** X30. Only active subagent streams are listed.  Every agent that
    [getAllActiveAgentsGlobally] returns stands for a stream of a tracked
    session, under that stream's key, that has received a first token and
    was updated within the activity window, and that either carries agent
    metadata or belongs to a session other than the primary one; its
    rates and total are read off that stream's tracker.  The primary
    session's own stream is never listed. *)
Theorem listed_agents_are_active_subagents :
  forall (config : Plugin.Config) (now : Z) (s : Plugin.State)
         (a : Plugin.AgentDisplayState),
    In a (Plugin.getAllActiveAgentsGlobally config now s) ->
    exists sessionId ss mt,
      In (sessionId, ss) (Plugin.sessionTrackers s)
      /\ In (Plugin.ad_id a, mt) (Plugin.messageTrackers ss)
      /\ Plugin.truthyNum (Plugin.mt_firstTokenAt mt) = true
      /\ now - Plugin.mt_lastUpdated mt <= Plugin.activityWindow config
      /\ (Plugin.hasAgentMetadata mt = true
          \/ Plugin.differsFromPrimary sessionId s = true)
      /\ Plugin.ad_instantTps a = TrackerEwma.getSmoothedTPS now (Plugin.mt_tracker mt)
      /\ Plugin.ad_avgTps a = TrackerEwma.getAverageTPS now (Plugin.mt_tracker mt)
      /\ Plugin.ad_totalTokens a = TrackerEwma.getTotalTokens (Plugin.mt_tracker mt).
Proof.
  intros config now s a H. unfold Plugin.getAllActiveAgentsGlobally in H.
  apply (Permutation_in _ (sortByRate_perm _)) in H.
  apply in_flat_map in H. destruct H as ([sid ss] & Hs & H).
  apply in_flat_map in H. destruct H as ([key mt] & Hm & H).
  cbn [fst snd] in H. unfold Plugin.agentEntry in H. cbn [fst snd] in H.
  destruct (Plugin.truthyNum (Plugin.mt_firstTokenAt mt)) eqn:Ef; cbn [negb] in H;
    [|destruct H].
  destruct (Plugin.activityWindow config <? now - Plugin.mt_lastUpdated mt) eqn:Ea;
    [destruct H|].
  exists sid, ss, mt.
  destruct (Plugin.hasAgentMetadata mt) eqn:Eh.
  - destruct H as [<-|[]]. cbn. repeat split; auto; lia.
  - destruct (Plugin.differsFromPrimary sid s) eqn:Ed; [|destruct H].
    destruct H as [<-|[]]. cbn. repeat split; auto; lia.
Qed.

Lemma listed_agents_are_active_subagents_witness :
  exists a sessionId ss mt,
    In a (Plugin.getAllActiveAgentsGlobally defaultConfig 1301
            (stateAfter defaultConfig subagentStreams))
    /\ In (sessionId, ss) (Plugin.sessionTrackers (stateAfter defaultConfig subagentStreams))
    /\ In (Plugin.ad_id a, mt) (Plugin.messageTrackers ss)
    /\ Plugin.truthyNum (Plugin.mt_firstTokenAt mt) = true
    /\ 1301 - Plugin.mt_lastUpdated mt <= Plugin.activityWindow defaultConfig
    /\ (Plugin.hasAgentMetadata mt = true
        \/ Plugin.differsFromPrimary sessionId (stateAfter defaultConfig subagentStreams)
           = true)
    /\ Plugin.ad_instantTps a = TrackerEwma.getSmoothedTPS 1301 (Plugin.mt_tracker mt)
    /\ Plugin.ad_avgTps a = TrackerEwma.getAverageTPS 1301 (Plugin.mt_tracker mt)
    /\ Plugin.ad_totalTokens a = TrackerEwma.getTotalTokens (Plugin.mt_tracker mt).
Proof.
  assert (Hin : { a | In a (Plugin.getAllActiveAgentsGlobally defaultConfig 1301
                              (stateAfter defaultConfig subagentStreams)) }).
  { eexists.
    lazy -[IZR Rdiv Rmult Rplus Rminus Ropp Rinv exp ln Rmax Rmin Plugin.Rleb UI.Rltb].
    left. reflexivity. }
  destruct Hin as [a Hin].
  destruct (listed_agents_are_active_subagents defaultConfig 1301
              (stateAfter defaultConfig subagentStreams) a Hin)
    as (sessionId & ss & mt & H).
  exists a, sessionId, ss, mt. split; [exact Hin|exact H].
Defined.
